(** * AI Fitness Coach: the plan-generation core of [app.py]

    A shallow embedding of the three core functions of the application
    ([ferramenta_matematica_treino], [generate_plan], [render_plan_markdown])
    together with the parts of the Python runtime they rely on (floor division,
    list indexing, [random.sample], [random.shuffle], binary64 arithmetic and
    [round]), followed by the properties of the design document. *)

From Stdlib Require Import ZArith List String Ascii Bool Lia Permutation.
From Stdlib Require Import Floats DecimalString.
Import ListNotations.

Set Warnings "-inexact-float".
Local Open Scope string_scope.
Local Open Scope list_scope.
Local Open Scope Z_scope.

(** ** Exceptions and the two effect layers

    Pure but fallible code lives in [result]; code that also draws from the
    process-wide random source lives in [M], a state-and-error monad over a
    tape of raw draws. *)

Inductive exn : Set :=
| ZeroDivisionError
| OverflowError
| ValueError
| IndexError
| KeyError.

Inductive result (A : Type) : Type :=
| Ok (a : A)
| Raise (e : exn).
Arguments Ok {A} a.
Arguments Raise {A} e.

Definition result_bind {A B} (r : result A) (k : A -> result B) : result B :=
  match r with
  | Ok a => k a
  | Raise e => Raise e
  end.

Definition tape := list nat.

Definition M (A : Type) : Type := tape -> result (A * tape).

Definition ret {A} (a : A) : M A := fun t => Ok (a, t).

Definition bind {A B} (m : M A) (k : A -> M B) : M B :=
  fun t =>
    match m t with
    | Ok (a, t') => k a t'
    | Raise e => Raise e
    end.

Definition raise {A} (e : exn) : M A := fun _ => Raise e.

Definition lift {A} (r : result A) : M A :=
  fun t =>
    match r with
    | Ok a => Ok (a, t)
    | Raise e => Raise e
    end.

Declare Scope py_scope.
Delimit Scope py_scope with py.
Notation "'let?' x ':=' r 'in' k" := (result_bind r (fun x => k))
  (at level 10, x pattern, r at level 100, k at level 200, only parsing) : py_scope.
Notation "'let*' x ':=' m 'in' k" := (bind m (fun x => k))
  (at level 10, x pattern, m at level 100, k at level 200, only parsing) : py_scope.
Local Open Scope py_scope.

(** ** Integer and list primitives of the runtime *)

(** [a // b] on integers: floor division, [ZeroDivisionError] on a zero divisor. *)
Definition py_floordiv (a b : Z) : result Z :=
  if b =? 0 then Raise ZeroDivisionError else Ok (a / b).

(** [a % b] on integers: the remainder has the sign of the divisor. *)
Definition py_mod (a b : Z) : result Z :=
  if b =? 0 then Raise ZeroDivisionError else Ok (a mod b).

(** [range(lo, hi)], empty when [hi <= lo]. *)
Definition range (lo hi : Z) : list Z :=
  map (fun i => lo + Z.of_nat i) (seq 0 (Z.to_nat (hi - lo))).

Definition len {A} (l : list A) : Z := Z.of_nat (List.length l).

(** [l[i]]: negative indices count from the end, anything else out of range
    raises [IndexError]. *)
Definition list_getitem {A} (l : list A) (i : Z) : result A :=
  let j := if i <? 0 then len l + i else i in
  if j <? 0 then Raise IndexError
  else match nth_error l (Z.to_nat j) with
       | Some x => Ok x
       | None => Raise IndexError
       end.

(** [l[j] = v] for a non-negative in-range index. *)
Fixpoint list_set {A} (l : list A) (j : nat) (v : A) : list A :=
  match l, j with
  | [], _ => []
  | _ :: l', O => v :: l'
  | x :: l', S j' => x :: list_set l' j' v
  end.

(** [d.get(key, default)] on a dict literal kept as an association list. *)
Fixpoint dict_get {V} (d : list (string * V)) (key : string) (default : V) : V :=
  match d with
  | [] => default
  | (k, v) :: d' => if String.eqb k key then v else dict_get d' key default
  end.

(** [d[key]], raising [KeyError] when the key is absent. *)
Fixpoint dict_getitem {V} (d : list (string * V)) (key : string) : result V :=
  match d with
  | [] => Raise KeyError
  | (k, v) :: d' => if String.eqb k key then Ok v else dict_getitem d' key
  end.

(** [x in {...}] for a set literal of strings. *)
Definition str_in (x : string) (s : list string) : bool :=
  existsb (String.eqb x) s.

(** ** The random source

    [randbelow n] consumes one raw draw of the tape and reduces it below [n];
    an exhausted tape keeps answering 0.  Every sequence of answers the real
    generator can give is the behaviour of some tape. *)

Definition randbelow (n : nat) : M nat :=
  fun t => Ok ((hd 0%nat t mod n)%nat, tl t).

(** The selection loop of [random.sample] for a population of at most 21
    elements (the branch taken for every list of the catalogue): the pool is a
    copy of the population, [m] is [n - i], and the chosen slot is refilled
    with the last live element. *)
Fixpoint sample_pool {A} (pool : list A) (m k : nat) : M (list A) :=
  match k with
  | O => ret []
  | S k' =>
      let* j := randbelow m in
      match nth_error pool j, nth_error pool (m - 1) with
      | Some x, Some y =>
          let* rest := sample_pool (list_set pool j y) (m - 1) k' in
          ret (x :: rest)
      | _, _ => raise IndexError
      end
  end.

(** [random.sample(population, k)]. *)
Definition random_sample {A} (population : list A) (k : Z) : M (list A) :=
  if (k <? 0) || (len population <? k) then raise ValueError
  else sample_pool population (List.length population) (Z.to_nat k).

(** The loop of [random.shuffle]: [i] runs from [len(x) - 1] down to 1 and
    [x[i]] is exchanged with [x[j]] for a [j] drawn below [i + 1]. *)
Fixpoint shuffle_loop {A} (x : list A) (i : nat) : M (list A) :=
  match i with
  | O => ret x
  | S i' =>
      let* j := randbelow (S i) in
      match nth_error x i, nth_error x j with
      | Some xi, Some xj => shuffle_loop (list_set (list_set x i xj) j xi) i'
      | _, _ => raise IndexError
      end
  end.

(** [random.shuffle(x)], returning the shuffled list. *)
Definition random_shuffle {A} (x : list A) : M (list A) :=
  shuffle_loop x (List.length x - 1).

(** ** Binary64 arithmetic as the interpreter performs it *)

(** [bool(x)] for a float: anything but a zero. *)
Definition float_truthy (x : float) : bool := negb (x =? 0)%float.

(** [a / b] on floats: [ZeroDivisionError] on a zero divisor, IEEE otherwise. *)
Definition float_div (a b : float) : result float :=
  if (b =? 0)%float then Raise ZeroDivisionError else Ok (a / b)%float.

Section Power.

(** [pow] of the C library: the value it returns and whether it leaves
    [errno] at [ERANGE].  The library is taken as it comes: its result for a
    square need not be the correctly rounded one. *)
Variable libm_pow : float -> float -> float * bool.

(** [x ** 2] on a float, as [float_pow] of the interpreter performs it for the
    exponent 2.0: not-a-number passes through, an infinity gives +infinity, a
    zero gives +0.0, 1.0 and -1.0 give 1.0, and every other base is handed, as
    its absolute value, to the library.  A range error reported with a zero
    result is dropped, an infinite result counts as a range error, and a range
    error raises [OverflowError]. *)
Definition float_sqr (x : float) : result float :=
  if is_nan x then Ok x
  else if is_infinity x then Ok infinity
  else if (x =? 0)%float then Ok 0%float
  else
    let iv := abs x in
    if (iv =? 1)%float then Ok 1%float
    else
      let (ix, erange) := libm_pow iv 2%float in
      let erange := if erange then negb (ix =? 0)%float else is_infinity ix in
      if erange then Raise OverflowError else Ok ix.

End Power.

(** The conversion applied to an [int] operand of a float operation: round to
    nearest even, [OverflowError] when the result is not finite. *)
Definition float_of_int (z : Z) : result float :=
  match binary_normalize prec emax z 0 false with
  | S754_infinity _ => Raise OverflowError
  | sf => Ok (SF2Prim sf)
  end.

Definition round_half_even (n d : Z) : Z :=
  let q := n / d in
  match 2 * (n mod d) ?= d with
  | Lt => q
  | Gt => q + 1
  | Eq => if Z.even q then q else q + 1
  end.

(** [round(x, ndigits)] for [ndigits >= 0]: the exact value of [x] is rounded
    half-even to [ndigits] decimals and the decimal is converted back to the
    nearest float; not-a-number, infinities and the sign of zero are kept. *)
Definition py_round (x : float) (ndigits : Z) : float :=
  match Prim2SF x with
  | S754_finite s m e =>
      let p := 10 ^ ndigits in
      let q := if 0 <=? e then Zpos m * 2 ^ e * p
               else round_half_even (Zpos m * p) (2 ^ (- e)) in
      match q with
      | Zpos qm =>
          SF2Prim (SFdiv prec emax (S754_finite s qm 0)
                                   (S754_finite false (Z.to_pos p) 0))
      | _ => SF2Prim (S754_zero s)
      end
  | _ => x
  end.

(** ** MetricsCalculator *)

Module Preset.
Record t : Set := mk {
  met : float;
  duration_hours : float;
  rep_range : string;
  intensity : string
}.
End Preset.

Module Analytics.
Record t : Set := mk {
  goal : string;
  estimated_session_calories : float;
  estimated_weekly_calories : float;
  bmi : option float;
  recommended_rep_range : string;
  recommended_intensity : string;
  volume_per_session : string;
  sessions_per_week : Z;
  experience_level : string
}.
End Analytics.

Definition goal_presets : list (string * Preset.t) :=
  [ ("hipertrofia",
     Preset.mk 6.0 1.2 "6-12" "70-80% 1RM");
    ("emagrecimento",
     Preset.mk 5.5 1.15 "12-15" "Circuitos com pausa curta");
    ("forca",
     Preset.mk 6.8 1.25 "3-6" "80-90% 1RM");
    ("condicionamento",
     Preset.mk 7.2 1.05 "10-15" "Intervalos moderados") ].

Definition volume_table : list (string * string) :=
  [ ("iniciante", "14-18 séries por grupamento");
    ("intermediario", "18-22 séries por grupamento");
    ("avancado", "22-26 séries por grupamento") ].

(** [bool(s)] for a string. *)
Definition str_truthy (s : string) : bool :=
  match s with
  | EmptyString => false
  | String _ _ => true
  end.

Section Metrics.

(** [pow] of the C library, and [str.strip] and [str.lower] of the
    interpreter, taken as they come. *)
Variable libm_pow : float -> float -> float * bool.
Variables str_strip str_lower : string -> string.

Definition normalizar_objetivo (goal : string) : string :=
  if str_truthy goal then str_lower (str_strip goal) else "".

Definition normalizar_experiencia (level : string) : string :=
  if str_truthy level then str_lower (str_strip level) else "".

Definition ferramenta_matematica_treino
    (age : Z) (weight_kg : float) (training_frequency : Z)
    (primary_goal : string) (height_cm : option float)
    (experience_level : string) : result Analytics.t :=
  let goal_key := normalizar_objetivo primary_goal in
  let? default := dict_getitem goal_presets "hipertrofia" in
  let preset := dict_get goal_presets goal_key default in
  let? bmi :=
    match height_cm with
    | Some h =>
        if float_truthy h then
          let height_m := (h / 100.0)%float in
          let? sq := float_sqr libm_pow height_m in
          let? ratio := float_div weight_kg sq in
          Ok (Some (py_round ratio 2))
        else Ok None
    | None => Ok None
    end in
  let session_calories :=
    py_round (weight_kg * Preset.met preset * Preset.duration_hours preset)%float 1 in
  let? freq := float_of_int training_frequency in
  let weekly_calories := py_round (session_calories * freq)%float 1 in
  let volume :=
    dict_get volume_table (normalizar_experiencia experience_level)
             "18-22 séries por grupamento" in
  Ok (Analytics.mk goal_key session_calories weekly_calories bmi
        (Preset.rep_range preset) (Preset.intensity preset) volume
        training_frequency (normalizar_experiencia experience_level)).

End Metrics.

(** The interpreter's [strip] and [lower] on ASCII text, for running the
    functions on concrete inputs. *)
Definition ascii_space (c : ascii) : bool :=
  let n := nat_of_ascii c in
  ((9 <=? n) && (n <=? 13) || (28 <=? n) && (n <=? 32))%nat.

Fixpoint lstrip (s : string) : string :=
  match s with
  | String c s' => if ascii_space c then lstrip s' else s
  | EmptyString => EmptyString
  end.

Fixpoint rstrip (s : string) : string :=
  match s with
  | String c s' =>
      match rstrip s' with
      | EmptyString => if ascii_space c then EmptyString else String c EmptyString
      | r => String c r
      end
  | EmptyString => EmptyString
  end.

Definition ascii_strip (s : string) : string := rstrip (lstrip s).

Definition ascii_lower_char (c : ascii) : ascii :=
  let n := nat_of_ascii c in
  if ((65 <=? n) && (n <=? 90))%nat then ascii_of_nat (n + 32) else c.

Fixpoint ascii_lower (s : string) : string :=
  match s with
  | String c s' => String (ascii_lower_char c) (ascii_lower s')
  | EmptyString => EmptyString
  end.

(** A C library whose [pow] gives the correctly rounded square for the
    exponent 2 (the only exponent the program uses) and reports no range
    error of its own, for running the functions on concrete inputs. *)
Definition exact_pow (x y : float) : float * bool := ((x * x)%float, false).

(** ** Data model of the plan *)

Module UserProfile.
Record t : Set := mk {
  age : Z;
  weight_kg : float;
  height_cm : option float;
  training_frequency : Z;
  primary_goal : string;
  experience_level : string;
  restrictions : option string;
  additional_notes : option string
}.
End UserProfile.

Module Split.
Record t : Set := mk {
  name : string;
  muscles : list string;
  focus : string
}.
End Split.

Module Prescription.
Record t : Set := mk {
  exercise : string;
  sets : Z;
  reps : string;
  rest : string;
  notes : string
}.
End Prescription.

Module Session.
Record t : Set := mk {
  day : Z;
  name : string;
  focus : string;
  resumo : string;
  exercises : list Prescription.t;
  conditioning : option string;
  mobility : option string;
  progression : option string
}.
End Session.

Module Week.
Record t : Set := mk {
  week : Z;
  focus : string;
  sessions : list Session.t
}.
End Week.

Module Overview.
Record t : Set := mk {
  primary_goal : string;
  focus_points : list string;
  macrocycle_length_weeks : Z
}.
End Overview.

Module Plan.
Record t : Set := mk {
  overview : Overview.t;
  guidelines : list string;
  training_weeks : list Week.t;
  recovery : list string;
  nutrition_tips : list string;
  progression_strategy : string
}.
End Plan.

(** ** ExerciseCatalog *)

Definition exercise_dict : list (string * list string) :=
  [ ("chest",
     [ "Supino reto com barra"; "Supino inclinado com halteres";
       "Crucifixo na máquina"; "Peck deck"; "Flexões" ]);
    ("triceps",
     [ "Tríceps pulley"; "Tríceps testa"; "Mergulho banco";
       "Tríceps corda"; "Kickback" ]);
    ("back",
     [ "Puxada frontal"; "Remada curvada com barra";
       "Remada unilateral com haltere"; "Pulldown"; "Levantamento terra" ]);
    ("biceps",
     [ "Rosca direta com barra"; "Rosca alternada"; "Rosca martelo";
       "Rosca concentrada"; "Rosca Scott" ]);
    ("legs",
     [ "Agachamento livre"; "Leg press"; "Cadeira extensora";
       "Cadeira flexora"; "Afundo com halteres"; "Panturrilha em pé" ]);
    ("shoulders",
     [ "Desenvolvimento com barra"; "Desenvolvimento com halteres";
       "Elevação lateral"; "Elevação frontal"; "Remada alta" ]);
    ("glutes",
     [ "Agachamento sumô"; "Peso morto stiff"; "Glute bridge";
       "Cadeira abdutora"; "Elevação de quadril" ]);
    ("abs",
     [ "Prancha"; "Abdominal supra"; "Elevação de pernas";
       "Abdominal oblíquo"; "Prancha lateral" ]) ].

Definition cardio_exercises : list string :=
  [ "Burpees"; "Mountain climbers"; "Agachamento com salto"; "Polichinelos";
    "Corrida estacionária"; "Pular corda"; "Kettlebell swing";
    "Clean and press com halteres leves"; "Flexões"; "Abdominal bicicleta" ].

Definition hypertrophy_splits : list Split.t :=
  [ Split.mk "Treino A - Peito e Tríceps" ["chest"; "triceps"] "Peito e Tríceps";
    Split.mk "Treino B - Costas e Bíceps" ["back"; "biceps"] "Costas e Bíceps";
    Split.mk "Treino C - Pernas e Ombros" ["legs"; "shoulders"] "Pernas e Ombros";
    Split.mk "Treino D - Peito e Costas" ["chest"; "back"] "Peito e Costas";
    Split.mk "Treino E - Pernas e Glúteos" ["legs"; "glutes"] "Pernas e Glúteos";
    Split.mk "Treino F - Ombros e Braços" ["shoulders"; "biceps"; "triceps"]
             "Ombros e Braços" ].

Definition strength_splits : list Split.t :=
  [ Split.mk "Treino A - Agachamento" ["legs"; "glutes"; "back"]
             "Força em Agachamento";
    Split.mk "Treino B - Supino e Press" ["chest"; "shoulders"; "triceps"]
             "Força em Supino";
    Split.mk "Treino C - Deadlift" ["legs"; "back"] "Força em Deadlift";
    Split.mk "Treino D - Full Body" ["legs"; "back"; "chest"; "shoulders"]
             "Força Total" ].

Definition conditioning_splits : list Split.t :=
  [ Split.mk "Circuito HIIT" [] "Alta intensidade";
    Split.mk "Circuito de Resistência" [] "Resistência Muscular";
    Split.mk "Circuito Cardio e Força" [] "Cardio e Força";
    Split.mk "Circuito Funcional" [] "Funcional" ].

Definition emagrecimento_splits : list Split.t :=
  [ Split.mk "Circuito A" [] "Circuito";
    Split.mk "Circuito B" [] "Circuito";
    Split.mk "Circuito C" [] "Circuito";
    Split.mk "Circuito D" [] "Circuito" ].

(** ** PlanScheduler *)

Definition total_sessions : Z := 12.

(** [bool(l)] for a list. *)
Definition list_truthy {A} (l : list A) : bool :=
  match l with
  | [] => false
  | _ :: _ => true
  end.

(** The [for muscle in muscles] loop of [pick_exercises]. *)
Fixpoint pick_muscles (muscles : list string) (exercises : list string)
  : M (list string) :=
  match muscles with
  | [] => ret exercises
  | muscle :: rest =>
      let choices := dict_get exercise_dict muscle [] in
      if list_truthy choices then
        let* selected := random_sample choices (Z.min 2 (len choices)) in
        pick_muscles rest (exercises ++ selected)
      else pick_muscles rest exercises
  end.

Definition pick_exercises (muscles : list string) (obj : string)
  : M (list string) :=
  if str_in obj ["hipertrofia"; "forca"] then
    let* exercises := pick_muscles muscles [] in
    let* exercises := random_shuffle exercises in
    ret (firstn 6 exercises)
  else random_sample cardio_exercises 5.

(** The split list a goal is scheduled from: the last branch is the [else]
    of the source. *)
Definition goal_splits (goal : string) : list Split.t :=
  if String.eqb goal "hipertrofia" then hypertrophy_splits
  else if String.eqb goal "forca" then strength_splits
  else if String.eqb goal "condicionamento" then conditioning_splits
  else emagrecimento_splits.

(** The prescription appended for one exercise: again the last branch is the
    [else] of the source. *)
Definition prescribe (goal : string) (ex : string) : Prescription.t :=
  if String.eqb goal "hipertrofia" then Prescription.mk ex 4 "8-12" "60-90s" ""
  else if String.eqb goal "forca" then Prescription.mk ex 4 "4-6" "2-3min" ""
  else if String.eqb goal "emagrecimento" then Prescription.mk ex 3 "12-15" "30s" ""
  else Prescription.mk ex 3 "10-15" "30-60s" "".

(** The [for day in range(1, freq + 1)] loop, over the days still to visit;
    the state is [week_sessions] and the global counter. *)
Fixpoint day_loop (goal : string) (days : list Z)
    (week_sessions : list Session.t) (sessions_generated : Z)
  : M (list Session.t * Z) :=
  match days with
  | [] => ret (week_sessions, sessions_generated)
  | day :: days' =>
      if total_sessions <=? sessions_generated then
        ret (week_sessions, sessions_generated)
      else
        let splits := goal_splits goal in
        let* index := lift (py_mod sessions_generated (len splits)) in
        let* split := lift (list_getitem splits index) in
        let* exercises := pick_exercises (Split.muscles split) goal in
        let ex_list := map (prescribe goal) exercises in
        let session :=
          Session.mk day (Split.name split) (Split.focus split) "" ex_list
                     None None None in
        day_loop goal days' (week_sessions ++ [session]) (sessions_generated + 1)
  end.

(** The [for week_num in range(1, weeks + 1)] loop, over the weeks still to
    visit; the state is [training_weeks] and the global counter. *)
Fixpoint week_loop (goal : string) (freq : Z) (week_nums : list Z)
    (training_weeks : list Week.t) (sessions_generated : Z)
  : M (list Week.t * Z) :=
  match week_nums with
  | [] => ret (training_weeks, sessions_generated)
  | week_num :: week_nums' =>
      let* (week_sessions, sessions_generated) :=
        day_loop goal (range 1 (freq + 1)) [] sessions_generated in
      let training_weeks :=
        training_weeks
        ++ [Week.mk week_num ("Semana de " ++ goal)%string week_sessions] in
      if total_sessions <=? sessions_generated then
        ret (training_weeks, sessions_generated)
      else week_loop goal freq week_nums' training_weeks sessions_generated
  end.

Definition generate_plan (user_profile : UserProfile.t) (analytics : Analytics.t)
  : M Plan.t :=
  let goal := UserProfile.primary_goal user_profile in
  let freq := UserProfile.training_frequency user_profile in
  let* weeks := lift (py_floordiv (total_sessions + freq - 1) freq) in
  let* (training_weeks, _) := week_loop goal freq (range 1 (weeks + 1)) [] 0 in
  ret (Plan.mk
         (Overview.mk goal [goal] weeks)
         [ "Realize um aquecimento de 5-10 minutos antes das sessões";
           "Mantenha-se hidratado durante todo o treino";
           "Foque na execução correta dos movimentos" ]
         training_weeks
         [ "Durma pelo menos 7-8 horas por noite";
           "Inclua alongamentos após os treinos";
           "Faça dias de descanso ativo conforme necessário" ]
         [ "Ajuste sua alimentação de acordo com o objetivo";
           "Inclua proteínas magras e carboidratos complexos";
           "Beba bastante água" ]
         "Aumente gradualmente a carga ou repetições a cada semana conforme se sentir confortável.").

(** ** PlanRenderer *)

(** [str(n)] for an integer within the interpreter's limit on the digits of
    a conversion, as are the integers the program computes or reads from the
    form. *)
Definition str_of_int (n : Z) : string := NilZero.string_of_int (Z.to_int n).

(** [sep.join(parts)]. *)
Definition join (sep : string) (parts : list string) : string :=
  String.concat sep parts.

(** An f-string, given as the sequence of its pieces. *)
Definition fstr (pieces : list string) : string := String.concat "" pieces.

(** [bool(v)] for an optional string. *)
Definition opt_truthy (v : option string) : bool :=
  match v with
  | Some s => str_truthy s
  | None => false
  end.

Definition opt_text (v : option string) : string :=
  match v with
  | Some s => s
  | None => ""
  end.

Definition newline : string := String (ascii_of_nat 10) EmptyString.

(** A titled bullet list, left out when the list is empty. *)
Definition render_bullets (title : string) (items : list string) : list string :=
  if list_truthy items then
    [title] ++ map (fun item => fstr ["- "; item]) items ++ [""]
  else [].

(** The body of [for ex in exercises]. *)
Definition render_exercise (ex : Prescription.t) : string :=
  let parts :=
    [fstr [str_of_int (Prescription.sets ex); "x"]] ++ [Prescription.reps ex]
    ++ (if str_truthy (Prescription.rest ex)
        then [fstr ["descanso "; Prescription.rest ex]] else []) in
  let rep_str := join " " parts in
  let line :=
    if str_truthy (Prescription.exercise ex)
    then fstr ["- "; Prescription.exercise ex; " "; rep_str]
    else "-" in
  if str_truthy (Prescription.notes ex)
  then fstr [line; " – "; Prescription.notes ex]
  else line.

(** The body of [for session_idx, session in enumerate(sessions, 1)]. *)
Definition render_session (session_idx : Z) (session : Session.t) : list string :=
  let name :=
    if str_truthy (Session.name session) then Session.name session
    else fstr ["Sessão "; str_of_int session_idx] in
  let session_header :=
    if str_truthy name then fstr ["#### "; name] else "#### Sessão" in
  let session_header :=
    if str_truthy (Session.focus session)
    then fstr [session_header; " – "; Session.focus session]
    else session_header in
  [session_header]
  ++ (if str_truthy (Session.resumo session) then [Session.resumo session] else [])
  ++ (if list_truthy (Session.exercises session)
      then "##### Exercícios" :: map render_exercise (Session.exercises session)
      else [])
  ++ (if opt_truthy (Session.conditioning session)
      then [fstr ["- **Condicionamento:** "; opt_text (Session.conditioning session)]]
      else [])
  ++ (if opt_truthy (Session.mobility session)
      then [fstr ["- **Mobilidade:** "; opt_text (Session.mobility session)]]
      else [])
  ++ (if opt_truthy (Session.progression session)
      then [fstr ["- **Progressão:** "; opt_text (Session.progression session)]]
      else [])
  ++ [""].

Fixpoint render_sessions (session_idx : Z) (sessions : list Session.t)
  : list string :=
  match sessions with
  | [] => []
  | session :: rest =>
      render_session session_idx session ++ render_sessions (session_idx + 1) rest
  end.

(** The body of [for week in training_weeks]. *)
Definition render_week (week : Week.t) : list string :=
  let header := fstr ["### Semana "; str_of_int (Week.week week)] in
  let header :=
    if str_truthy (Week.focus week) then fstr [header; ": "; Week.focus week]
    else header in
  header :: render_sessions 1 (Week.sessions week).

Definition render_plan_markdown (plan_payload : Plan.t) : string :=
  let overview := Plan.overview plan_payload in
  let lines :=
    ["## Visão geral"]
    ++ (if str_truthy (Overview.primary_goal overview)
        then [fstr ["- **Objetivo principal:** "; Overview.primary_goal overview]]
        else [])
    ++ (if list_truthy (Overview.focus_points overview)
        then [fstr ["- **Pontos de foco:** ";
                    join ", " (Overview.focus_points overview)]]
        else [])
    ++ (if Overview.macrocycle_length_weeks overview =? 0 then []
        else [fstr ["- **Duração do macrociclo:** ";
                    str_of_int (Overview.macrocycle_length_weeks overview);
                    " semanas"]])
    ++ [""]
    ++ render_bullets "## Diretrizes" (Plan.guidelines plan_payload)
    ++ (if list_truthy (Plan.training_weeks plan_payload)
        then "## Semanas de treino"
             :: flat_map render_week (Plan.training_weeks plan_payload) ++ [""]
        else [])
    ++ render_bullets "## Recuperação" (Plan.recovery plan_payload)
    ++ render_bullets "## Dicas de nutrição" (Plan.nutrition_tips plan_payload)
    ++ (if str_truthy (Plan.progression_strategy plan_payload)
        then ["## Estratégia de progressão";
              Plan.progression_strategy plan_payload; ""]
        else []) in
  join newline lines.

(** ** Values of the interpreter seen by the display and search helpers *)

Set Warnings "-register-all".
Inductive pyval : Type :=
| PNone
| PBool (b : bool)
| PInt (z : Z)
| PFloat (x : float)
| PStr (s : string)
| PList (l : list pyval)
| PDict (d : list (string * pyval)).
Set Warnings "register-all".

(** [bool(v)]. *)
Definition py_truthy (v : pyval) : bool :=
  match v with
  | PNone => false
  | PBool b => b
  | PInt z => negb (z =? 0)
  | PFloat x => float_truthy x
  | PStr s => str_truthy s
  | PList l => list_truthy l
  | PDict d => list_truthy d
  end.

(** [a or b]: the first operand when it is truthy, the second otherwise. *)
Definition py_or (a b : pyval) : pyval := if py_truthy a then a else b.

(** [key in d] and the value stored under a key, for a dict. *)
Definition dict_mem {V} (d : list (string * V)) (key : string) : bool :=
  existsb (fun kv => String.eqb (fst kv) key) d.

Fixpoint dict_find {V} (d : list (string * V)) (key : string) : option V :=
  match d with
  | [] => None
  | (k, v) :: d' => if String.eqb k key then Some v else dict_find d' key
  end.

(** [l[:n]]: a negative bound counts from the end. *)
Definition py_slice_to {A} (l : list A) (n : Z) : list A :=
  if 0 <=? n then firstn (Z.to_nat n) l
  else firstn (Z.to_nat (len l + n)) l.

(** The dict literal returned by [ferramenta_matematica_treino]. *)
Definition analytics_dict (r : Analytics.t) : list (string * pyval) :=
  [ ("goal", PStr (Analytics.goal r));
    ("estimated_session_calories", PFloat (Analytics.estimated_session_calories r));
    ("estimated_weekly_calories", PFloat (Analytics.estimated_weekly_calories r));
    ("bmi", match Analytics.bmi r with
            | Some b => PFloat b
            | None => PNone
            end);
    ("recommended_rep_range", PStr (Analytics.recommended_rep_range r));
    ("recommended_intensity", PStr (Analytics.recommended_intensity r));
    ("volume_per_session", PStr (Analytics.volume_per_session r));
    ("sessions_per_week", PInt (Analytics.sessions_per_week r));
    ("experience_level", PStr (Analytics.experience_level r)) ].

(** ** Search results and what is thrown while searching

    A search result holds values decoded from the JSON answer; an integer
    among them is within the interpreter's limit on digits, beyond which the
    decoding itself fails. *)

Module Hit.
Record t : Type := mk {
  title : pyval;
  snippet : pyval;
  url : pyval
}.
End Hit.

Module Research.
Record t : Type := mk {
  query : string;
  results : list Hit.t
}.
End Research.

(** The dict a search result is. *)
Definition hit_dict (h : Hit.t) : pyval :=
  PDict [ ("title", Hit.title h); ("snippet", Hit.snippet h); ("url", Hit.url h) ].

Inductive web_exn : Type :=
| RequestFailed (message : string)
| NoGetAttribute (data : pyval)
| NotIterable (items : pyval)
| RecursionError.

Inductive attempt (A : Type) : Type :=
| Done (a : A)
| Thrown (e : web_exn).
Arguments Done {A} a.
Arguments Thrown {A} e.

Definition attempt_bind {A B} (r : attempt A) (k : A -> attempt B) : attempt B :=
  match r with
  | Done a => k a
  | Thrown e => Thrown e
  end.

Notation "'let!' x ':=' r 'in' k" := (attempt_bind r (fun x => k))
  (at level 10, x pattern, r at level 100, k at level 200, only parsing) : py_scope.

(** [for item in items]: a list gives its elements, a dict its keys and a
    string its characters; nothing else can be iterated. *)
Definition iterate (items : pyval) : attempt (list pyval) :=
  match items with
  | PList l => Done l
  | PDict d => Done (map (fun kv => PStr (fst kv)) d)
  | PStr s =>
      Done (map (fun c => PStr (String c EmptyString)) (list_ascii_of_string s))
  | _ => Thrown (NotIterable items)
  end.

(** What one element of the response contributes on its own. *)
Definition direct_topic (item : list (string * pyval)) : list Hit.t :=
  if dict_mem item "Text"
  then [Hit.mk (dict_get item "Text" (PStr "")) (PStr "")
               (dict_get item "FirstURL" (PStr ""))]
  else [].

(** The generator [extract_topics], run to its end; [depth] is the number of
    nested calls the interpreter still allows. *)
Fixpoint extract_topics (depth : nat) (items : list pyval) : attempt (list Hit.t) :=
  match depth with
  | O => Thrown RecursionError
  | S depth' =>
      (fix each (items : list pyval) : attempt (list Hit.t) :=
         match items with
         | [] => Done []
         | item :: rest =>
             let! here :=
               match item with
               | PDict d =>
                   let! sub :=
                     match dict_find d "Topics" with
                     | Some (PList topics) => extract_topics depth' topics
                     | _ => Done []
                     end in
                   Done (direct_topic d ++ sub)
               | _ => Done []
               end in
             let! more := each rest in
             Done (here ++ more)
         end) items
  end.

(** ** The helpers around the core, and the page *)

Inductive ui : Type :=
| Subheader (text : string)
| Markdown (text : string)
| ErrorBox (text : string).

Section Application.

(** [pow] of the C library; [str] of a float, a list or a dict; the
    interpreter's limit on the digits of an integer turned into text
    ([sys.get_int_max_str_digits()]: 4300 unless configured, 0 for none);
    [str.strip], [str.lower] and [float] of the interpreter; [str] of an
    exception; the HTTP request with the decoding of its answer, and the depth
    of calls left to the generator. *)
Variable libm_pow : float -> float -> float * bool.
Variable py_repr : pyval -> string.
Variable int_max_str_digits : Z.
Variables str_strip str_lower : string -> string.
Variable parse_float : string -> option float.
Variable exn_message : exn -> string.
Variable web_exn_text : web_exn -> string.
Variable http_get : string -> attempt pyval.
Variable recursion_limit : nat.

(** [str(v)], which is also what an f-string inserts, for a value that can
    be turned into text. *)
Definition py_str (v : pyval) : string :=
  match v with
  | PNone => "None"
  | PBool true => "True"
  | PBool false => "False"
  | PInt z => str_of_int z
  | PStr s => s
  | PFloat _ | PList _ | PDict _ => py_repr v
  end.

(** Whether a value can be turned into text: an integer of more digits than
    the limit cannot, nor can a list or dict that holds one. *)
Definition int_printable (z : Z) : bool :=
  (int_max_str_digits <=? 0) || (Z.abs z <? 10 ^ int_max_str_digits).

Fixpoint printable (v : pyval) : bool :=
  match v with
  | PInt z => int_printable z
  | PList l => forallb printable l
  | PDict d => forallb (fun kv => let (_, x) := kv : string * pyval in printable x) d
  | PNone | PBool _ | PFloat _ | PStr _ => true
  end.

(** The text an f-string inserts for a value of any origin: [ValueError] when
    the value cannot be turned into text. *)
Definition py_format (v : pyval) : result string :=
  if printable v then Ok (py_str v) else Raise ValueError.

Definition search_web (query : string) (max_results : Z) : list Hit.t :=
  if negb (str_truthy query) then []
  else
    match
      (let! data := http_get query in
       let! related :=
         match data with
         | PDict d => Done (dict_get d "RelatedTopics" (PList []))
         | _ => Thrown (NoGetAttribute data)
         end in
       let! items := iterate related in
       let! topics := extract_topics recursion_limit items in
       Done (py_slice_to topics max_results))
    with
    | Done results => results
    | Thrown exc =>
        [Hit.mk (PStr "Erro na pesquisa")
                (PStr (fstr ["Falha ao consultar a API de busca: ";
                             web_exn_text exc]))
                (PStr "")]
    end.

Definition formatar_analises (analises : list (string * pyval)) : result string :=
  if negb (list_truthy analises) then Ok ""
  else
    let get key := py_format (dict_get analises key PNone) in
    let? session := get "estimated_session_calories" in
    let? weekly := get "estimated_weekly_calories" in
    let? rep_range := get "recommended_rep_range" in
    let? intensity := get "recommended_intensity" in
    let? volume := get "volume_per_session" in
    let partes :=
      [ fstr ["- Calorias estimadas por sessão: "; session; " kcal"];
        fstr ["- Calorias semanais aproximadas: "; weekly; " kcal"];
        fstr ["- Faixa de repetições sugerida: "; rep_range];
        fstr ["- Intensidade sugerida: "; intensity];
        fstr ["- Volume por sessão: "; volume] ] in
    if py_truthy (dict_get analises "bmi" PNone) then
      let? bmi := dict_getitem analises "bmi" in
      let? bmi_text := py_format bmi in
      Ok (join newline (partes ++ [fstr ["- IMC aproximado: "; bmi_text]]))
    else Ok (join newline partes).

(** The body of [for item in pesquisa or []]. *)
Definition resumir_item (item : Research.t) : string :=
  let query := Research.query item in
  let resumo :=
    match Research.results item with
    | first :: _ =>
        let title :=
          py_or (py_or (Hit.title first) (Hit.url first)) (Hit.snippet first) in
        if py_truthy title then title else PStr (py_str (hit_dict first))
    | [] => PNone
    end in
  if py_truthy resumo then fstr [query; ": "; py_str resumo] else query.

Definition resumir_pesquisa_web (pesquisa : list Research.t) : list string :=
  map resumir_item pesquisa.

(** The profile built from the form. *)
Definition form_profile (age : Z) (weight : float) (height_cm : option float)
    (freq : Z) (primary_goal_display experience_display restrictions notes : string)
  : UserProfile.t :=
  let optional text :=
    if str_truthy (str_strip text) then Some (str_strip text) else None in
  UserProfile.mk age weight height_cm freq
    (normalizar_objetivo str_strip str_lower primary_goal_display)
    (normalizar_experiencia str_strip str_lower experience_display)
    (optional restrictions) (optional notes).

(** The three queries sent to the search helper. *)
Definition search_queries (user_profile : UserProfile.t) : list string :=
  let goal := UserProfile.primary_goal user_profile in
  [ fstr ["treino de musculação "; goal; " ";
          str_of_int (UserProfile.training_frequency user_profile);
          " dias por semana"];
    fstr ["melhores exercícios para "; goal; " academia"];
    fstr ["estratégias de treino para "; goal] ].

(** What is shown once profile, metrics, research and plan are there. *)
Definition show_results (user_profile : UserProfile.t)
    (analises : list (string * pyval)) (research_payload : list Research.t)
    (plan_markdown : string) : result (list ui) :=
  let height_line :=
    match UserProfile.height_cm user_profile with
    | Some h =>
        if float_truthy h
        then [Markdown (fstr ["- **Altura:** "; py_str (PFloat h); " cm"])]
        else []
    | None => []
    end in
  let? insights := formatar_analises analises in
  let resumo := resumir_pesquisa_web research_payload in
  Ok ([ Subheader "Perfil validado";
        Markdown (fstr ["- **Idade:** ";
                        str_of_int (UserProfile.age user_profile); " anos"]);
        Markdown (fstr ["- **Peso:** ";
                        py_str (PFloat (UserProfile.weight_kg user_profile));
                        " kg"]) ]
      ++ height_line
      ++ [ Markdown (fstr ["- **Frequência semanal:** ";
                           str_of_int (UserProfile.training_frequency user_profile);
                           " dias"]);
           Markdown (fstr ["- **Objetivo:** ";
                           UserProfile.primary_goal user_profile]);
           Markdown (fstr ["- **Nível:** ";
                           UserProfile.experience_level user_profile]);
           Subheader "Insights analíticos";
           Markdown insights ]
      ++ (if list_truthy resumo
          then Subheader "Referências encontradas na web"
               :: map (fun item => Markdown (fstr ["- "; item])) resumo
          else [])
      ++ [ Subheader "Plano final"; Markdown plan_markdown ]).

(** The output column of [main] for the values read from the form; [Raise]
    is an exception that nothing catches. *)
Definition main (age : Z) (weight : float) (height_input : string) (freq : Z)
    (primary_goal_display experience_display restrictions notes : string)
    (generate : bool) (t : tape) : result (list ui) :=
  if negb generate then Ok []
  else
    let height :=
      if str_truthy (str_strip height_input)
      then match parse_float (str_strip height_input) with
           | Some h => Some (Some h)
           | None => None
           end
      else Some None in
    match height with
    | None => Ok [ErrorBox "Altura inválida. Informe somente números (ex: 175)."]
    | Some height_cm =>
        let user_profile :=
          form_profile age weight height_cm freq primary_goal_display
                       experience_display restrictions notes in
        match ferramenta_matematica_treino libm_pow str_strip str_lower
                (UserProfile.age user_profile)
                (UserProfile.weight_kg user_profile)
                (UserProfile.training_frequency user_profile)
                (UserProfile.primary_goal user_profile)
                (UserProfile.height_cm user_profile)
                (UserProfile.experience_level user_profile) with
        | Raise exc =>
            Ok [ErrorBox (fstr ["Erro nos cálculos: "; exn_message exc])]
        | Ok analises =>
            let research_payload :=
              map (fun q => Research.mk q (search_web q 4))
                  (search_queries user_profile) in
            match generate_plan user_profile analises t with
            | Raise exc => Raise exc
            | Ok (plan_payload, _) =>
                show_results user_profile (analytics_dict analises)
                             research_payload
                             (render_plan_markdown plan_payload)
            end
        end
    end.

End Application.

(** ** Vocabulary of the properties *)

(** Number of sessions over all weeks of a plan. *)
Definition session_count (weeks : list Week.t) : Z :=
  fold_right (fun w acc => len (Week.sessions w) + acc) 0 weeks.

(** The sessions of a plan in the order they were generated. *)
Definition all_sessions (plan : Plan.t) : list Session.t :=
  flat_map Week.sessions (Plan.training_weeks plan).

(** The session sizes of a plan, week by week. *)
Definition distribution (plan : Plan.t) : list Z :=
  map (fun w => len (Week.sessions w)) (Plan.training_weeks plan).

Definition exercise_names (s : Session.t) : list string :=
  map Prescription.exercise (Session.exercises s).

(** A selection for one muscle group: as many names as the loop asks for (2,
    or the whole list when it is shorter), taken from distinct slots of the
    group's catalogue list. *)
Definition drawn_from (muscle : string) (selected : list string) : Prop :=
  List.length selected
  = Nat.min 2 (List.length (dict_get exercise_dict muscle []))
  /\ exists rest,
       Permutation (selected ++ rest) (dict_get exercise_dict muscle []).

(** How many names the muscle loop draws for a list of muscle groups. *)
Definition drawn (muscles : list string) : nat :=
  list_sum (map (fun muscle =>
                   Nat.min 2 (List.length (dict_get exercise_dict muscle [])))
                muscles).

(** The split template at position [k mod n] of the goal's list. *)
Definition split_at (goal : string) (k : Z) : option Split.t :=
  nth_error (goal_splits goal) (Z.to_nat (k mod len (goal_splits goal))).

(** What [pick_exercises] may return for a split. *)
Definition picked_ok (goal : string) (split : Split.t) (names : list string)
  : Prop :=
  if str_in goal ["hipertrofia"; "forca"] then
    exists selections shuffled,
      Forall2 drawn_from (Split.muscles split) selections
      /\ Permutation shuffled (List.concat selections)
      /\ names = firstn 6 shuffled
  else
    List.length names = 5%nat
    /\ NoDup names
    /\ (forall x, In x names -> In x cardio_exercises).

(** What the [k]-th generated session looks like. *)
Definition session_ok (goal : string) (k : Z) (s : Session.t) : Prop :=
  exists split names,
    split_at goal k = Some split
    /\ Session.name s = Split.name split
    /\ Session.focus s = Split.focus split
    /\ Session.exercises s = map (prescribe goal) names
    /\ picked_ok goal split names.

(** The preset of the design document for hypertrophy, and the preset a
    normalised goal selects. *)
Definition hypertrophy_preset : Preset.t :=
  Preset.mk 6.0 1.2 "6-12" "70-80% 1RM".

Definition preset_of (goal_key : string) : Preset.t :=
  dict_get goal_presets goal_key hypertrophy_preset.

Definition recognised_goals : list string :=
  ["hipertrofia"; "emagrecimento"; "forca"; "condicionamento"].

(** The BMI step of the metrics function, on its own. *)
Definition bmi_of (libm_pow : float -> float -> float * bool)
    (weight_kg : float) (height_cm : option float) : result (option float) :=
  match height_cm with
  | Some h =>
      if float_truthy h then
        let? sq := float_sqr libm_pow (h / 100.0)%float in
        let? ratio := float_div weight_kg sq in
        Ok (Some (py_round ratio 2))
      else Ok None
  | None => Ok None
  end.

(** A supplied height is positive. *)
Definition height_ok (height_cm : option float) : Prop :=
  match height_cm with
  | Some h => (0 <? h)%float = true
  | None => True
  end.

(** The documented input constraints of the core. *)
Definition documented_inputs (age : Z) (weight_kg : float)
    (height_cm : option float) (training_frequency : Z) : Prop :=
  0 <= age
  /\ (0 <? weight_kg)%float = true
  /\ height_ok height_cm
  /\ 1 <= training_frequency.

(** What the C library has to deliver for a supplied height: the height in
    metres is not a zero float, and [pow] answers its square with a finite,
    non-zero value and no range error. *)
Definition square_in_range (libm_pow : float -> float -> float * bool)
    (height_cm : float) : Prop :=
  let height_m := (height_cm / 100.0)%float in
  (height_m =? 0)%float = false
  /\ exists ix,
       libm_pow (abs height_m) 2%float = (ix, false)
       /\ is_infinity ix = false /\ (ix =? 0)%float = false.

(** [k] is the integer nearest to the exact value [m * 2^e * 10^n], the even
    one of the two when the value lies half-way. *)
Definition nearest_integer (m e n k : Z) : Prop :=
  if 0 <=? e then k = m * 2 ^ e * 10 ^ n
  else
    2 * Z.abs (m * 10 ^ n - k * 2 ^ (- e)) <= 2 ^ (- e)
    /\ (2 * Z.abs (m * 10 ^ n - k * 2 ^ (- e)) = 2 ^ (- e) -> Z.even k = true).

(** The float of the decimal [k / 10^n] with the sign [s]: the IEEE quotient
    of the two integers. *)
Definition decimal_to_float (s : bool) (k n : Z) : float :=
  match k with
  | Zpos km =>
      SF2Prim (SFdiv prec emax (S754_finite s km 0)
                                (S754_finite false (Z.to_pos (10 ^ n)) 0))
  | _ => SF2Prim (S754_zero s)
  end.

(** [y] is [x] rounded to [n] decimals: for a finite [x] of exact value
    [+/- m * 2^e], the float of [k / 10^n] where [k] is the integer nearest
    to [m * 2^e * 10^n], ties going to the even one; anything else is kept. *)
Definition rounded_to (n : Z) (x y : float) : Prop :=
  match Prim2SF x with
  | S754_finite s m e =>
      exists k, 0 <= k /\ nearest_integer (Zpos m) e n k
                /\ y = decimal_to_float s k n
  | _ => y = x
  end.

(** The height [main] reads from the text field: none for a blank field, and
    no reading at all for a text that is not a number. *)
Definition form_height (str_strip : string -> string)
    (parse_float : string -> option float) (height_input : string)
  : option (option float) :=
  if str_truthy (str_strip height_input)
  then match parse_float (str_strip height_input) with
       | Some h => Some (Some h)
       | None => None
       end
  else Some None.


(** A session as the scheduler builds it: the summary is empty and the three
    optional notes are absent. *)
Definition built_session (goal : string) (s : Session.t) : Prop :=
  exists day split names,
    In split (goal_splits goal)
    /\ s = Session.mk day (Split.name split) (Split.focus split) ""
                      (map (prescribe goal) names) None None None.

Definition built_week (goal : string) (w : Week.t) : Prop :=
  Week.focus w = ("Semana de " ++ goal)%string
  /\ Forall (built_session goal) (Week.sessions w).

(** The text that follows the exercise name on a rendered line, goal by goal. *)
Definition prescription_text (goal : string) : string :=
  if String.eqb goal "hipertrofia" then "4x 8-12 descanso 60-90s"
  else if String.eqb goal "forca" then "4x 4-6 descanso 2-3min"
  else if String.eqb goal "emagrecimento" then "3x 12-15 descanso 30s"
  else "3x 10-15 descanso 30-60s".

Definition exercise_line (goal : string) (ex : string) : string :=
  fstr ["- "; ex; " "; prescription_text goal].

(** A list of strings without repetition, decided. *)
Fixpoint nodupb (l : list string) : bool :=
  match l with
  | [] => true
  | x :: l' => negb (existsb (String.eqb x) l') && nodupb l'
  end.

(** All names a split can draw from. *)
Definition split_catalogue (split : Split.t) : list string :=
  flat_map (fun muscle => dict_get exercise_dict muscle []) (Split.muscles split).

(** The record shown when a search fails. *)
Definition error_hit (text : string) : Hit.t :=
  Hit.mk (PStr "Erro na pesquisa")
         (PStr (fstr ["Falha ao consultar a API de busca: "; text]))
         (PStr "").

(** [s] starts with [p]. *)
Definition starts_with (p s : string) : Prop := exists rest, s = (p ++ rest)%string.

(** The five lines of the metrics summary that are always there. *)
Definition insight_lines (py_repr : pyval -> string) (r : Analytics.t)
  : list string :=
  [ fstr ["- Calorias estimadas por sessão: ";
          py_repr (PFloat (Analytics.estimated_session_calories r)); " kcal"];
    fstr ["- Calorias semanais aproximadas: ";
          py_repr (PFloat (Analytics.estimated_weekly_calories r)); " kcal"];
    fstr ["- Faixa de repetições sugerida: "; Analytics.recommended_rep_range r];
    fstr ["- Intensidade sugerida: "; Analytics.recommended_intensity r];
    fstr ["- Volume por sessão: "; Analytics.volume_per_session r] ].

(** Sample inputs used to run the functions. *)
Definition profile_of (goal : string) (freq : Z) : UserProfile.t :=
  UserProfile.mk 30 80 None freq goal "iniciante" None None.

Definition no_analytics : Analytics.t :=
  Analytics.mk "" 0 0 None "" "" "" 0 "".

(** * Properties *)

(** ** Lists updated in place *)

Section ListSet.
Context {A : Type}.
Local Open Scope nat_scope.

Lemma list_set_length (l : list A) j v :
  List.length (list_set l j v) = List.length l.
Proof.
  revert j; induction l as [|a l IH]; intros [|j]; simpl; auto.
Qed.

Lemma nth_error_list_set_eq (l : list A) j v :
  j < List.length l -> nth_error (list_set l j v) j = Some v.
Proof.
  revert j; induction l as [|a l IH]; intros [|j] Hj; simpl in *; try lia; auto.
  apply IH; lia.
Qed.

Lemma nth_error_list_set_neq (l : list A) i j v :
  i <> j -> nth_error (list_set l j v) i = nth_error l i.
Proof.
  revert i j; induction l as [|a l IH]; intros [|i] [|j] Hij; simpl; auto;
    try congruence; apply IH; congruence.
Qed.

(** Overwriting slot [j] trades the old content [x] for the new one. *)
Lemma list_set_perm (l : list A) j x v :
  nth_error l j = Some x -> Permutation (v :: l) (x :: list_set l j v).
Proof.
  revert j; induction l as [|a l IH]; intros [|j] Hj; simpl in *; try discriminate.
  - injection Hj as ->. apply perm_swap.
  - eapply perm_trans; [apply perm_swap|].
    eapply perm_trans; [apply perm_skip, (IH _ Hj)|apply perm_swap].
Qed.

Lemma firstn_snoc (l : list A) n y :
  nth_error l n = Some y -> firstn (S n) l = firstn n l ++ [y].
Proof.
  revert n; induction l as [|a l IH]; intros [|n] Hn; simpl in *; try discriminate.
  - injection Hn as ->. reflexivity.
  - f_equal. apply IH, Hn.
Qed.

(** One step of the selection loop: the live part of the pool loses exactly
    the element that was drawn. *)
Lemma sample_step_perm (l : list A) j m x y :
  j < m -> nth_error l j = Some x -> nth_error l (m - 1) = Some y ->
  Permutation (firstn m l) (x :: firstn (m - 1) (list_set l j y)).
Proof.
  revert j m; induction l as [|a l IH]; intros j m Hjm Hx Hy.
  - destruct j; discriminate.
  - destruct m as [|m]; [lia|].
    replace (S m - 1) with m in * by lia.
    destruct j as [|j]; simpl in Hx.
    + injection Hx as ->.
      change (firstn (S m) (x :: l)) with (x :: firstn m l).
      apply perm_skip.
      destruct m as [|m].
      * apply Permutation_refl.
      * simpl in Hy.
        change (list_set (x :: l) 0 y) with (y :: l).
        change (firstn (S m) (y :: l)) with (y :: firstn m l).
        rewrite (firstn_snoc _ _ _ Hy).
        apply Permutation_sym, Permutation_cons_append.
    + destruct m as [|m]; [lia|]. simpl in Hy.
      change (list_set (a :: l) (S j) y) with (a :: list_set l j y).
      change (firstn (S (S m)) (a :: l)) with (a :: firstn (S m) l).
      change (firstn (S m) (a :: list_set l j y))
        with (a :: firstn m (list_set l j y)).
      eapply perm_trans; [|apply perm_swap]. apply perm_skip.
      specialize (IH j (S m)). replace (S m - 1) with m in IH by lia.
      apply IH; auto; lia.
Qed.

End ListSet.

(** ** The random source: what a draw can return *)

Section RandomSource.
Context {A : Type}.
Local Open Scope nat_scope.

Lemma randbelow_spec n t :
  0 < n -> exists j, randbelow n t = Ok (j, tl t) /\ j < n.
Proof.
  intros Hn. exists (hd 0 t mod n). split; [reflexivity|].
  apply Nat.mod_upper_bound; lia.
Qed.

(** The selection loop returns [k] elements taken from distinct slots of the
    live pool: together with some remainder they are a rearrangement of it. *)
Lemma sample_pool_spec k : forall (pool : list A) m t,
  k <= m -> m <= List.length pool ->
  exists res t' rest,
    sample_pool pool m k t = Ok (res, t')
    /\ List.length res = k
    /\ Permutation (res ++ rest) (firstn m pool).
Proof.
  induction k as [|k IH]; intros pool m t Hk Hm.
  - exists [], t, (firstn m pool). simpl. repeat split; auto.
  - destruct (randbelow_spec m t) as (j & Hj & Hlt); [lia|].
    destruct (nth_error pool j) as [x|] eqn:Hx;
      [|apply nth_error_None in Hx; lia].
    destruct (nth_error pool (m - 1)) as [y|] eqn:Hy;
      [|apply nth_error_None in Hy; lia].
    destruct (IH (list_set pool j y) (m - 1) (tl t))
      as (res & t' & rest & Hr & Hl & Hp).
    { lia. }
    { rewrite list_set_length; lia. }
    exists (x :: res), t', rest.
    cbn [sample_pool]. unfold bind. rewrite Hj, Hx, Hy, Hr. unfold ret.
    repeat split; simpl; auto.
    eapply perm_trans; [apply perm_skip, Hp|].
    apply Permutation_sym, sample_step_perm; auto.
Qed.

Lemma random_sample_spec (population : list A) (k : Z) t :
  (0 <= k <= len population)%Z ->
  exists res t' rest,
    random_sample population k t = Ok (res, t')
    /\ List.length res = Z.to_nat k
    /\ Permutation (res ++ rest) population.
Proof.
  intros Hk. unfold random_sample, len in *.
  replace ((k <? 0)%Z || (Z.of_nat (List.length population) <? k)%Z) with false
    by (symmetry; apply orb_false_iff; split; apply Z.ltb_ge; lia).
  destruct (sample_pool_spec (Z.to_nat k) population (List.length population) t)
    as (res & t' & rest & Hr & Hl & Hp); [lia|lia|].
  exists res, t', rest. rewrite firstn_all in Hp. auto.
Qed.

Lemma random_sample_In (population : list A) k t res t' :
  random_sample population k t = Ok (res, t') ->
  forall x, In x res -> In x population.
Proof.
  intros Hr x Hx. unfold random_sample in Hr.
  destruct ((k <? 0)%Z || (len population <? k)%Z) eqn:Hg; [discriminate|].
  apply orb_false_iff in Hg as [H1 H2].
  apply Z.ltb_ge in H1, H2.
  destruct (random_sample_spec population k t) as (res0 & t0 & rest & Hr0 & _ & Hp);
    [lia|].
  unfold random_sample in Hr0. rewrite (proj2 (orb_false_iff _ _)) in Hr0
    by (split; apply Z.ltb_ge; lia).
  rewrite Hr in Hr0. injection Hr0 as <- <-.
  eapply Permutation_in; [apply Hp|]. apply in_or_app; auto.
Qed.

Lemma random_sample_NoDup (population : list A) k t res t' :
  NoDup population ->
  random_sample population k t = Ok (res, t') -> NoDup res.
Proof.
  intros Hnd Hr. unfold random_sample in Hr.
  destruct ((k <? 0)%Z || (len population <? k)%Z) eqn:Hg; [discriminate|].
  apply orb_false_iff in Hg as [H1 H2].
  apply Z.ltb_ge in H1, H2.
  destruct (random_sample_spec population k t) as (res0 & t0 & rest & Hr0 & _ & Hp);
    [lia|].
  unfold random_sample in Hr0. rewrite (proj2 (orb_false_iff _ _)) in Hr0
    by (split; apply Z.ltb_ge; lia).
  rewrite Hr in Hr0. injection Hr0 as <- <-.
  apply Permutation_sym in Hp.
  apply (Permutation_NoDup Hp) in Hnd.
  apply NoDup_app_remove_r in Hnd. exact Hnd.
Qed.

(** Exchanging two slots rearranges the list. *)
Lemma swap_perm (x : list A) i j xi xj :
  nth_error x i = Some xi -> nth_error x j = Some xj ->
  Permutation (list_set (list_set x i xj) j xi) x.
Proof.
  intros Hi Hj.
  assert (Hj' : nth_error (list_set x i xj) j = Some xj).
  { destruct (Nat.eq_dec j i) as [->|Hne].
    - apply nth_error_list_set_eq. apply nth_error_Some. congruence.
    - rewrite nth_error_list_set_neq; auto. }
  pose proof (list_set_perm x i xi xj Hi) as P1.
  pose proof (list_set_perm _ j xj xi Hj') as P2.
  apply Permutation_sym.
  apply (Permutation_cons_inv (a := xj)).
  eapply perm_trans; [apply P1|apply P2].
Qed.

Lemma shuffle_loop_spec i : forall (x : list A) t,
  i < List.length x \/ i = 0 ->
  exists res t', shuffle_loop x i t = Ok (res, t') /\ Permutation res x.
Proof.
  induction i as [|i IH]; intros x t Hi.
  - exists x, t. split; [reflexivity|apply Permutation_refl].
  - destruct Hi as [Hi|Hi]; [|discriminate].
    destruct (randbelow_spec (S (S i)) t) as (j & Hj & Hlt); [lia|].
    destruct (nth_error x (S i)) as [xi|] eqn:Hxi;
      [|apply nth_error_None in Hxi; lia].
    destruct (nth_error x j) as [xj|] eqn:Hxj;
      [|apply nth_error_None in Hxj; lia].
    destruct (IH (list_set (list_set x (S i) xj) j xi) (tl t)) as (res & t' & Hr & Hp).
    { left. rewrite !list_set_length. lia. }
    exists res, t'. split.
    + cbn [shuffle_loop]. unfold bind. rewrite Hj, Hxi, Hxj. exact Hr.
    + eapply perm_trans; [apply Hp|]. apply swap_perm; auto.
Qed.

Lemma random_shuffle_spec (x : list A) t :
  exists res t', random_shuffle x t = Ok (res, t') /\ Permutation res x.
Proof.
  apply shuffle_loop_spec. destruct x; simpl; [right|left]; lia.
Qed.

End RandomSource.

(** ** Stepping through the two effect layers *)

Lemma bind_ok {A B} (m : M A) (k : A -> M B) t a t' :
  m t = Ok (a, t') -> bind m k t = k a t'.
Proof. intros H. unfold bind. rewrite H. reflexivity. Qed.

Lemma lift_ok {A} (r : result A) a t : r = Ok a -> lift r t = Ok (a, t).
Proof. intros ->. reflexivity. Qed.

Lemma len_app {A} (l1 l2 : list A) : len (l1 ++ l2) = len l1 + len l2.
Proof. unfold len. rewrite length_app. lia. Qed.

Lemma len_nonneg {A} (l : list A) : 0 <= len l.
Proof. unfold len. lia. Qed.

Lemma range_length lo hi : List.length (range lo hi) = Z.to_nat (hi - lo).
Proof. unfold range. rewrite length_map, length_seq. reflexivity. Qed.

Lemma range_nth lo hi i :
  (i < Z.to_nat (hi - lo))%nat -> nth i (range lo hi) 0 = lo + Z.of_nat i.
Proof.
  intros Hi. unfold range.
  pose proof (map_nth (fun j => lo + Z.of_nat j)
                      (seq 0 (Z.to_nat (hi - lo))) 0%nat i) as E.
  cbv beta in E.
  rewrite (nth_indep _ 0 (lo + Z.of_nat 0))
    by (rewrite length_map, length_seq; exact Hi).
  rewrite E, seq_nth by exact Hi. reflexivity.
Qed.

(** ** Exercise selection *)

Lemma firstn_In {A} (n : nat) (l : list A) x : In x (firstn n l) -> In x l.
Proof.
  intros H. rewrite <- (firstn_skipn n l). apply in_or_app. auto.
Qed.

Lemma pick_muscles_spec muscles : forall exercises t,
  exists selections t',
    pick_muscles muscles exercises t = Ok (exercises ++ List.concat selections, t')
    /\ Forall2 drawn_from muscles selections.
Proof.
  induction muscles as [|muscle rest IH]; intros exercises t.
  - exists [], t. cbn. rewrite app_nil_r. split; [reflexivity|constructor].
  - cbn [pick_muscles].
    destruct (dict_get exercise_dict muscle []) as [|c choices] eqn:Hc.
    + cbn [list_truthy].
      destruct (IH exercises t) as (sels & t' & Hr & Hf).
      exists ([] :: sels), t'. cbn [List.concat app]. split; [exact Hr|].
      constructor; [|exact Hf].
      unfold drawn_from. rewrite Hc. split; [reflexivity|].
      exists []. apply perm_nil.
    + cbn [list_truthy].
      destruct (random_sample_spec (c :: choices) (Z.min 2 (len (c :: choices))) t)
        as (selected & t1 & rem & Hs & Hsl & Hsp).
      { generalize (len_nonneg (c :: choices)).
        generalize (len (c :: choices)). intros; lia. }
      destruct (IH (exercises ++ selected) t1) as (sels & t' & Hr & Hf).
      exists (selected :: sels), t'.
      rewrite (bind_ok _ _ _ _ _ Hs), Hr. cbn [List.concat]. rewrite app_assoc.
      split; [reflexivity|]. constructor; [|exact Hf].
      unfold drawn_from. rewrite Hc. split.
      * rewrite Hsl. unfold len. lia.
      * exists rem. exact Hsp.
Qed.

Lemma selections_length muscles selections :
  Forall2 drawn_from muscles selections ->
  List.length (List.concat selections) = drawn muscles.
Proof.
  induction 1 as [|muscle sel muscles sels [Hl _] _ IH]; [reflexivity|].
  cbn [List.concat]. rewrite length_app, Hl, IH. reflexivity.
Qed.

Lemma selections_In muscles selections x :
  Forall2 drawn_from muscles selections ->
  In x (List.concat selections) ->
  exists muscle, In muscle muscles /\ In x (dict_get exercise_dict muscle []).
Proof.
  induction 1 as [|muscle sel muscles sels [_ (rest & Hp)] _ IH];
    cbn [List.concat].
  - intros [].
  - intros Hx. apply in_app_or in Hx as [Hx|Hx].
    + exists muscle. split; [left; reflexivity|].
      apply (Permutation_in _ Hp). apply in_or_app. left. exact Hx.
    + destruct (IH Hx) as (m & Hm & Hin). exists m. split; [right|]; assumption.
Qed.

Lemma cardio_NoDup : NoDup cardio_exercises.
Proof.
  unfold cardio_exercises.
  repeat (constructor; [cbn; intuition discriminate|]). constructor.
Qed.

Lemma pick_exercises_spec split goal t :
  exists names t',
    pick_exercises (Split.muscles split) goal t = Ok (names, t')
    /\ picked_ok goal split names.
Proof.
  unfold pick_exercises, picked_ok.
  destruct (str_in goal ["hipertrofia"; "forca"]).
  - destruct (pick_muscles_spec (Split.muscles split) [] t)
      as (sels & t1 & He & Hf).
    cbn [app] in He.
    destruct (random_shuffle_spec (List.concat sels) t1) as (sh & t2 & Hs & Hp).
    exists (firstn 6 sh), t2.
    rewrite (bind_ok _ _ _ _ _ He), (bind_ok _ _ _ _ _ Hs).
    split; [reflexivity|]. exists sels, sh. auto.
  - destruct (random_sample_spec cardio_exercises 5 t)
      as (names & t' & rem & Hs & Hl & Hp).
    { cbn. lia. }
    exists names, t'. repeat split; auto.
    + eapply random_sample_NoDup; [apply cardio_NoDup|exact Hs].
    + eapply random_sample_In; eauto.
Qed.

(** ** The scheduling loops *)

Lemma goal_splits_cases goal :
  goal_splits goal = hypertrophy_splits \/ goal_splits goal = strength_splits
  \/ goal_splits goal = conditioning_splits
  \/ goal_splits goal = emagrecimento_splits.
Proof.
  unfold goal_splits.
  destruct (String.eqb goal "hipertrofia"); auto.
  destruct (String.eqb goal "forca"); auto.
  destruct (String.eqb goal "condicionamento"); auto.
Qed.

Lemma goal_splits_len goal :
  len (goal_splits goal) = 6 \/ len (goal_splits goal) = 4.
Proof.
  destruct (goal_splits_cases goal) as [H|[H|[H|H]]]; rewrite H; cbn; auto.
Qed.

(** The indexing expression [splits[k % len(splits)]] never fails. *)
Lemma select_split_ok goal k :
  exists split,
    py_mod k (len (goal_splits goal)) = Ok (k mod len (goal_splits goal))
    /\ list_getitem (goal_splits goal) (k mod len (goal_splits goal)) = Ok split
    /\ split_at goal k = Some split.
Proof.
  pose proof (goal_splits_len goal) as Hlen.
  assert (Hpos : 0 < len (goal_splits goal)) by lia.
  pose proof (Z.mod_pos_bound k _ Hpos) as Hb.
  unfold split_at.
  destruct (nth_error (goal_splits goal) (Z.to_nat (k mod len (goal_splits goal))))
    as [split|] eqn:Hn.
  - exists split. repeat split.
    + unfold py_mod. destruct (Z.eqb_spec (len (goal_splits goal)) 0); [lia|auto].
    + assert (E : (k mod len (goal_splits goal) <? 0) = false)
        by (apply Z.ltb_ge; lia).
      unfold list_getitem. cbv zeta. rewrite E. cbv iota. rewrite E, Hn.
      reflexivity.
  - apply nth_error_None in Hn. unfold len in *. lia.
Qed.

Lemma day_loop_spec goal days : forall ws sg t,
  exists new t',
    day_loop goal days ws sg t = Ok ((ws ++ new, sg + len new), t')
    /\ len new = Z.min (len days) (Z.max 0 (total_sessions - sg))
    /\ forall i s, nth_error new i = Some s ->
         Session.day s = nth i days 0
         /\ session_ok goal (sg + Z.of_nat i) s.
Proof.
  induction days as [|day days IH]; intros ws sg t.
  - exists [], t. cbn [day_loop]. unfold ret.
    rewrite app_nil_r. change (len []) with 0%Z. rewrite Z.add_0_r.
    repeat split; try lia; destruct i; discriminate.
  - cbn [day_loop].
    destruct (Z.leb_spec total_sessions sg) as [Hle|Hlt].
    + exists [], t. unfold ret.
      rewrite app_nil_r. change (len (@nil Session.t)) with 0%Z. rewrite Z.add_0_r.
      pose proof (len_nonneg (day :: days)).
      repeat split; try lia; destruct i; discriminate.
    + destruct (select_split_ok goal sg) as (split & Hm & Hg & Hs).
      destruct (pick_exercises_spec split goal t) as (names & t1 & Hp & Hok).
      set (session := Session.mk day (Split.name split) (Split.focus split) ""
                        (map (prescribe goal) names) None None None).
      destruct (IH (ws ++ [session]) (sg + 1) t1) as (new & t' & Hn & Hl & Hi).
      exists (session :: new), t'.
      rewrite (bind_ok _ _ _ _ _ (lift_ok _ _ _ Hm)).
      rewrite (bind_ok _ _ _ _ _ (lift_ok _ _ _ Hg)).
      rewrite (bind_ok _ _ _ _ _ Hp).
      fold session. rewrite Hn, <- app_assoc. cbn [app].
      assert (Hc : len (session :: new) = 1 + len new)
        by (unfold len; cbn [List.length]; lia).
      assert (Hd : len (day :: days) = 1 + len days)
        by (unfold len; cbn [List.length]; lia).
      rewrite Hc, Hd. unfold total_sessions in *.
      pose proof (len_nonneg days).
      split; [rewrite Z.add_assoc; reflexivity|]. split; [lia|].
      intros [|i] s Hnth.
      * injection Hnth as <-. split; [reflexivity|].
        rewrite Z.add_0_r. exists split, names. auto.
      * cbn [nth_error] in Hnth. destruct (Hi i s Hnth) as [Hday Hsess].
        split; [exact Hday|].
        replace (sg + Z.of_nat (S i)) with (sg + 1 + Z.of_nat i) by lia.
        exact Hsess.
Qed.

Lemma session_count_cons w ws :
  session_count (w :: ws) = len (Week.sessions w) + session_count ws.
Proof. reflexivity. Qed.

Lemma range_days_len freq : 1 <= freq -> len (range 1 (freq + 1)) = freq.
Proof. intros H. unfold len. rewrite range_length. lia. Qed.

Lemma week_loop_spec goal freq week_nums : forall tw sg t,
  1 <= freq -> sg < total_sessions ->
  total_sessions - sg <= freq * len week_nums ->
  exists new t',
    week_loop goal freq week_nums tw sg t = Ok ((tw ++ new, total_sessions), t')
    /\ len new = (total_sessions - sg + freq - 1) / freq
    /\ session_count new = total_sessions - sg
    /\ (forall j w, nth_error new j = Some w ->
          Week.week w = nth j week_nums 0
          /\ len (Week.sessions w)
             = Z.min freq (total_sessions - sg - freq * Z.of_nat j)
          /\ forall i s, nth_error (Week.sessions w) i = Some s ->
               Session.day s = 1 + Z.of_nat i)
    /\ (forall k s, nth_error (flat_map Week.sessions new) k = Some s ->
          session_ok goal (sg + Z.of_nat k) s).
Proof.
  unfold total_sessions.
  induction week_nums as [|week_num week_nums IH]; intros tw sg t Hf Hsg Hen.
  - change (len (@nil Z)) with 0 in Hen. lia.
  - assert (Hlw : len (week_num :: week_nums) = 1 + len week_nums)
      by (unfold len; cbn [List.length]; lia).
    rewrite Hlw in Hen.
    destruct (day_loop_spec goal (range 1 (freq + 1)) [] sg t)
      as (ns & t1 & Hd & Hl & Hi).
    unfold total_sessions in Hl.
    rewrite range_days_len in Hl by exact Hf. cbn [app] in Hd.
    set (wk := Week.mk week_num ("Semana de " ++ goal)%string ns).
    assert (Hdays : forall i s, nth_error ns i = Some s ->
                      Session.day s = 1 + Z.of_nat i).
    { intros i s Hn. destruct (Hi i s Hn) as [Hday _]. rewrite Hday.
      apply range_nth.
      assert (i < List.length ns)%nat by (apply nth_error_Some; congruence).
      unfold len in Hl. lia. }
    cbn [week_loop]. rewrite (bind_ok _ _ _ _ _ Hd). cbv beta iota.
    fold wk. unfold total_sessions.
    destruct (Z.leb_spec 12 (sg + len ns)) as [Hdone|Hmore].
    + (* the plan is complete after this week *)
      exists [wk], t1. unfold ret.
      assert (Hsum : sg + len ns = 12) by lia. rewrite Hsum.
      split; [reflexivity|]. split.
      { change (len [wk]) with 1.
        apply Z.div_unique with (r := 12 - sg - 1); lia. }
      split.
      { rewrite session_count_cons. change (session_count []) with 0.
        unfold wk. cbn [Week.sessions]. lia. }
      split.
      { intros [|[|j]] w Hn; try discriminate.
        injection Hn as <-. unfold wk. cbn [Week.week Week.sessions nth].
        repeat split; auto. lia. }
      { intros k s Hn. unfold wk in Hn. cbn [flat_map Week.sessions] in Hn.
        rewrite app_nil_r in Hn. apply (Hi k s Hn). }
    + (* a full week, and more to come *)
      assert (Hfull : len ns = freq) by lia.
      destruct (IH (tw ++ [wk]) (sg + len ns) t1)
        as (new & t' & Hn & Hln & Hc & Hw & Hk);
        [lia|lia|lia|].
      exists (wk :: new), t'.
      rewrite Hn, <- app_assoc. cbn [app].
      split; [reflexivity|]. split.
      { assert (E : len (wk :: new) = 1 + len new)
          by (unfold len; cbn [List.length]; lia).
        rewrite E, Hln, Hfull.
        replace (12 - sg + freq - 1) with (12 - (sg + freq) + freq - 1 + 1 * freq)
          by lia.
        rewrite Z.div_add by lia. lia. }
      split.
      { rewrite session_count_cons, Hc. unfold wk. cbn [Week.sessions]. lia. }
      split.
      { intros [|j] w Hnth.
        - injection Hnth as <-. unfold wk. cbn [Week.week Week.sessions nth].
          repeat split; auto. lia.
        - cbn [nth_error] in Hnth. destruct (Hw j w Hnth) as (H1 & H2 & H3).
          cbn [nth]. repeat split; auto. rewrite H2, Hfull. f_equal. lia. }
      { intros k s Hnth. unfold wk in Hnth. cbn [flat_map Week.sessions] in Hnth.
        destruct (Nat.lt_ge_cases k (List.length ns)) as [Hlt|Hge].
        - rewrite nth_error_app1 in Hnth by exact Hlt. apply (Hi k s Hnth).
        - rewrite nth_error_app2 in Hnth by exact Hge.
          specialize (Hk _ _ Hnth).
          replace (sg + Z.of_nat k)
            with (sg + len ns + Z.of_nat (k - List.length ns)); [exact Hk|].
          unfold len. lia. }
Qed.

(** The shape of every plan generated for a weekly frequency of at least 1. *)
Lemma generate_plan_spec user_profile analytics t :
  let goal := UserProfile.primary_goal user_profile in
  let freq := UserProfile.training_frequency user_profile in
  1 <= freq ->
  exists plan t',
    generate_plan user_profile analytics t = Ok (plan, t')
    /\ Overview.macrocycle_length_weeks (Plan.overview plan)
       = (total_sessions + freq - 1) / freq
    /\ len (Plan.training_weeks plan) = (total_sessions + freq - 1) / freq
    /\ session_count (Plan.training_weeks plan) = total_sessions
    /\ (forall j w, nth_error (Plan.training_weeks plan) j = Some w ->
          Week.week w = 1 + Z.of_nat j
          /\ len (Week.sessions w) = Z.min freq (total_sessions - freq * Z.of_nat j)
          /\ forall i s, nth_error (Week.sessions w) i = Some s ->
               Session.day s = 1 + Z.of_nat i)
    /\ (forall k s, nth_error (all_sessions plan) k = Some s ->
          session_ok goal (Z.of_nat k) s).
Proof.
  intros goal freq Hf. unfold generate_plan. fold goal freq.
  set (weeks := (total_sessions + freq - 1) / freq).
  assert (Hw : py_floordiv (total_sessions + freq - 1) freq = Ok weeks).
  { unfold py_floordiv. destruct (Z.eqb_spec freq 0); [lia|reflexivity]. }
  assert (Hweeks : 1 <= weeks /\ total_sessions <= freq * weeks).
  { unfold weeks, total_sessions.
    pose proof (Z.div_mod (12 + freq - 1) freq ltac:(lia)) as E.
    pose proof (Z.mod_pos_bound (12 + freq - 1) freq ltac:(lia)) as B.
    split; [|lia].
    apply Z.div_le_lower_bound; lia. }
  assert (Hrl : len (range 1 (weeks + 1)) = weeks)
    by (unfold len; rewrite range_length; lia).
  destruct (week_loop_spec goal freq (range 1 (weeks + 1)) [] 0 t)
    as (new & t' & Hl & Hln & Hc & Hwk & Hk).
  { exact Hf. } { unfold total_sessions; lia. } { rewrite Hrl. lia. }
  cbn [app] in Hl.
  eexists _, t'.
  rewrite (bind_ok _ _ _ _ _ (lift_ok _ _ _ Hw)).
  rewrite (bind_ok _ _ _ _ _ Hl). cbv beta iota. unfold ret.
  split; [reflexivity|].
  cbn [Plan.overview Plan.training_weeks Overview.macrocycle_length_weeks].
  unfold all_sessions. cbn [Plan.training_weeks].
  rewrite Z.sub_0_r in Hln, Hc. fold weeks in Hln.
  repeat split; auto.
  - destruct (Hwk j w H) as (H1 & _ & _). rewrite H1.
    apply range_nth.
    assert (j < List.length new)%nat by (apply nth_error_Some; congruence).
    unfold len in Hln. lia.
  - destruct (Hwk j w H) as (_ & H2 & _). rewrite H2. f_equal; lia.
  - destruct (Hwk j w H) as (_ & _ & H3). exact H3.
Qed.

Lemma session_count_flat weeks :
  session_count weeks = len (flat_map Week.sessions weeks).
Proof.
  induction weeks as [|w weeks IH].
  - reflexivity.
  - rewrite session_count_cons, IH. cbn [flat_map]. rewrite len_app. reflexivity.
Qed.

Lemma prescribe_exercise goal ex : Prescription.exercise (prescribe goal ex) = ex.
Proof.
  unfold prescribe.
  destruct (String.eqb goal "hipertrofia"); [reflexivity|].
  destruct (String.eqb goal "forca"); [reflexivity|].
  destruct (String.eqb goal "emagrecimento"); reflexivity.
Qed.

Lemma prescribe_names goal names :
  map Prescription.exercise (map (prescribe goal) names) = names.
Proof.
  induction names as [|x names IH]; cbn [map]; [reflexivity|].
  rewrite prescribe_exercise, IH. reflexivity.
Qed.

(** A negative frequency yields a plan without weeks: the week range is empty. *)
Lemma generate_plan_negative user_profile analytics t :
  UserProfile.training_frequency user_profile < 0 ->
  exists plan,
    generate_plan user_profile analytics t = Ok (plan, t)
    /\ Plan.training_weeks plan = [].
Proof.
  intros Hf. unfold generate_plan.
  set (freq := UserProfile.training_frequency user_profile) in *.
  set (weeks := (total_sessions + freq - 1) / freq).
  assert (Hw : py_floordiv (total_sessions + freq - 1) freq = Ok weeks).
  { unfold py_floordiv. destruct (Z.eqb_spec freq 0); [lia|reflexivity]. }
  assert (Hneg : weeks <= 0).
  { unfold weeks, total_sessions.
    pose proof (Z.div_mod (12 + freq - 1) freq ltac:(lia)) as E.
    pose proof (Z.mod_neg_bound (12 + freq - 1) freq ltac:(lia)) as B.
    nia. }
  assert (Hr : range 1 (weeks + 1) = []).
  { unfold range. replace (Z.to_nat (weeks + 1 - 1)) with 0%nat by lia.
    reflexivity. }
  eexists. rewrite (bind_ok _ _ _ _ _ (lift_ok _ _ _ Hw)), Hr.
  cbn [week_loop]. unfold bind, ret. cbv beta iota.
  split; reflexivity.
Qed.

Lemma muscle_goal_cases goal :
  str_in goal ["hipertrofia"; "forca"] = true ->
  goal = "hipertrofia" \/ goal = "forca".
Proof.
  unfold str_in. cbn [existsb]. rewrite orb_false_r.
  intros H. apply orb_true_iff in H as [H|H]; apply String.eqb_eq in H; auto.
Qed.

Lemma muscle_splits_drawn :
  Forall (fun sp => (4 <= drawn (Split.muscles sp))%nat)
         (hypertrophy_splits ++ strength_splits).
Proof. repeat constructor; cbn; lia. Qed.

Lemma muscle_goal_splits goal split k :
  goal = "hipertrofia" \/ goal = "forca" ->
  split_at goal k = Some split ->
  In split (hypertrophy_splits ++ strength_splits).
Proof.
  intros Hg Hs. unfold split_at in Hs. apply nth_error_In in Hs.
  apply in_or_app. destruct Hg as [-> | ->]; [left|right]; exact Hs.
Qed.

Lemma nat_mod_index (k n : nat) :
  Z.to_nat (Z.of_nat k mod Z.of_nat n) = (k mod n)%nat.
Proof. rewrite <- Nat2Z.inj_mod. apply Nat2Z.id. Qed.

(** ** Properties of the scheduler *)

(** C1. For every goal and every weekly frequency from 1 to 7 the plan is
    generated and its weeks hold exactly 12 sessions in total; for every
    frequency above 12 the plan has a single week and no more than 12
    sessions. *)
Theorem total_sessions_is_12 (user_profile : UserProfile.t)
    (analytics : Analytics.t) (t : tape) :
  let freq := UserProfile.training_frequency user_profile in
  (1 <= freq <= 7 ->
   exists plan t',
     generate_plan user_profile analytics t = Ok (plan, t')
     /\ session_count (Plan.training_weeks plan) = 12)
  /\ (12 < freq ->
      exists plan t',
        generate_plan user_profile analytics t = Ok (plan, t')
        /\ Overview.macrocycle_length_weeks (Plan.overview plan) = 1
        /\ len (Plan.training_weeks plan) = 1
        /\ session_count (Plan.training_weeks plan) <= 12).
Proof.
  intros freq. split; intros Hf.
  - destruct (generate_plan_spec user_profile analytics t)
      as (plan & t' & Hg & _ & _ & Hc & _); [fold freq; lia|].
    exists plan, t'. split; [exact Hg|exact Hc].
  - destruct (generate_plan_spec user_profile analytics t)
      as (plan & t' & Hg & Hm & Hl & Hc & _); [fold freq; lia|].
    fold freq in Hm, Hl.
    assert (Hone : (total_sessions + freq - 1) / freq = 1).
    { symmetry. unfold total_sessions.
      apply Z.div_unique with (r := 11); lia. }
    exists plan, t'. rewrite Hm, Hl, Hc, Hone.
    unfold total_sessions. repeat split; auto; lia.
Qed.

Lemma total_sessions_is_12_witness :
  (1 <= 3 <= 7
   /\ exists plan t',
        generate_plan (profile_of "hipertrofia" 3) no_analytics [] = Ok (plan, t')
        /\ session_count (Plan.training_weeks plan) = 12)
  /\ (12 < 13
      /\ exists plan t',
           generate_plan (profile_of "forca" 13) no_analytics [] = Ok (plan, t')
           /\ Overview.macrocycle_length_weeks (Plan.overview plan) = 1
           /\ len (Plan.training_weeks plan) = 1
           /\ session_count (Plan.training_weeks plan) <= 12).
Proof.
  split; (split; [lia|]).
  - apply (proj1 (total_sessions_is_12 (profile_of "hipertrofia" 3) no_analytics [])).
    cbn. lia.
  - apply (proj2 (total_sessions_is_12 (profile_of "forca" 13) no_analytics [])).
    cbn. lia.
Defined.

(** C2. For every weekly frequency f >= 1 the plan has ceil(12/f) weeks (the
    least number of weeks whose capacity reaches 12), every week before the
    last holds f sessions and the last one holds 12 - f*(weeks-1), a number
    between 0 and f; f = 3 gives [3,3,3,3] and f = 5 gives [5,5,2]. *)
Theorem weeks_and_distribution (user_profile : UserProfile.t)
    (analytics : Analytics.t) (t : tape) :
  let freq := UserProfile.training_frequency user_profile in
  1 <= freq ->
  exists plan t',
    generate_plan user_profile analytics t = Ok (plan, t')
    /\ let weeks := len (Plan.training_weeks plan) in
       Overview.macrocycle_length_weeks (Plan.overview plan) = weeks
       /\ freq * (weeks - 1) < 12 <= freq * weeks
       /\ (forall j w, nth_error (Plan.training_weeks plan) j = Some w ->
             Z.of_nat j < weeks - 1 -> len (Week.sessions w) = freq)
       /\ (exists w,
             nth_error (Plan.training_weeks plan) (Z.to_nat (weeks - 1)) = Some w
             /\ len (Week.sessions w) = 12 - freq * (weeks - 1))
       /\ 0 <= 12 - freq * (weeks - 1) <= freq
       /\ (freq = 3 -> distribution plan = [3; 3; 3; 3])
       /\ (freq = 5 -> distribution plan = [5; 5; 2]).
Proof.
  intros freq Hf.
  destruct (generate_plan_spec user_profile analytics t)
    as (plan & t' & Hg & Hm & Hl & _ & Hw & _); [exact Hf|].
  fold freq in Hm, Hl, Hw. unfold total_sessions in *.
  exists plan, t'. split; [exact Hg|]. cbv zeta.
  pose proof (Z.div_mod (12 + freq - 1) freq ltac:(lia)) as E.
  pose proof (Z.mod_pos_bound (12 + freq - 1) freq ltac:(lia)) as B.
  rewrite Hm, Hl.
  set (weeks := (12 + freq - 1) / freq) in *.
  assert (Hceil : freq * (weeks - 1) < 12 <= freq * weeks) by lia.
  assert (Hpos : 1 <= weeks) by nia.
  split; [reflexivity|]. split; [exact Hceil|]. split; [|split; [|split; [lia|]]].
  - intros j w Hn Hj. destruct (Hw j w Hn) as (_ & H2 & _). rewrite H2. nia.
  - destruct (nth_error (Plan.training_weeks plan) (Z.to_nat (weeks - 1)))
      as [w|] eqn:Hn.
    + exists w. split; [reflexivity|].
      destruct (Hw _ w Hn) as (_ & H2 & _). rewrite H2.
      rewrite Z2Nat.id by lia. lia.
    + apply nth_error_None in Hn. unfold len in Hl. lia.
  - split; intros Hfreq; rewrite Hfreq in *; unfold distribution;
      change weeks with ((12 + freq - 1) / freq) in Hl; rewrite Hfreq in Hl;
      cbn in Hl; unfold len in Hl;
      destruct (Plan.training_weeks plan) as [|w0 [|w1 [|w2 [|w3 [|w4 ws]]]]];
      cbn [List.length] in Hl; try lia; cbn [map].
    + destruct (Hw 0%nat w0 eq_refl) as (_ & H0 & _).
      destruct (Hw 1%nat w1 eq_refl) as (_ & H1 & _).
      destruct (Hw 2%nat w2 eq_refl) as (_ & H2 & _).
      destruct (Hw 3%nat w3 eq_refl) as (_ & H3 & _).
      rewrite H0, H1, H2, H3. reflexivity.
    + destruct (Hw 0%nat w0 eq_refl) as (_ & H0 & _).
      destruct (Hw 1%nat w1 eq_refl) as (_ & H1 & _).
      destruct (Hw 2%nat w2 eq_refl) as (_ & H2 & _).
      rewrite H0, H1, H2. reflexivity.
Qed.

Lemma weeks_and_distribution_witness :
  1 <= 5
  /\ exists plan t',
       generate_plan (profile_of "forca" 5) no_analytics [] = Ok (plan, t')
       /\ len (Plan.training_weeks plan) = 3
       /\ distribution plan = [5; 5; 2].
Proof.
  split; [lia|].
  destruct (weeks_and_distribution (profile_of "forca" 5) no_analytics [])
    as (plan & t' & Hg & _ & Hc & _ & _ & _ & _ & H5); [cbn; lia|].
  exists plan, t'. split; [exact Hg|].
  cbn [profile_of UserProfile.training_frequency] in Hc, H5.
  split; [lia|]. apply H5. reflexivity.
Defined.

(** C4. For every goal and every frequency for which a plan is produced
    (any frequency but 0), the k-th session of the whole plan, counted from 0
    across the weeks, carries the name and focus of the split at index
    k mod n of the goal's split list of n templates; with a frequency of at
    least 1 the plan has 12 such sessions. *)
Theorem split_cycles_with_global_counter (user_profile : UserProfile.t)
    (analytics : Analytics.t) (t : tape) :
  let goal := UserProfile.primary_goal user_profile in
  let freq := UserProfile.training_frequency user_profile in
  freq <> 0 ->
  exists plan t',
    generate_plan user_profile analytics t = Ok (plan, t')
    /\ (1 <= freq -> List.length (all_sessions plan) = 12%nat)
    /\ forall k s, nth_error (all_sessions plan) k = Some s ->
         exists split,
           nth_error (goal_splits goal)
                     (k mod List.length (goal_splits goal))%nat = Some split
           /\ Session.name s = Split.name split
           /\ Session.focus s = Split.focus split.
Proof.
  intros goal freq Hf.
  destruct (Z.lt_ge_cases freq 1) as [Hneg|Hpos].
  - destruct (generate_plan_negative user_profile analytics t)
      as (plan & Hg & He); [fold freq; lia|].
    exists plan, t. split; [exact Hg|]. unfold all_sessions. rewrite He.
    split; [lia|]. intros [|k] s Hn; discriminate.
  - destruct (generate_plan_spec user_profile analytics t)
      as (plan & t' & Hg & _ & _ & Hc & _ & Hk); [exact Hpos|].
    exists plan, t'. split; [exact Hg|]. split.
    + intros _. rewrite session_count_flat in Hc.
      unfold all_sessions, len, total_sessions in *. lia.
    + intros k s Hn.
      destruct (Hk k s Hn) as (split & names & Hs & Hname & Hfocus & _).
      exists split. unfold split_at, len in Hs. fold goal in Hs.
      rewrite nat_mod_index in Hs. auto.
Qed.

Lemma split_cycles_with_global_counter_witness :
  5 <> 0
  /\ exists plan t',
       generate_plan (profile_of "forca" 5) no_analytics [] = Ok (plan, t')
       /\ forall s, nth_error (all_sessions plan) 6 = Some s ->
            Session.name s = "Treino C - Deadlift".
Proof.
  split; [lia|].
  destruct (split_cycles_with_global_counter (profile_of "forca" 5) no_analytics [])
    as (plan & t' & Hg & _ & Hk); [cbn; lia|].
  exists plan, t'. split; [exact Hg|].
  intros s Hs. destruct (Hk 6%nat s Hs) as (split & Hsp & Hn & _).
  cbn in Hsp. injection Hsp as <-. exact Hn.
Defined.

(** C5. Whatever the random draws, every session of a hypertrophy or strength
    plan has between 1 and 6 exercises: its names are the first 6 of a
    rearrangement of selections made for the target muscle groups of one of
    the goal's splits, each selection holding at most 2 names taken from
    distinct slots of that group's list; every session of a fat-loss or
    conditioning plan has exactly 5 exercises, taken from distinct slots of
    the shared cardio list. *)
Theorem exercise_count_per_session (user_profile : UserProfile.t)
    (analytics : Analytics.t) (t : tape) :
  let goal := UserProfile.primary_goal user_profile in
  1 <= UserProfile.training_frequency user_profile ->
  exists plan t',
    generate_plan user_profile analytics t = Ok (plan, t')
    /\ forall s, In s (all_sessions plan) ->
         (goal = "hipertrofia" \/ goal = "forca" ->
          (1 <= List.length (Session.exercises s) <= 6)%nat
          /\ exists split selections shuffled,
               In split (goal_splits goal)
               /\ Forall2 (fun muscle selected =>
                             (List.length selected <= 2)%nat
                             /\ drawn_from muscle selected)
                          (Split.muscles split) selections
               /\ Permutation shuffled (List.concat selections)
               /\ exercise_names s = firstn 6 shuffled)
         /\ (goal = "emagrecimento" \/ goal = "condicionamento" ->
             List.length (Session.exercises s) = 5%nat
             /\ NoDup (exercise_names s)
             /\ forall x, In x (exercise_names s) -> In x cardio_exercises).
Proof.
  intros goal Hf.
  destruct (generate_plan_spec user_profile analytics t)
    as (plan & t' & Hg & _ & _ & _ & _ & Hk); [exact Hf|].
  exists plan, t'. split; [exact Hg|].
  intros s Hin. apply In_nth_error in Hin as (k & Hn).
  destruct (Hk k s Hn) as (split & names & Hs & _ & _ & He & Hp).
  fold goal in Hs, He, Hp. unfold exercise_names.
  rewrite He, length_map, prescribe_names. split; intros Hgoal.
  - pose proof (muscle_goal_splits goal split _ Hgoal Hs) as Hsp.
    pose proof (proj1 (Forall_forall _ _) muscle_splits_drawn _ Hsp) as Hd.
    cbv beta in Hd. unfold picked_ok in Hp.
    assert (Hm : str_in goal ["hipertrofia"; "forca"] = true)
      by (destruct Hgoal as [E|E]; rewrite E; reflexivity).
    rewrite Hm in Hp. destruct Hp as (sels & sh & Hsel & Hperm & Hnames).
    split.
    + rewrite Hnames, length_firstn, (Permutation_length Hperm).
      rewrite (selections_length _ _ Hsel). lia.
    + exists split, sels, sh. split; [|split; [|auto]].
      * unfold split_at in Hs. apply nth_error_In in Hs. exact Hs.
      * eapply Forall2_impl; [|exact Hsel].
        intros muscle sel Hdr. split; [|exact Hdr].
        destruct Hdr as [Hl _]. lia.
  - unfold picked_ok in Hp.
    assert (Hm : str_in goal ["hipertrofia"; "forca"] = false)
      by (destruct Hgoal as [E|E]; rewrite E; reflexivity).
    rewrite Hm in Hp. exact Hp.
Qed.

Lemma exercise_count_per_session_witness :
  1 <= 4
  /\ exists plan t',
       generate_plan (profile_of "emagrecimento" 4) no_analytics [7; 3; 9]%nat
       = Ok (plan, t')
       /\ forall s, In s (all_sessions plan) ->
            List.length (Session.exercises s) = 5%nat.
Proof.
  split; [lia|].
  destruct (exercise_count_per_session (profile_of "emagrecimento" 4)
              no_analytics [7; 3; 9]%nat)
    as (plan & t' & Hg & Hs); [cbn; lia|].
  exists plan, t'. split; [exact Hg|].
  intros s Hin. apply (proj2 (Hs s Hin)). left. reflexivity.
Defined.

(** C6. Whatever the random draws, every exercise name of the k-th session
    belongs to the catalogue list of one of the target muscle groups of that
    session's split when the goal is scheduled from muscle groups, and to the
    shared cardio list otherwise. *)
Theorem exercises_come_from_catalogue (user_profile : UserProfile.t)
    (analytics : Analytics.t) (t : tape) :
  let goal := UserProfile.primary_goal user_profile in
  1 <= UserProfile.training_frequency user_profile ->
  exists plan t',
    generate_plan user_profile analytics t = Ok (plan, t')
    /\ forall k s x,
         nth_error (all_sessions plan) k = Some s ->
         In x (exercise_names s) ->
         exists split,
           split_at goal (Z.of_nat k) = Some split
           /\ Session.name s = Split.name split
           /\ if str_in goal ["hipertrofia"; "forca"]
              then exists muscle,
                     In muscle (Split.muscles split)
                     /\ In x (dict_get exercise_dict muscle [])
              else Split.muscles split = [] /\ In x cardio_exercises.
Proof.
  intros goal Hf.
  destruct (generate_plan_spec user_profile analytics t)
    as (plan & t' & Hg & _ & _ & _ & _ & Hk); [exact Hf|].
  exists plan, t'. split; [exact Hg|].
  intros k s x Hn Hx.
  destruct (Hk k s Hn) as (split & names & Hs & Hname & _ & He & Hp).
  fold goal in Hs, He, Hp. unfold exercise_names in Hx.
  rewrite He, prescribe_names in Hx.
  exists split. split; [exact Hs|]. split; [exact Hname|].
  unfold picked_ok in Hp.
  destruct (str_in goal ["hipertrofia"; "forca"]) eqn:Hm.
  - destruct Hp as (sels & sh & Hsel & Hperm & Hnames).
    rewrite Hnames in Hx. apply firstn_In in Hx.
    apply (Permutation_in _ Hperm) in Hx.
    exact (selections_In _ _ x Hsel Hx).
  - destruct Hp as (_ & _ & Hin). split; [|exact (Hin x Hx)].
    unfold split_at in Hs. apply nth_error_In in Hs.
    unfold str_in in Hm. cbn [existsb] in Hm. rewrite orb_false_r in Hm.
    apply orb_false_iff in Hm as [H1 H2].
    unfold goal_splits in Hs. rewrite H1, H2 in Hs.
    destruct (String.eqb goal "condicionamento"); cbn in Hs;
      repeat (destruct Hs as [<-|Hs]; [reflexivity|]); contradiction.
Qed.

Lemma exercises_come_from_catalogue_witness :
  1 <= 6
  /\ exists plan t',
       generate_plan (profile_of "condicionamento" 6) no_analytics [2; 5]%nat
       = Ok (plan, t')
       /\ forall s x, nth_error (all_sessions plan) 0 = Some s ->
            In x (exercise_names s) -> In x cardio_exercises.
Proof.
  split; [lia|].
  destruct (exercises_come_from_catalogue (profile_of "condicionamento" 6)
              no_analytics [2; 5]%nat)
    as (plan & t' & Hg & Hs); [cbn; lia|].
  exists plan, t'. split; [exact Hg|].
  intros s x Hn Hx. destruct (Hs 0%nat s x Hn Hx) as (split & _ & _ & Hc).
  cbn in Hc. apply Hc.
Defined.

(** C10. The analytics argument is never read: with the same profile and the
    same random draws any two analytics records give the same outcome, and
    two profiles that agree on goal and frequency give the same outcome. *)
Theorem plan_ignores_analytics (u1 u2 : UserProfile.t) (a1 a2 : Analytics.t)
    (t : tape) :
  generate_plan u1 a1 t = generate_plan u1 a2 t
  /\ (UserProfile.primary_goal u1 = UserProfile.primary_goal u2 ->
      UserProfile.training_frequency u1 = UserProfile.training_frequency u2 ->
      generate_plan u1 a1 t = generate_plan u2 a2 t).
Proof.
  split; [reflexivity|].
  intros Hg Hf. unfold generate_plan. rewrite Hg, Hf. reflexivity.
Qed.

Lemma plan_ignores_analytics_witness :
  generate_plan (UserProfile.mk 30 80 None 4 "forca" "iniciante" None None)
                no_analytics [1; 2; 3]%nat
  = generate_plan (UserProfile.mk 52 61.5 (Some 170%float) 4 "forca" "avancado"
                                  (Some "dor no ombro") None)
                  (Analytics.mk "forca" 637.5 2550 None "3-6" "80-90% 1RM"
                                "14-18 séries por grupamento" 4 "iniciante")
                  [1; 2; 3]%nat.
Proof.
  apply (proj2 (plan_ignores_analytics _ _ _ _ _)); reflexivity.
Defined.

(** ** The metrics function *)

Section MetricsFacts.

Variable libm_pow : float -> float -> float * bool.
Variables str_strip str_lower : string -> string.

Let metrics := ferramenta_matematica_treino libm_pow str_strip str_lower.
Let goal_key_of := normalizar_objetivo str_strip str_lower.
Let level_of := normalizar_experiencia str_strip str_lower.

(** The record the function builds once its two fallible steps succeeded. *)
Lemma metrics_unfold age w f goal h level :
  metrics age w f goal h level
  = (let? bmi := bmi_of libm_pow w h in
     let session :=
       py_round (w * Preset.met (preset_of (goal_key_of goal))
                   * Preset.duration_hours (preset_of (goal_key_of goal)))%float 1 in
     let? freq := float_of_int f in
     Ok (Analytics.mk (goal_key_of goal) session
           (py_round (session * freq)%float 1) bmi
           (Preset.rep_range (preset_of (goal_key_of goal)))
           (Preset.intensity (preset_of (goal_key_of goal)))
           (dict_get volume_table (level_of level) "18-22 séries por grupamento")
           f (level_of level))).
Proof. reflexivity. Qed.

Lemma metrics_inv age w f goal h level r :
  metrics age w f goal h level = Ok r ->
  exists bmi freq,
    bmi_of libm_pow w h = Ok bmi /\ float_of_int f = Ok freq
    /\ Analytics.bmi r = bmi
    /\ Analytics.estimated_session_calories r
       = py_round (w * Preset.met (preset_of (goal_key_of goal))
                     * Preset.duration_hours (preset_of (goal_key_of goal)))%float 1
    /\ Analytics.estimated_weekly_calories r
       = py_round (Analytics.estimated_session_calories r * freq)%float 1
    /\ Analytics.recommended_rep_range r
       = Preset.rep_range (preset_of (goal_key_of goal))
    /\ Analytics.recommended_intensity r
       = Preset.intensity (preset_of (goal_key_of goal)).
Proof.
  rewrite metrics_unfold. intros H.
  destruct (bmi_of libm_pow w h) as [bmi|e]; [|discriminate].
  cbn [result_bind] in H.
  destruct (float_of_int f) as [freq|e]; [|discriminate].
  cbn [result_bind] in H. injection H as <-.
  exists bmi, freq. cbn. repeat split; reflexivity.
Qed.

Lemma metrics_returns age w f goal h level bmi freq :
  bmi_of libm_pow w h = Ok bmi -> float_of_int f = Ok freq ->
  exists r, metrics age w f goal h level = Ok r.
Proof.
  intros Hb Hf. rewrite metrics_unfold, Hb. cbn [result_bind].
  rewrite Hf. cbn [result_bind]. eexists. reflexivity.
Qed.

End MetricsFacts.

Lemma positive_truthy h : (0 <? h)%float = true -> float_truthy h = true.
Proof.
  unfold float_truthy. rewrite ltb_spec, eqb_spec.
  change (Prim2SF 0) with (S754_zero false).
  destruct (Prim2SF h) as [s|s| |s m e]; cbn; try discriminate;
    destruct s; cbn; intros H; (discriminate H || reflexivity).
Qed.

Lemma float_sqr_raise libm_pow x e :
  float_sqr libm_pow x = Raise e -> e = OverflowError.
Proof.
  unfold float_sqr.
  destruct (is_nan x); [discriminate|].
  destruct (is_infinity x); [discriminate|].
  destruct (x =? 0)%float; [discriminate|].
  cbv zeta. destruct (abs x =? 1)%float; [discriminate|].
  destruct (libm_pow (abs x) 2%float) as [ix erange].
  destruct (if erange then negb (ix =? 0)%float else is_infinity ix);
    [|discriminate].
  intros H. injection H as <-. reflexivity.
Qed.

(** Away from the special bases the square is what the library returned. *)
Lemma float_sqr_libm libm_pow x sq :
  float_sqr libm_pow x = Ok sq ->
  is_nan x = false -> is_infinity x = false ->
  (x =? 0)%float = false -> (abs x =? 1)%float = false ->
  sq = fst (libm_pow (abs x) 2%float).
Proof.
  unfold float_sqr. intros H Hn Hi Hz H1. rewrite Hn, Hi, Hz in H.
  cbv zeta in H. rewrite H1 in H.
  destruct (libm_pow (abs x) 2%float) as [ix erange].
  destruct (if erange then negb (ix =? 0)%float else is_infinity ix);
    [discriminate H|].
  injection H as <-. reflexivity.
Qed.

Lemma float_of_int_raise z e : float_of_int z = Raise e -> e = OverflowError.
Proof.
  unfold float_of_int.
  destruct (binary_normalize prec emax z 0 false); try discriminate.
  intros H. injection H as <-. reflexivity.
Qed.

(** With what [square_in_range] asks of the library, the interpreter's power
    returns a non-zero square. *)
Lemma float_sqr_in_range libm_pow x :
  square_in_range libm_pow x ->
  exists sq,
    float_sqr libm_pow (x / 100.0)%float = Ok sq /\ (sq =? 0)%float = false.
Proof.
  intros [Hz (ix & Hpow & Hinf & Hnz)]. unfold float_sqr.
  destruct (is_nan (x / 100.0)%float); [eauto|].
  destruct (is_infinity (x / 100.0)%float);
    [exists infinity; split; reflexivity|].
  rewrite Hz. cbv zeta.
  destruct (abs (x / 100.0) =? 1)%float; [exists 1%float; split; reflexivity|].
  rewrite Hpow, Hinf. eauto.
Qed.

Lemma bmi_of_in_range libm_pow w h :
  match h with
  | Some x => square_in_range libm_pow x
  | None => True
  end ->
  exists bmi, bmi_of libm_pow w h = Ok bmi.
Proof.
  intros Hh. destruct h as [x|]; cbn [bmi_of]; [|eauto].
  destruct (float_truthy x); [|eauto].
  destruct (float_sqr_in_range _ _ Hh) as (sq & Hs & Hz).
  rewrite Hs. cbn [result_bind]. unfold float_div. rewrite Hz.
  cbn [result_bind]. eauto.
Qed.

(** Every way the metrics function can fail. *)
Lemma metrics_raise_cases libm_pow str_strip str_lower age w f goal h level e :
  ferramenta_matematica_treino libm_pow str_strip str_lower age w f goal h level
  = Raise e ->
  (e = ZeroDivisionError
   /\ exists x sq,
        h = Some x /\ float_truthy x = true
        /\ float_sqr libm_pow (x / 100.0)%float = Ok sq
        /\ (sq =? 0)%float = true)
  \/ (e = OverflowError
      /\ ((exists x,
             h = Some x /\ float_truthy x = true
             /\ float_sqr libm_pow (x / 100.0)%float = Raise OverflowError)
          \/ float_of_int f = Raise OverflowError)).
Proof.
  intros H. rewrite metrics_unfold in H.
  destruct (bmi_of libm_pow w h) as [bmi|e1] eqn:Hb; cbn [result_bind] in H.
  - destruct (float_of_int f) as [fr|e2] eqn:Hf; cbn [result_bind] in H;
      [discriminate H|].
    injection H as <-. pose proof (float_of_int_raise _ _ Hf) as ->.
    right. split; [reflexivity|]. right. reflexivity.
  - injection H as <-. unfold bmi_of in Hb.
    destruct h as [x|]; [|discriminate Hb].
    destruct (float_truthy x) eqn:Ht; [|discriminate Hb].
    destruct (float_sqr libm_pow (x / 100.0)%float) as [sq|e3] eqn:Hs;
      cbn [result_bind] in Hb.
    + unfold float_div in Hb.
      destruct (sq =? 0)%float eqn:Hz; cbn [result_bind] in Hb;
        [|discriminate Hb].
      injection Hb as <-. left. split; [reflexivity|]. exists x, sq. auto.
    + injection Hb as <-. pose proof (float_sqr_raise _ _ _ Hs) as ->.
      right. split; [reflexivity|]. left. exists x. auto.
Qed.

(** Integers below 2^53 are floats already: the conversion is exact and
    cannot overflow. *)
Lemma digits2_pos_bound m :
  2 ^ (Zpos (digits2_pos m) - 1) <= Zpos m < 2 ^ Zpos (digits2_pos m).
Proof.
  induction m as [m IH|m IH|]; cbn [digits2_pos].
  - rewrite Pos2Z.inj_succ, Z.pow_succ_r by lia.
    replace (Z.succ (Zpos (digits2_pos m)) - 1)
      with (Z.succ (Zpos (digits2_pos m) - 1)) by lia.
    rewrite Z.pow_succ_r by lia. lia.
  - rewrite Pos2Z.inj_succ, Z.pow_succ_r by lia.
    replace (Z.succ (Zpos (digits2_pos m)) - 1)
      with (Z.succ (Zpos (digits2_pos m) - 1)) by lia.
    rewrite Z.pow_succ_r by lia. lia.
  - cbn. lia.
Qed.

Lemma digits2_pos_iter m p :
  digits2_pos (Pos.iter xO m p) = (digits2_pos m + p)%positive.
Proof.
  induction p as [|p IH] using Pos.peano_ind.
  - cbn. lia.
  - rewrite Pos.iter_succ. cbn [digits2_pos]. rewrite IH. lia.
Qed.

Lemma binary_round_aux_exact mz ez :
  Zpos (digits2_pos mz) = 53 -> -1074 <= ez <= 971 ->
  binary_round_aux prec emax false (Zpos mz) ez loc_Exact
  = S754_finite false mz ez.
Proof.
  intros Hd He.
  assert (Hs : shr_fexp prec emax (Zpos mz) ez loc_Exact
               = ({| shr_m := Zpos mz; shr_r := false; shr_s := false |}, ez)).
  { unfold shr_fexp, fexp, SpecFloat.emin, Zdigits2. rewrite Hd.
    replace (Z.max (53 + ez - prec) (3 - emax - prec) - ez) with 0
      by (unfold prec, emax; lia).
    reflexivity. }
  unfold binary_round_aux. rewrite Hs.
  cbn [shr_m loc_of_shr_record round_nearest_even].
  rewrite Hs. cbn [shr_m].
  destruct (Z.leb_spec ez (emax - prec)) as [|H]; [reflexivity|].
  unfold emax, prec in H. lia.
Qed.

Lemma float_of_int_small z :
  0 <= z < 2 ^ 53 -> exists x, float_of_int z = Ok x.
Proof.
  intros Hz. unfold float_of_int.
  destruct z as [|m|m]; [cbn; eauto| |lia].
  cbn [binary_normalize]. unfold binary_round.
  pose proof (digits2_pos_bound m) as Hb.
  assert (Hd : Zpos (digits2_pos m) <= 53).
  { destruct (Z.le_gt_cases (Zpos (digits2_pos m)) 53) as [|Hgt]; [assumption|].
    assert (2 ^ 53 <= 2 ^ (Zpos (digits2_pos m) - 1))
      by (apply Z.pow_le_mono_r; lia).
    lia. }
  unfold fexp, SpecFloat.emin.
  replace (Z.max (Zpos (digits2_pos m) + 0 - prec) (3 - emax - prec))
    with (Zpos (digits2_pos m) - 53) by (unfold prec, emax; lia).
  unfold shl_align.
  destruct (Zpos (digits2_pos m) - 53 - 0) as [|p|p] eqn:Hp; [|lia|].
  - rewrite binary_round_aux_exact by lia. eauto.
  - rewrite binary_round_aux_exact.
    + eauto.
    + rewrite digits2_pos_iter. lia.
    + lia.
Qed.

(** ** Rounding to decimals *)

Lemma round_half_even_nearest (n d : Z) :
  0 <= n -> 0 < d ->
  0 <= round_half_even n d
  /\ 2 * Z.abs (n - round_half_even n d * d) <= d
  /\ (2 * Z.abs (n - round_half_even n d * d) = d ->
      Z.even (round_half_even n d) = true).
Proof.
  intros Hn Hd. unfold round_half_even.
  pose proof (Z.div_mod n d ltac:(lia)) as E.
  pose proof (Z.mod_pos_bound n d Hd) as B.
  pose proof (Z.div_pos n d Hn Hd) as P.
  set (q := n / d) in *. set (r := n mod d) in *. cbv zeta.
  destruct (Z.compare_spec (2 * r) d) as [H|H|H].
  - destruct (Z.even q) eqn:Ev.
    + split; [lia|]. split; [lia|]. intros _. exact Ev.
    + split; [lia|]. split; [lia|]. intros _.
      rewrite Z.even_add, Ev. reflexivity.
  - split; [lia|]. split; [lia|]. intros T. exfalso. lia.
  - split; [lia|]. split; [lia|]. intros T. exfalso. lia.
Qed.

(** [round(x, n)] of the interpreter rounds to [n] decimals. *)
Lemma py_round_spec (x : float) (n : Z) : rounded_to n x (py_round x n).
Proof.
  unfold rounded_to, py_round.
  destruct (Prim2SF x) as [s|s| |s m e]; try reflexivity.
  cbv zeta. destruct (0 <=? e) eqn:He.
  - exists (Zpos m * 2 ^ e * 10 ^ n). split; [|split].
    + apply Z.mul_nonneg_nonneg; [apply Z.mul_nonneg_nonneg|];
        try apply Z.pow_nonneg; lia.
    + unfold nearest_integer. rewrite He. reflexivity.
    + reflexivity.
  - assert (Hd : 0 < 2 ^ (- e)) by (apply Z.pow_pos_nonneg; lia).
    assert (Hn : 0 <= Zpos m * 10 ^ n)
      by (apply Z.mul_nonneg_nonneg; [lia|apply Z.pow_nonneg; lia]).
    destruct (round_half_even_nearest _ _ Hn Hd) as (Hq & Hnear & Htie).
    exists (round_half_even (Zpos m * 10 ^ n) (2 ^ (- e))).
    split; [exact Hq|]. split; [|reflexivity].
    unfold nearest_integer. rewrite He. split; assumption.
Qed.

Lemma nearest_integer_unique (m e n k k' : Z) :
  nearest_integer m e n k -> nearest_integer m e n k' -> k = k'.
Proof.
  unfold nearest_integer. destruct (Z.leb_spec 0 e) as [He|He].
  - intros -> ->. reflexivity.
  - assert (Hd : 0 < 2 ^ (- e)) by (apply Z.pow_pos_nonneg; lia).
    set (d := 2 ^ (- e)) in *. set (a := m * 10 ^ n).
    intros [H1 T1] [H2 T2].
    assert (Hstep : forall u v, u < v ->
              2 * Z.abs (a - u * d) <= d -> 2 * Z.abs (a - v * d) <= d ->
              v = u + 1
              /\ 2 * Z.abs (a - u * d) = d /\ 2 * Z.abs (a - v * d) = d).
    { intros u v Huv Hu Hv.
      assert (Hv1 : v = u + 1) by nia.
      subst v. split; [reflexivity|]. split; nia. }
    destruct (Z.lt_trichotomy k k') as [L|[E|G]]; [|exact E|]; exfalso.
    + destruct (Hstep k k' L H1 H2) as (E & E1 & E2).
      specialize (T1 E1). specialize (T2 E2). rewrite E in T2.
      rewrite Z.even_add, T1 in T2. discriminate T2.
    + destruct (Hstep k' k G H2 H1) as (E & E2 & E1).
      specialize (T1 E1). specialize (T2 E2). rewrite E in T1.
      rewrite Z.even_add, T2 in T1. discriminate T1.
Qed.

(** Rounding to [n] decimals determines its result. *)
Lemma rounded_to_unique (n : Z) (x y y' : float) :
  rounded_to n x y -> rounded_to n x y' -> y = y'.
Proof.
  unfold rounded_to.
  destruct (Prim2SF x) as [s|s| |s m e]; try congruence.
  intros (k & _ & Hk & ->) (k' & _ & Hk' & ->).
  rewrite (nearest_integer_unique _ _ _ _ _ Hk Hk'). reflexivity.
Qed.

(** ** Properties of the metrics *)

(** C7. For every weight, goal and frequency, in the record the function
    returns estimated_session_calories is weight * MET * duration, with the
    constants of the goal's preset, rounded to one decimal (to the nearest
    tenth, ties to the even one), and estimated_weekly_calories is that
    rounded value times the frequency, rounded to one decimal again. Without
    a height the record is returned for every frequency below 2^53. Weight
    80 with the hypertrophy preset (MET 6.0, 1.2 h) gives 576.0 per session
    and, at frequency 4, 2304.0 per week; weight 50 with the fat-loss preset
    gives the product 316.25, 316.2 per session and, at frequency 3, 948.6
    per week, where the unrounded product times 3 would round to 948.8. *)
Theorem calorie_estimates (libm_pow : float -> float -> float * bool)
    (str_strip str_lower : string -> string)
    (age : Z) (w : float) (f : Z) (goal : string) (h : option float)
    (level : string) :
  let preset := preset_of (normalizar_objetivo str_strip str_lower goal) in
  let metrics :=
    ferramenta_matematica_treino libm_pow str_strip str_lower
      age w f goal h level in
  (forall r, metrics = Ok r ->
     exists freq,
       float_of_int f = Ok freq
       /\ rounded_to 1 (w * Preset.met preset * Preset.duration_hours preset)%float
                     (Analytics.estimated_session_calories r)
       /\ rounded_to 1 (Analytics.estimated_session_calories r * freq)%float
                     (Analytics.estimated_weekly_calories r))
  /\ (h = None -> 0 <= f < 2 ^ 53 -> exists r, metrics = Ok r)
  /\ (preset_of "hipertrofia" = Preset.mk 6.0 1.2 "6-12" "70-80% 1RM"
      /\ exists r,
           ferramenta_matematica_treino libm_pow ascii_strip ascii_lower
             30 80 4 "hipertrofia" None "iniciante" = Ok r
           /\ Analytics.estimated_session_calories r = 576.0%float
           /\ Analytics.estimated_weekly_calories r = 2304.0%float)
  /\ (preset_of "emagrecimento"
      = Preset.mk 5.5 1.15 "12-15" "Circuitos com pausa curta"
      /\ (50 * 5.5 * 1.15)%float = 316.25%float
      /\ rounded_to 1 (316.25 * 3)%float 948.8%float
      /\ exists r,
           ferramenta_matematica_treino libm_pow ascii_strip ascii_lower
             30 50 3 "emagrecimento" None "iniciante" = Ok r
           /\ Analytics.estimated_session_calories r = 316.2%float
           /\ Analytics.estimated_weekly_calories r = 948.6%float).
Proof.
  intros preset metrics. split; [|split; [|split]].
  - intros r Hr.
    destruct (metrics_inv libm_pow str_strip str_lower age w f goal h level r Hr)
      as (bmi & freq & _ & Hf & _ & Hs & Hw & _).
    exists freq. split; [exact Hf|]. split.
    + rewrite Hs. apply py_round_spec.
    + rewrite Hw. apply py_round_spec.
  - intros Hh Hf. destruct (float_of_int_small f Hf) as (freq & Hfr).
    apply (metrics_returns libm_pow str_strip str_lower age w f goal h level
             None freq); [rewrite Hh; reflexivity|exact Hfr].
  - split; [reflexivity|].
    exists (Analytics.mk "hipertrofia" 576.0 2304.0 None "6-12" "70-80% 1RM"
              "14-18 séries por grupamento" 4 "iniciante").
    split; [vm_compute; reflexivity|]. split; reflexivity.
  - split; [reflexivity|]. split; [vm_compute; reflexivity|]. split.
    + assert (E : py_round (316.25 * 3)%float 1 = 948.8%float)
        by (vm_compute; reflexivity).
      rewrite <- E. apply py_round_spec.
    + exists (Analytics.mk "emagrecimento" 316.2 948.6 None "12-15"
                "Circuitos com pausa curta" "14-18 séries por grupamento" 3
                "iniciante").
      split; [vm_compute; reflexivity|]. split; reflexivity.
Qed.

Lemma calorie_estimates_witness :
  0 <= 3 < 2 ^ 53
  /\ exists r freq,
       ferramenta_matematica_treino exact_pow ascii_strip ascii_lower
         30 50 3 "  Emagrecimento " None "Iniciante" = Ok r
       /\ float_of_int 3 = Ok freq
       /\ rounded_to 1 (50 * 5.5 * 1.15)%float
                     (Analytics.estimated_session_calories r)
       /\ rounded_to 1 (Analytics.estimated_session_calories r * freq)%float
                     (Analytics.estimated_weekly_calories r).
Proof.
  assert (Hf : 0 <= 3 < 2 ^ 53) by (split; [discriminate|reflexivity]).
  split; [exact Hf|].
  pose proof (calorie_estimates exact_pow ascii_strip ascii_lower
                30 50 3 "  Emagrecimento " None "Iniciante")
    as (Hround & Hret & _).
  destruct (Hret eq_refl Hf) as (r & Hr).
  destruct (Hround r Hr) as (freq & Hfr & Hs & Hw).
  exists r, freq. split; [exact Hr|]. split; [exact Hfr|].
  split; [exact Hs|exact Hw].
Defined.

(** C8, as stated, fails: a height of 0 cm is supplied, yet the float zero
    is falsy and the record carries no BMI. *)
Lemma zero_height_has_no_bmi :
  ferramenta_matematica_treino exact_pow ascii_strip ascii_lower
    30 75 3 "hipertrofia" (Some 0%float) "iniciante"
  = Ok (Analytics.mk "hipertrofia" 540.0 1620.0 None "6-12" "70-80% 1RM"
          "14-18 séries por grupamento" 3 "iniciante").
Proof. vm_compute. reflexivity. Qed.

(** C8, amended. In every record the function returns, bmi is null exactly
    when no height was supplied or the supplied height is a float zero; for
    any other supplied height the interpreter's power gives a non-zero square
    of the height in metres, which away from the special bases is what the C
    library's [pow] returned, correctly rounded or not, and bmi is the weight
    divided by that square, rounded to two decimals (to the nearest
    hundredth, ties to the even one). With a library whose [pow] gives
    1.75 ** 2 = 3.0625, height 175 cm and weight 75 kg give 24.49; with one
    that gives 2.75493604 for the square of 165.98 / 100, height 165.98 cm and
    weight 41.3378152802 kg give 15.0, where the correctly rounded square
    would give 15.01. *)
Theorem bmi_field (libm_pow : float -> float -> float * bool)
    (str_strip str_lower : string -> string)
    (age : Z) (w : float) (f : Z) (goal : string) (h : option float)
    (level : string) :
  let metrics :=
    ferramenta_matematica_treino libm_pow str_strip str_lower
      age w f goal h level in
  (forall r, metrics = Ok r ->
     (Analytics.bmi r = None
      <-> h = None \/ exists z, h = Some z /\ (z =? 0)%float = true)
     /\ forall hv, h = Some hv -> (hv =? 0)%float = false ->
          exists sq b,
            float_sqr libm_pow (hv / 100.0)%float = Ok sq
            /\ (sq =? 0)%float = false
            /\ (is_nan (hv / 100.0)%float = false ->
                is_infinity (hv / 100.0)%float = false ->
                (abs (hv / 100.0) =? 1)%float = false ->
                sq = fst (libm_pow (abs (hv / 100.0))%float 2%float))
            /\ rounded_to 2 (w / sq)%float b
            /\ Analytics.bmi r = Some b)
  /\ (libm_pow 1.75%float 2%float = (3.0625%float, false) ->
      exists r,
        ferramenta_matematica_treino libm_pow ascii_strip ascii_lower
          30 75 3 "hipertrofia" (Some 175.0%float) "iniciante" = Ok r
        /\ Analytics.bmi r = Some 24.49%float)
  /\ (libm_pow (165.98 / 100.0)%float 2%float = (2.75493604%float, false) ->
      (exists r,
         ferramenta_matematica_treino libm_pow ascii_strip ascii_lower
           30 41.3378152802 3 "hipertrofia" (Some 165.98%float) "iniciante"
         = Ok r
         /\ Analytics.bmi r = Some 15.0%float)
      /\ rounded_to 2
           (41.3378152802 / ((165.98 / 100.0) * (165.98 / 100.0)))%float
           15.01%float).
Proof.
  intros metrics. split; [|split].
  - intros r Hr.
    destruct (metrics_inv libm_pow str_strip str_lower age w f goal h level r Hr)
      as (bmi & freq & Hb & _ & Hbmi & _).
    rewrite Hbmi. clear Hr Hbmi metrics.
    destruct h as [hv|]; cbn [bmi_of] in Hb.
    + unfold float_truthy in Hb.
      destruct (hv =? 0)%float eqn:Hz; cbn [negb] in Hb.
      * injection Hb as <-. split.
        -- split; [intros _; right; exists hv; auto|reflexivity].
        -- intros hv' E Hnz. injection E as <-. rewrite Hz in Hnz.
           discriminate Hnz.
      * destruct (float_sqr libm_pow (hv / 100.0)%float) as [sq|e] eqn:Hs;
          [|discriminate Hb].
        cbn [result_bind] in Hb. unfold float_div in Hb.
        destruct (sq =? 0)%float eqn:Hsz; [discriminate Hb|].
        cbn [result_bind] in Hb. injection Hb as <-. split.
        -- split; [discriminate|].
           intros [E|(z & E & Hzz)]; [discriminate E|].
           injection E as <-. rewrite Hz in Hzz. discriminate Hzz.
        -- intros hv' E _. injection E as <-.
           exists sq, (py_round (w / sq)%float 2).
           split; [exact Hs|]. split; [exact Hsz|]. split.
           ++ intros Hn Hi H1. apply (float_sqr_libm _ _ _ Hs Hn Hi); [|exact H1].
              destruct (hv / 100.0 =? 0)%float eqn:Hm; [|reflexivity].
              unfold float_sqr in Hs. rewrite Hn, Hi, Hm in Hs.
              injection Hs as <-. discriminate Hsz.
           ++ split; [apply py_round_spec|reflexivity].
    + injection Hb as <-. split.
      * split; [intros _; left; reflexivity|reflexivity].
      * intros hv E. discriminate E.
  - intros Hpow.
    assert (Hsq : float_sqr libm_pow (175.0 / 100.0)%float = Ok 3.0625%float).
    { unfold float_sqr.
      change (is_nan (175.0 / 100.0)%float) with false.
      change (is_infinity (175.0 / 100.0)%float) with false.
      change ((175.0 / 100.0 =? 0)%float) with false.
      change (abs (175.0 / 100.0)%float) with 1.75%float.
      change ((1.75 =? 1)%float) with false.
      cbv beta iota zeta. rewrite Hpow. reflexivity. }
    exists (Analytics.mk "hipertrofia" 540.0 1620.0 (Some 24.49%float) "6-12"
              "70-80% 1RM" "14-18 séries por grupamento" 3 "iniciante").
    split; [|reflexivity].
    rewrite metrics_unfold. unfold bmi_of.
    change (float_truthy 175.0%float) with true. cbv iota.
    rewrite Hsq. vm_compute. reflexivity.
  - intros Hpow. split.
    + assert (Hsq : float_sqr libm_pow (165.98 / 100.0)%float
                    = Ok 2.75493604%float).
      { unfold float_sqr.
        change (is_nan (165.98 / 100.0)%float) with false.
        change (is_infinity (165.98 / 100.0)%float) with false.
        change ((165.98 / 100.0 =? 0)%float) with false.
        change (abs (165.98 / 100.0)%float) with (165.98 / 100.0)%float.
        change ((165.98 / 100.0 =? 1)%float) with false.
        cbv beta iota zeta. rewrite Hpow. reflexivity. }
      exists (Analytics.mk "hipertrofia" 297.60000000000002 892.79999999999995
                (Some 15.0%float) "6-12" "70-80% 1RM"
                "14-18 séries por grupamento" 3 "iniciante").
      split; [|reflexivity].
      rewrite metrics_unfold. unfold bmi_of.
      change (float_truthy 165.98%float) with true. cbv iota.
      rewrite Hsq. vm_compute. reflexivity.
    + assert (E : py_round
                    (41.3378152802 / ((165.98 / 100.0) * (165.98 / 100.0)))%float
                    2 = 15.01%float) by (vm_compute; reflexivity).
      rewrite <- E. apply py_round_spec.
Qed.

Lemma bmi_field_witness :
  exact_pow 1.75%float 2%float = (3.0625%float, false)
  /\ exists r,
       ferramenta_matematica_treino exact_pow ascii_strip ascii_lower
         30 75 3 "hipertrofia" (Some 175.0%float) "iniciante" = Ok r
       /\ Analytics.bmi r = Some 24.49%float.
Proof.
  assert (H : exact_pow 1.75%float 2%float = (3.0625%float, false))
    by (vm_compute; reflexivity).
  split; [exact H|].
  exact (proj1 (proj2 (bmi_field exact_pow ascii_strip ascii_lower 30 75 3
                         "hipertrofia" (Some 175.0%float) "iniciante")) H).
Defined.

(** C9, as stated, fails: a height of 1e-170 cm is positive, yet the square
    of the height in metres underflows to zero and the division raises. *)
Lemma tiny_height_raises :
  documented_inputs 30 70 (Some 1e-170%float) 3
  /\ ferramenta_matematica_treino exact_pow ascii_strip ascii_lower
       30 70 3 "hipertrofia" (Some 1e-170%float) "iniciante"
     = Raise ZeroDivisionError.
Proof.
  split.
  - unfold documented_inputs, height_ok. repeat split; try lia; reflexivity.
  - vm_compute. reflexivity.
Qed.

Lemma main_reports (libm_pow : float -> float -> float * bool)
    (py_repr : pyval -> string) (int_max_str_digits : Z)
    (str_strip str_lower : string -> string)
    (parse_float : string -> option float) (exn_message : exn -> string)
    (web_exn_text : web_exn -> string) (http_get : string -> attempt pyval)
    (recursion_limit : nat)
    (age : Z) (weight : float) (height_input : string) (freq : Z)
    (primary_goal_display experience_display restrictions notes : string)
    (t : tape) (height_cm : option float) (e : exn) :
  form_height str_strip parse_float height_input = Some height_cm ->
  ferramenta_matematica_treino libm_pow str_strip str_lower age weight freq
    (normalizar_objetivo str_strip str_lower primary_goal_display) height_cm
    (normalizar_experiencia str_strip str_lower experience_display)
  = Raise e ->
  main libm_pow py_repr int_max_str_digits str_strip str_lower parse_float
       exn_message web_exn_text http_get recursion_limit age weight
       height_input freq primary_goal_display experience_display restrictions
       notes true t
  = Ok [ErrorBox (fstr ["Erro nos cálculos: "; exn_message e])].
Proof.
  intros Hh Hr. unfold main. cbn [negb].
  change (if str_truthy (str_strip height_input)
          then match parse_float (str_strip height_input) with
               | Some h => Some (Some h)
               | None => None
               end
          else Some None)
    with (form_height str_strip parse_float height_input).
  rewrite Hh. cbv zeta.
  change (UserProfile.age (form_profile str_strip str_lower age weight
            height_cm freq primary_goal_display experience_display
            restrictions notes)) with age.
  change (UserProfile.weight_kg (form_profile str_strip str_lower age weight
            height_cm freq primary_goal_display experience_display
            restrictions notes)) with weight.
  change (UserProfile.training_frequency (form_profile str_strip str_lower age
            weight height_cm freq primary_goal_display experience_display
            restrictions notes)) with freq.
  change (UserProfile.height_cm (form_profile str_strip str_lower age weight
            height_cm freq primary_goal_display experience_display
            restrictions notes)) with height_cm.
  change (UserProfile.primary_goal (form_profile str_strip str_lower age weight
            height_cm freq primary_goal_display experience_display
            restrictions notes))
    with (normalizar_objetivo str_strip str_lower primary_goal_display).
  change (UserProfile.experience_level (form_profile str_strip str_lower age
            weight height_cm freq primary_goal_display experience_display
            restrictions notes))
    with (normalizar_experiencia str_strip str_lower experience_display).
  rewrite Hr. reflexivity.
Qed.

(** C9, amended. Under the documented input constraints the scheduler
    returns a plan for every goal, frequency and sequence of random draws.
    The metrics function returns its record for every frequency below 2^53
    when no height is supplied, or when the height in metres is not a zero
    float and the C library's [pow] answers its square with a finite,
    non-zero value and no range error. When it does not return, it raises
    [ZeroDivisionError], the square being a zero float, or [OverflowError],
    the square or the frequency leaving the range of a float, and nothing
    else; [main] catches either and shows the single error box
    "Erro nos cálculos: ..." in place of the page. *)
Theorem core_is_exception_free (libm_pow : float -> float -> float * bool)
    (py_repr : pyval -> string) (int_max_str_digits : Z)
    (str_strip str_lower : string -> string)
    (parse_float : string -> option float) (exn_message : exn -> string)
    (web_exn_text : web_exn -> string) (http_get : string -> attempt pyval)
    (recursion_limit : nat)
    (user_profile : UserProfile.t) (analytics : Analytics.t) (t : tape) :
  let age := UserProfile.age user_profile in
  let w := UserProfile.weight_kg user_profile in
  let h := UserProfile.height_cm user_profile in
  let f := UserProfile.training_frequency user_profile in
  let metrics :=
    ferramenta_matematica_treino libm_pow str_strip str_lower age w f
      (UserProfile.primary_goal user_profile) h
      (UserProfile.experience_level user_profile) in
  documented_inputs age w h f ->
  (exists plan t', generate_plan user_profile analytics t = Ok (plan, t'))
  /\ (f < 2 ^ 53 ->
      match h with
      | Some x => square_in_range libm_pow x
      | None => True
      end ->
      exists r, metrics = Ok r)
  /\ (forall e, metrics = Raise e ->
        (e = ZeroDivisionError
         /\ exists x sq,
              h = Some x
              /\ float_sqr libm_pow (x / 100.0)%float = Ok sq
              /\ (sq =? 0)%float = true)
        \/ (e = OverflowError
            /\ ((exists x,
                   h = Some x
                   /\ float_sqr libm_pow (x / 100.0)%float
                      = Raise OverflowError)
                \/ float_of_int f = Raise OverflowError)))
  /\ (forall age' weight height_input freq primary_goal_display
             experience_display restrictions notes t' height_cm e,
        form_height str_strip parse_float height_input = Some height_cm ->
        ferramenta_matematica_treino libm_pow str_strip str_lower age' weight
          freq (normalizar_objetivo str_strip str_lower primary_goal_display)
          height_cm
          (normalizar_experiencia str_strip str_lower experience_display)
        = Raise e ->
        main libm_pow py_repr int_max_str_digits str_strip str_lower
             parse_float exn_message web_exn_text http_get recursion_limit
             age' weight height_input freq primary_goal_display
             experience_display restrictions notes true t'
        = Ok [ErrorBox (fstr ["Erro nos cálculos: "; exn_message e])]).
Proof.
  intros age w h f metrics (_ & _ & _ & Hf). split; [|split; [|split]].
  - destruct (generate_plan_spec user_profile analytics t)
      as (plan & t' & Hg & _); [exact Hf|].
    exists plan, t'. exact Hg.
  - intros Hlt Hin. destruct (bmi_of_in_range libm_pow w h Hin) as (bmi & Hb).
    destruct (float_of_int_small f) as (freq & Hfr); [lia|].
    exact (metrics_returns libm_pow str_strip str_lower age w f _ h _ bmi freq
             Hb Hfr).
  - intros e He.
    destruct (metrics_raise_cases libm_pow str_strip str_lower age w f
                (UserProfile.primary_goal user_profile) h
                (UserProfile.experience_level user_profile) e He)
      as [(-> & x & sq & Hh & _ & Hs & Hz)|(-> & [(x & Hh & _ & Hs)|Hfr])].
    + left. split; [reflexivity|]. exists x, sq. auto.
    + right. split; [reflexivity|]. left. exists x. auto.
    + right. split; [reflexivity|]. right. exact Hfr.
  - intros age' weight height_input freq gd ed restrictions notes t' height_cm e.
    apply main_reports.
Qed.

Lemma core_is_exception_free_witness :
  documented_inputs 41 82.5 (Some 180.0%float) 5
  /\ square_in_range exact_pow 180.0%float
  /\ (exists plan t',
        generate_plan (UserProfile.mk 41 82.5 (Some 180.0%float) 5 "forca"
                                      "avancado" None None)
                      no_analytics [4; 8; 15; 16; 23; 42]%nat = Ok (plan, t'))
  /\ exists r,
       ferramenta_matematica_treino exact_pow ascii_strip ascii_lower
         41 82.5 5 "forca" (Some 180.0%float) "avancado" = Ok r.
Proof.
  assert (Hd : documented_inputs 41 82.5 (Some 180.0%float) 5).
  { unfold documented_inputs, height_ok. repeat split; try lia; reflexivity. }
  assert (Hr : square_in_range exact_pow 180.0%float).
  { split; [vm_compute; reflexivity|].
    exists (abs (180.0 / 100.0) * abs (180.0 / 100.0))%float.
    split; [reflexivity|]. split; vm_compute; reflexivity. }
  split; [exact Hd|]. split; [exact Hr|].
  pose proof (core_is_exception_free exact_pow (fun _ => "?") 4300
                ascii_strip ascii_lower (fun _ => None) (fun _ => "erro")
                (fun _ => "sem rede") (fun _ => Thrown (RequestFailed "sem rede"))
                100
                (UserProfile.mk 41 82.5 (Some 180.0%float) 5 "forca"
                                "avancado" None None)
                no_analytics [4; 8; 15; 16; 23; 42]%nat Hd)
    as (Hplan & Hmet & _).
  split; [exact Hplan|]. apply Hmet; [reflexivity|exact Hr].
Defined.

(** ** Unrecognised goals *)

Lemma unrecognised_eqb goal :
  ~ In goal recognised_goals ->
  String.eqb goal "hipertrofia" = false
  /\ String.eqb goal "emagrecimento" = false
  /\ String.eqb goal "forca" = false
  /\ String.eqb goal "condicionamento" = false.
Proof.
  intros H. unfold recognised_goals in H. cbn [In] in H.
  repeat split; apply String.eqb_neq; intros E; apply H; rewrite E; tauto.
Qed.

(** C3, on the code. For a goal outside the recognised set the metrics
    function does use the hypertrophy preset, but the scheduler does not fall
    back to hypertrophy: every session is one of the fat-loss circuits, its
    exercises come from the cardio list and carry the conditioning
    prescription of 3 sets of 10-15 with 30-60s rest. *)
Theorem unrecognised_goal_behaviour
    (libm_pow : float -> float -> float * bool)
    (str_strip str_lower : string -> string)
    (age : Z) (w : float) (goal : string) (level : string)
    (user_profile : UserProfile.t) (analytics : Analytics.t) (t : tape) :
  let f := UserProfile.training_frequency user_profile in
  let h := UserProfile.height_cm user_profile in
  (~ In (normalizar_objetivo str_strip str_lower goal) recognised_goals ->
   preset_of (normalizar_objetivo str_strip str_lower goal) = hypertrophy_preset
   /\ forall r,
        ferramenta_matematica_treino libm_pow str_strip str_lower
          age w f goal h level = Ok r ->
        Analytics.recommended_rep_range r = "6-12"
        /\ Analytics.recommended_intensity r = "70-80% 1RM"
        /\ Analytics.estimated_session_calories r
           = py_round (w * 6.0 * 1.2)%float 1)
  /\ (~ In (UserProfile.primary_goal user_profile) recognised_goals ->
      1 <= f ->
      exists plan t',
        generate_plan user_profile analytics t = Ok (plan, t')
        /\ forall k s, nth_error (all_sessions plan) k = Some s ->
             (exists split,
                nth_error emagrecimento_splits (k mod 4)%nat = Some split
                /\ Session.name s = Split.name split
                /\ Session.focus s = "Circuito")
             /\ forall p, In p (Session.exercises s) ->
                  In (Prescription.exercise p) cardio_exercises
                  /\ Prescription.sets p = 3
                  /\ Prescription.reps p = "10-15"
                  /\ Prescription.rest p = "30-60s").
Proof.
  intros f h. split.
  - intros Hun. destruct (unrecognised_eqb _ Hun) as (H1 & H2 & H3 & H4).
    assert (Hp : preset_of (normalizar_objetivo str_strip str_lower goal)
                 = hypertrophy_preset).
    { unfold preset_of, goal_presets. cbn [dict_get].
      rewrite (String.eqb_sym "hipertrofia"), H1.
      rewrite (String.eqb_sym "emagrecimento"), H2.
      rewrite (String.eqb_sym "forca"), H3.
      rewrite (String.eqb_sym "condicionamento"), H4. reflexivity. }
    split; [exact Hp|]. intros r Hr.
    destruct (metrics_inv libm_pow str_strip str_lower age w f goal h level r Hr)
      as (_ & _ & _ & _ & _ & Hs & _ & Hrr & Hi).
    rewrite Hp in Hs, Hrr, Hi. auto.
  - intros Hun Hf.
    destruct (unrecognised_eqb _ Hun) as (H1 & H2 & H3 & H4).
    destruct (generate_plan_spec user_profile analytics t)
      as (plan & t' & Hg & _ & _ & _ & _ & Hk); [exact Hf|].
    exists plan, t'. split; [exact Hg|]. intros k s Hn.
    destruct (Hk k s Hn) as (split & names & Hs & Hname & Hfocus & He & Hp).
    set (goal' := UserProfile.primary_goal user_profile) in *.
    assert (Hsplits : goal_splits goal' = emagrecimento_splits)
      by (unfold goal_splits; rewrite H1, H3, H4; reflexivity).
    unfold split_at in Hs. rewrite Hsplits in Hs.
    change (len emagrecimento_splits) with (Z.of_nat 4) in Hs.
    rewrite nat_mod_index in Hs. split.
    + exists split. split; [exact Hs|]. split; [exact Hname|].
      rewrite Hfocus. apply nth_error_In in Hs. cbn in Hs.
      repeat (destruct Hs as [<-|Hs]; [reflexivity|]). contradiction.
    + intros p Hin. rewrite He in Hin. apply in_map_iff in Hin as (x & <- & Hx).
      unfold picked_ok, str_in in Hp. cbn [existsb] in Hp.
      rewrite H1, H3 in Hp. cbn [orb] in Hp. destruct Hp as (_ & _ & Hc).
      unfold prescribe. rewrite H1, H3, H2.
      cbn [Prescription.exercise Prescription.sets Prescription.reps
           Prescription.rest].
      repeat split; auto.
Qed.

Lemma unrecognised_goal_behaviour_witness :
  ~ In "força" recognised_goals
  /\ 1 <= 4
  /\ exists plan t',
       generate_plan (profile_of "força" 4) no_analytics [] = Ok (plan, t')
       /\ forall s, nth_error (all_sessions plan) 0 = Some s ->
            Session.name s = "Circuito A".
Proof.
  assert (Hun : ~ In "força" recognised_goals).
  { cbn. intros [H|[H|[H|[H|[]]]]]; discriminate H. }
  split; [exact Hun|]. split; [lia|].
  destruct (proj2 (unrecognised_goal_behaviour exact_pow ascii_strip ascii_lower
                     30 80 "força" "iniciante" (profile_of "força" 4)
                     no_analytics []) Hun)
    as (plan & t' & Hg & Hk); [cbn; lia|].
  exists plan, t'. split; [exact Hg|].
  intros s Hs. destruct (proj1 (Hk 0%nat s Hs)) as (split & Hsp & Hn & _).
  cbn in Hsp. injection Hsp as <-. exact Hn.
Defined.

(** * Further properties of the code *)

(** ** What the scheduler builds *)

Lemma day_loop_built goal days : forall ws sg t ws' sg' t',
  day_loop goal days ws sg t = Ok ((ws', sg'), t') ->
  Forall (built_session goal) ws -> Forall (built_session goal) ws'.
Proof.
  induction days as [|day days IH]; intros ws sg t ws' sg' t' H Hws.
  - cbn [day_loop] in H. unfold ret in H. injection H as <- _ _. exact Hws.
  - cbn [day_loop] in H.
    destruct (total_sessions <=? sg).
    + unfold ret in H. injection H as <- _ _. exact Hws.
    + destruct (select_split_ok goal sg) as (split & Hm & Hg & Hs).
      destruct (pick_exercises_spec split goal t) as (names & t1 & Hp & _).
      rewrite (bind_ok _ _ _ _ _ (lift_ok _ _ _ Hm)) in H.
      rewrite (bind_ok _ _ _ _ _ (lift_ok _ _ _ Hg)) in H.
      rewrite (bind_ok _ _ _ _ _ Hp) in H.
      apply (IH _ _ _ _ _ _ H). apply Forall_app. split; [exact Hws|].
      constructor; [|constructor].
      exists day, split, names. split; [|reflexivity].
      unfold split_at in Hs. apply nth_error_In in Hs. exact Hs.
Qed.

Lemma week_loop_built goal freq week_nums : forall tw sg t tw' sg' t',
  week_loop goal freq week_nums tw sg t = Ok ((tw', sg'), t') ->
  Forall (built_week goal) tw -> Forall (built_week goal) tw'.
Proof.
  induction week_nums as [|week_num week_nums IH]; intros tw sg t tw' sg' t' H Htw.
  - cbn [week_loop] in H. unfold ret in H. injection H as <- _ _. exact Htw.
  - cbn [week_loop] in H.
    destruct (day_loop_spec goal (range 1 (freq + 1)) [] sg t)
      as (ns & t1 & Hd & _).
    cbn [app] in Hd.
    pose proof (day_loop_built _ _ _ _ _ _ _ _ Hd (Forall_nil _)) as Hns.
    rewrite (bind_ok _ _ _ _ _ Hd) in H. cbv beta iota in H.
    assert (Hnew : Forall (built_week goal)
                     (tw ++ [Week.mk week_num ("Semana de " ++ goal)%string ns])).
    { apply Forall_app. split; [exact Htw|].
      constructor; [|constructor]. split; [reflexivity|exact Hns]. }
    destruct (total_sessions <=? sg + len ns).
    + unfold ret in H. injection H as <- _ _. exact Hnew.
    + apply (IH _ _ _ _ _ _ H Hnew).
Qed.

(** Every returned plan carries the goal in its overview, the three fixed
    lists and the fixed progression text, and its weeks are built weeks. *)
Lemma generate_plan_built user_profile analytics t plan t' :
  generate_plan user_profile analytics t = Ok (plan, t') ->
  let goal := UserProfile.primary_goal user_profile in
  Overview.primary_goal (Plan.overview plan) = goal
  /\ Overview.focus_points (Plan.overview plan) = [goal]
  /\ Forall (built_week goal) (Plan.training_weeks plan)
  /\ List.length (Plan.guidelines plan) = 3%nat
  /\ List.length (Plan.recovery plan) = 3%nat
  /\ List.length (Plan.nutrition_tips plan) = 3%nat
  /\ str_truthy (Plan.progression_strategy plan) = true.
Proof.
  intros H goal. unfold generate_plan in H. fold goal in H.
  destruct (py_floordiv (total_sessions + UserProfile.training_frequency user_profile - 1)
                        (UserProfile.training_frequency user_profile))
    as [weeks|e] eqn:Hw; [|discriminate H].
  rewrite (bind_ok _ _ _ _ _ (lift_ok _ _ _ eq_refl)) in H.
  unfold bind in H.
  destruct (week_loop goal (UserProfile.training_frequency user_profile)
                      (range 1 (weeks + 1)) [] 0 t)
    as [[[tw sg] t1]|e] eqn:Hl; [|discriminate H].
  unfold ret in H. injection H as <- _.
  pose proof (week_loop_built _ _ _ _ _ _ _ _ _ Hl (Forall_nil _)) as Hb.
  cbn. repeat split; auto.
Qed.

Lemma weeks_not_positive (freq : Z) :
  freq < 0 -> (total_sessions + freq - 1) / freq <= 0.
Proof.
  intros Hf. unfold total_sessions.
  pose proof (Z.div_mod (12 + freq - 1) freq ltac:(lia)) as E.
  pose proof (Z.mod_neg_bound (12 + freq - 1) freq ltac:(lia)) as B.
  nia.
Qed.

(** X1. [generate_plan] raises for a frequency of 0 and for no other: the
    exception is [ZeroDivisionError]; a negative frequency gives a plan
    without weeks, whose week count is not positive, and draws nothing. *)
Theorem generate_plan_failure (user_profile : UserProfile.t)
    (analytics : Analytics.t) (t : tape) :
  let freq := UserProfile.training_frequency user_profile in
  (freq = 0 -> generate_plan user_profile analytics t = Raise ZeroDivisionError)
  /\ (freq < 0 ->
      exists plan,
        generate_plan user_profile analytics t = Ok (plan, t)
        /\ Plan.training_weeks plan = []
        /\ Overview.macrocycle_length_weeks (Plan.overview plan) <= 0)
  /\ (forall e, generate_plan user_profile analytics t = Raise e ->
        freq = 0 /\ e = ZeroDivisionError).
Proof.
  intros freq.
  assert (Hzero : freq = 0 ->
                  generate_plan user_profile analytics t = Raise ZeroDivisionError).
  { intros Hf. unfold generate_plan. fold freq. rewrite Hf. reflexivity. }
  split; [exact Hzero|]. split.
  - intros Hf.
    destruct (generate_plan_negative user_profile analytics t Hf) as (plan & Hg & He).
    exists plan. split; [exact Hg|]. split; [exact He|].
    unfold generate_plan in Hg. fold freq in Hg.
    assert (Hw : py_floordiv (total_sessions + freq - 1) freq
                 = Ok ((total_sessions + freq - 1) / freq)).
    { unfold py_floordiv. destruct (Z.eqb_spec freq 0); [lia|reflexivity]. }
    rewrite (bind_ok _ _ _ _ _ (lift_ok _ _ _ Hw)) in Hg.
    unfold bind in Hg.
    destruct (week_loop _ _ _ _ _ _) as [[[tw sg] t1]|e]; [|discriminate Hg].
    unfold ret in Hg. injection Hg as <- _.
    cbn [Plan.overview Overview.macrocycle_length_weeks].
    apply weeks_not_positive. exact Hf.
  - intros e He.
    destruct (Z.lt_trichotomy freq 0) as [Hf|[Hf|Hf]].
    + destruct (generate_plan_negative user_profile analytics t Hf) as (plan & Hg & _).
      rewrite Hg in He. discriminate He.
    + rewrite (Hzero Hf) in He. injection He as <-. auto.
    + destruct (generate_plan_spec user_profile analytics t)
        as (plan & t' & Hg & _); [fold freq; lia|].
      rewrite Hg in He. discriminate He.
Qed.

Lemma generate_plan_failure_witness :
  generate_plan (profile_of "hipertrofia" 0) no_analytics [3; 1; 4]%nat
  = Raise ZeroDivisionError
  /\ exists plan,
       generate_plan (profile_of "hipertrofia" (-2)) no_analytics [3; 1; 4]%nat
       = Ok (plan, [3; 1; 4]%nat)
       /\ Plan.training_weeks plan = []
       /\ Overview.macrocycle_length_weeks (Plan.overview plan) <= 0.
Proof.
  split.
  - apply (proj1 (generate_plan_failure (profile_of "hipertrofia" 0)
                    no_analytics [3; 1; 4]%nat)). reflexivity.
  - apply (proj1 (proj2 (generate_plan_failure (profile_of "hipertrofia" (-2))
                           no_analytics [3; 1; 4]%nat))). cbn. lia.
Defined.

Lemma generate_plan_sessions user_profile analytics t :
  let goal := UserProfile.primary_goal user_profile in
  1 <= UserProfile.training_frequency user_profile ->
  exists plan t',
    generate_plan user_profile analytics t = Ok (plan, t')
    /\ forall k s, nth_error (all_sessions plan) k = Some s ->
         session_ok goal (Z.of_nat k) s /\ built_session goal s.
Proof.
  intros goal Hf.
  destruct (generate_plan_spec user_profile analytics t)
    as (plan & t' & Hg & _ & _ & _ & _ & Hk); [exact Hf|].
  exists plan, t'. split; [exact Hg|].
  intros k s Hn. split; [exact (Hk k s Hn)|].
  destruct (generate_plan_built _ _ _ _ _ Hg) as (_ & _ & Hb & _).
  apply nth_error_In in Hn. unfold all_sessions in Hn.
  apply in_flat_map in Hn as (w & Hw & Hs).
  destruct (proj1 (Forall_forall _ _) Hb w Hw) as [_ Hws].
  exact (proj1 (Forall_forall _ _) Hws s Hs).
Qed.

(** X2. Weeks are numbered 1, 2, ... in order, and inside a week the day of a
    session is its position counted from 1, so it lies between 1 and the
    weekly frequency. *)
Theorem week_and_day_numbering (user_profile : UserProfile.t)
    (analytics : Analytics.t) (t : tape) :
  let freq := UserProfile.training_frequency user_profile in
  1 <= freq ->
  exists plan t',
    generate_plan user_profile analytics t = Ok (plan, t')
    /\ forall j w, nth_error (Plan.training_weeks plan) j = Some w ->
         Week.week w = 1 + Z.of_nat j
         /\ forall i s, nth_error (Week.sessions w) i = Some s ->
              Session.day s = 1 + Z.of_nat i /\ 1 <= Session.day s <= freq.
Proof.
  intros freq Hf.
  destruct (generate_plan_spec user_profile analytics t)
    as (plan & t' & Hg & _ & _ & _ & Hw & _); [exact Hf|].
  exists plan, t'. split; [exact Hg|].
  intros j w Hj. destruct (Hw j w Hj) as (Hnum & Hlen & Hday).
  split; [exact Hnum|]. intros i s Hi.
  pose proof (Hday i s Hi) as Hd. split; [exact Hd|].
  assert (Hlt : (i < List.length (Week.sessions w))%nat)
    by (apply nth_error_Some; rewrite Hi; discriminate).
  fold freq in Hlen. unfold len in Hlen. lia.
Qed.

Lemma week_and_day_numbering_witness :
  1 <= 5
  /\ exists plan t',
       generate_plan (profile_of "forca" 5) no_analytics [4; 4; 1]%nat
       = Ok (plan, t')
       /\ forall w s, nth_error (Plan.training_weeks plan) 2 = Some w ->
            nth_error (Week.sessions w) 1 = Some s ->
            Week.week w = 3 /\ Session.day s = 2.
Proof.
  split; [lia|].
  destruct (week_and_day_numbering (profile_of "forca" 5) no_analytics
              [4; 4; 1]%nat)
    as (plan & t' & Hg & Hw); [cbn; lia|].
  exists plan, t'. split; [exact Hg|].
  intros w s Hj Hi. destruct (Hw 2%nat w Hj) as (Hnum & Hday).
  split; [exact Hnum|]. exact (proj1 (Hday 1%nat s Hi)).
Defined.

(** X3. In a generated plan every exercise of every session carries the same
    prescription, decided by the goal alone: 4 sets of 8-12 with 60-90s rest
    for hypertrophy, 4 of 4-6 with 2-3min for strength, 3 of 12-15 with 30s
    for fat loss, and 3 of 10-15 with 30-60s for every other goal; the note
    is always empty. *)
Theorem prescription_fixed_per_goal (user_profile : UserProfile.t)
    (analytics : Analytics.t) (t : tape) :
  let goal := UserProfile.primary_goal user_profile in
  1 <= UserProfile.training_frequency user_profile ->
  exists plan t',
    generate_plan user_profile analytics t = Ok (plan, t')
    /\ forall s p, In s (all_sessions plan) -> In p (Session.exercises s) ->
         Prescription.notes p = ""
         /\ (Prescription.sets p, Prescription.reps p, Prescription.rest p)
            = if String.eqb goal "hipertrofia" then (4, "8-12", "60-90s")
              else if String.eqb goal "forca" then (4, "4-6", "2-3min")
              else if String.eqb goal "emagrecimento" then (3, "12-15", "30s")
              else (3, "10-15", "30-60s").
Proof.
  intros goal Hf.
  destruct (generate_plan_sessions user_profile analytics t)
    as (plan & t' & Hg & Hk); [exact Hf|].
  exists plan, t'. split; [exact Hg|].
  intros s p Hs Hp. apply In_nth_error in Hs as (k & Hn).
  destruct (Hk k s Hn) as (_ & day & split & names & _ & E).
  fold goal in E. rewrite E in Hp. cbn [Session.exercises] in Hp.
  apply in_map_iff in Hp as (ex & <- & _).
  unfold prescribe.
  destruct (String.eqb goal "hipertrofia"); [split; reflexivity|].
  destruct (String.eqb goal "forca"); [split; reflexivity|].
  destruct (String.eqb goal "emagrecimento"); split; reflexivity.
Qed.

Lemma prescription_fixed_per_goal_witness :
  1 <= 3
  /\ exists plan t',
       generate_plan (profile_of "forca" 3) no_analytics [5; 0; 2]%nat
       = Ok (plan, t')
       /\ forall s p, In s (all_sessions plan) -> In p (Session.exercises s) ->
            (Prescription.sets p, Prescription.reps p, Prescription.rest p)
            = (4, "4-6", "2-3min").
Proof.
  split; [lia|].
  destruct (prescription_fixed_per_goal (profile_of "forca" 3) no_analytics
              [5; 0; 2]%nat)
    as (plan & t' & Hg & Hs); [cbn; lia|].
  exists plan, t'. split; [exact Hg|].
  intros s p Hin Hp. exact (proj2 (Hs s p Hin Hp)).
Defined.

(** ** Names inside one session *)

Lemma nodupb_sound (l : list string) : nodupb l = true -> NoDup l.
Proof.
  induction l as [|x l IH]; intros H; [constructor|].
  cbn [nodupb] in H. apply andb_true_iff in H as [Hx Hl].
  constructor; [|exact (IH Hl)].
  intros Hin. apply negb_true_iff in Hx.
  assert (Ht : existsb (String.eqb x) l = true).
  { apply existsb_exists. exists x. split; [exact Hin|apply String.eqb_refl]. }
  rewrite Ht in Hx. discriminate Hx.
Qed.

(** No name occurs twice among the lists a muscle split draws from, and such
    a split asks for two names per muscle group. *)
Lemma muscle_catalogues :
  Forall (fun sp => NoDup (split_catalogue sp)
                    /\ drawn (Split.muscles sp)
                       = (2 * List.length (Split.muscles sp))%nat)
         (hypertrophy_splits ++ strength_splits).
Proof.
  unfold hypertrophy_splits, strength_splits. cbn [app].
  repeat (apply Forall_cons;
          [split; [apply nodupb_sound; vm_compute; reflexivity|reflexivity]|]).
  apply Forall_nil.
Qed.

Lemma app_swap_middle {A} (a b c d : list A) :
  Permutation ((a ++ b) ++ (c ++ d)) ((a ++ c) ++ (b ++ d)).
Proof.
  rewrite <- !app_assoc. apply Permutation_app_head.
  rewrite !app_assoc. apply Permutation_app_tail. apply Permutation_app_comm.
Qed.

Lemma selections_sub_perm muscles selections :
  Forall2 drawn_from muscles selections ->
  exists rest,
    Permutation (List.concat selections ++ rest)
                (flat_map (fun muscle => dict_get exercise_dict muscle []) muscles).
Proof.
  induction 1 as [|muscle sel muscles sels [_ (r1 & Hp)] _ (r2 & IH)].
  - exists []. constructor.
  - exists (r1 ++ r2). cbn [List.concat flat_map].
    eapply Permutation_trans; [apply app_swap_middle|].
    apply Permutation_app; assumption.
Qed.

Lemma NoDup_firstn {A} (n : nat) (l : list A) : NoDup l -> NoDup (firstn n l).
Proof.
  intros H. rewrite <- (firstn_skipn n l) in H.
  exact (NoDup_app_remove_r _ _ H).
Qed.

Lemma picked_NoDup goal split names :
  In split (goal_splits goal) ->
  picked_ok goal split names -> NoDup names.
Proof.
  intros Hin Hp. unfold picked_ok in Hp.
  destruct (str_in goal ["hipertrofia"; "forca"]) eqn:Hm.
  - destruct Hp as (sels & sh & Hsel & Hperm & ->).
    apply NoDup_firstn.
    apply (Permutation_NoDup (Permutation_sym Hperm)).
    destruct (selections_sub_perm _ _ Hsel) as (rest & Hr).
    apply (NoDup_app_remove_r _ rest).
    apply (Permutation_NoDup (Permutation_sym Hr)).
    assert (Hsp : In split (hypertrophy_splits ++ strength_splits)).
    { apply in_or_app.
      destruct (muscle_goal_cases _ Hm) as [E|E]; rewrite E in Hin;
        [left|right]; exact Hin. }
    exact (proj1 (proj1 (Forall_forall _ _) muscle_catalogues _ Hsp)).
  - exact (proj1 (proj2 Hp)).
Qed.

Lemma picked_count goal split names :
  In split (goal_splits goal) ->
  picked_ok goal split names ->
  List.length names
  = if str_in goal ["hipertrofia"; "forca"]
    then Nat.min 6 (2 * List.length (Split.muscles split))
    else 5%nat.
Proof.
  intros Hin Hp. unfold picked_ok in Hp.
  destruct (str_in goal ["hipertrofia"; "forca"]) eqn:Hm.
  - destruct Hp as (sels & sh & Hsel & Hperm & ->).
    rewrite length_firstn, (Permutation_length Hperm).
    rewrite (selections_length _ _ Hsel).
    assert (Hsp : In split (hypertrophy_splits ++ strength_splits)).
    { apply in_or_app.
      destruct (muscle_goal_cases _ Hm) as [E|E]; rewrite E in Hin;
        [left|right]; exact Hin. }
    rewrite (proj2 (proj1 (Forall_forall _ _) muscle_catalogues _ Hsp)).
    reflexivity.
  - exact (proj1 Hp).
Qed.

(** X4. Whatever the goal, no exercise name occurs twice in a session of a
    generated plan. *)
Theorem no_exercise_twice_in_a_session (user_profile : UserProfile.t)
    (analytics : Analytics.t) (t : tape) :
  1 <= UserProfile.training_frequency user_profile ->
  exists plan t',
    generate_plan user_profile analytics t = Ok (plan, t')
    /\ forall s, In s (all_sessions plan) -> NoDup (exercise_names s).
Proof.
  intros Hf.
  destruct (generate_plan_sessions user_profile analytics t)
    as (plan & t' & Hg & Hk); [exact Hf|].
  exists plan, t'. split; [exact Hg|].
  intros s Hs. apply In_nth_error in Hs as (k & Hn).
  destruct (Hk k s Hn) as ((split & names & Hsp & _ & _ & He & Hp) & _).
  unfold exercise_names. rewrite He, prescribe_names.
  apply (picked_NoDup _ split _ (nth_error_In _ _ Hsp) Hp).
Qed.

Lemma no_exercise_twice_in_a_session_witness :
  1 <= 2
  /\ exists plan t',
       generate_plan (profile_of "hipertrofia" 2) no_analytics [9; 9; 9]%nat
       = Ok (plan, t')
       /\ forall s, In s (all_sessions plan) -> NoDup (exercise_names s).
Proof.
  split; [lia|].
  apply (no_exercise_twice_in_a_session (profile_of "hipertrofia" 2)
           no_analytics [9; 9; 9]%nat).
  cbn. lia.
Defined.

(** X5. A session of a strength or hypertrophy plan has exactly two exercises
    per target muscle group of its split, cut to 6 when the split has four
    groups; a session of any other goal has exactly 5. *)
Theorem exercise_count_is_exact (user_profile : UserProfile.t)
    (analytics : Analytics.t) (t : tape) :
  let goal := UserProfile.primary_goal user_profile in
  1 <= UserProfile.training_frequency user_profile ->
  exists plan t',
    generate_plan user_profile analytics t = Ok (plan, t')
    /\ forall k s, nth_error (all_sessions plan) k = Some s ->
         exists split,
           split_at goal (Z.of_nat k) = Some split
           /\ List.length (Session.exercises s)
              = if str_in goal ["hipertrofia"; "forca"]
                then Nat.min 6 (2 * List.length (Split.muscles split))
                else 5%nat.
Proof.
  intros goal Hf.
  destruct (generate_plan_sessions user_profile analytics t)
    as (plan & t' & Hg & Hk); [exact Hf|].
  exists plan, t'. split; [exact Hg|].
  intros k s Hn.
  destruct (Hk k s Hn) as ((split & names & Hsp & _ & _ & He & Hp) & _).
  fold goal in Hsp, He, Hp.
  exists split. split; [exact Hsp|].
  rewrite He, length_map.
  apply picked_count; [|exact Hp].
  unfold split_at in Hsp. apply nth_error_In in Hsp. exact Hsp.
Qed.

Lemma exercise_count_is_exact_witness :
  1 <= 4
  /\ exists plan t',
       generate_plan (profile_of "forca" 4) no_analytics [6; 2; 8]%nat
       = Ok (plan, t')
       /\ forall s, nth_error (all_sessions plan) 3 = Some s ->
            List.length (Session.exercises s) = 6%nat.
Proof.
  split; [lia|].
  destruct (exercise_count_is_exact (profile_of "forca" 4) no_analytics
              [6; 2; 8]%nat)
    as (plan & t' & Hg & Hs); [cbn; lia|].
  exists plan, t'. split; [exact Hg|].
  intros s Hn. destruct (Hs 3%nat s Hn) as (split & Hsp & Hl).
  vm_compute in Hsp. injection Hsp as <-. exact Hl.
Defined.

(** ** Rendering what the scheduler built *)

Lemma catalogue_names_truthy muscle x :
  In x (dict_get exercise_dict muscle []) -> str_truthy x = true.
Proof.
  unfold exercise_dict. cbn [dict_get].
  repeat (destruct (String.eqb _ muscle);
          [cbn [In]; intros H;
           repeat (destruct H as [<-|H]; [reflexivity|]); contradiction|]).
  intros [].
Qed.

Lemma cardio_names_truthy x : In x cardio_exercises -> str_truthy x = true.
Proof.
  unfold cardio_exercises. cbn [In]. intros H.
  repeat (destruct H as [<-|H]; [reflexivity|]). contradiction.
Qed.

Lemma picked_truthy goal split names x :
  picked_ok goal split names -> In x names -> str_truthy x = true.
Proof.
  intros Hp Hx. unfold picked_ok in Hp.
  destruct (str_in goal ["hipertrofia"; "forca"]).
  - destruct Hp as (sels & sh & Hsel & Hperm & ->).
    apply firstn_In in Hx. apply (Permutation_in _ Hperm) in Hx.
    destruct (selections_In _ _ x Hsel Hx) as (m & _ & Hin).
    exact (catalogue_names_truthy _ _ Hin).
  - exact (cardio_names_truthy _ (proj2 (proj2 Hp) x Hx)).
Qed.

Lemma splits_named goal split :
  In split (goal_splits goal) ->
  str_truthy (Split.name split) = true /\ str_truthy (Split.focus split) = true.
Proof.
  intros Hin.
  destruct (goal_splits_cases goal) as [H|[H|[H|H]]]; rewrite H in Hin;
    cbn [In hypertrophy_splits strength_splits conditioning_splits
         emagrecimento_splits] in Hin;
    repeat (destruct Hin as [<-|Hin]; [split; reflexivity|]); contradiction.
Qed.

Lemma render_prescribed goal ex :
  str_truthy ex = true ->
  render_exercise (prescribe goal ex) = exercise_line goal ex.
Proof.
  intros H. unfold render_exercise, prescribe, exercise_line, prescription_text.
  destruct (String.eqb goal "hipertrofia");
    [|destruct (String.eqb goal "forca");
      [|destruct (String.eqb goal "emagrecimento")]];
    cbn [Prescription.exercise Prescription.sets Prescription.reps
         Prescription.rest Prescription.notes];
    rewrite H; reflexivity.
Qed.

(** X6. Rendering a session of a generated plan gives its header with name
    and focus, the exercises heading, one line per exercise made of the name
    and the goal's prescription text, and a closing empty line: no summary
    and no conditioning, mobility or progression line ever appears. *)
Theorem generated_session_rendering (user_profile : UserProfile.t)
    (analytics : Analytics.t) (t : tape) :
  let goal := UserProfile.primary_goal user_profile in
  1 <= UserProfile.training_frequency user_profile ->
  exists plan t',
    generate_plan user_profile analytics t = Ok (plan, t')
    /\ forall s idx, In s (all_sessions plan) ->
         render_session idx s
         = [fstr ["#### "; Session.name s; " – "; Session.focus s];
            "##### Exercícios"]
           ++ map (exercise_line goal) (exercise_names s) ++ [""].
Proof.
  intros goal Hf.
  destruct (generate_plan_sessions user_profile analytics t)
    as (plan & t' & Hg & Hk); [exact Hf|].
  exists plan, t'. split; [exact Hg|].
  intros s idx Hs. apply In_nth_error in Hs as (k & Hn).
  destruct (Hk k s Hn)
    as ((split & names & Hsp & _ & _ & He & Hp) & (day & sp & ns & Hin & E)).
  fold goal in Hsp, He, Hp, Hin, E.
  assert (Hns : ns = names).
  { rewrite E in He. cbn [Session.exercises] in He.
    rewrite <- (prescribe_names goal ns), He. apply prescribe_names. }
  subst ns.
  assert (Hsplit : In split (goal_splits goal))
    by (unfold split_at in Hsp; apply nth_error_In in Hsp; exact Hsp).
  pose proof (picked_count _ _ _ Hsplit Hp) as Hc.
  assert (Hne : list_truthy (map (prescribe goal) names) = true).
  { destruct names; [|reflexivity]. exfalso.
    destruct (str_in goal ["hipertrofia"; "forca"]) eqn:Hm; [|discriminate Hc].
    assert (Hsp' : In split (hypertrophy_splits ++ strength_splits)).
    { apply in_or_app.
      destruct (muscle_goal_cases _ Hm) as [G|G]; rewrite G in Hsplit;
        [left|right]; exact Hsplit. }
    pose proof (proj1 (Forall_forall _ _) muscle_splits_drawn _ Hsp') as Hd.
    pose proof (proj2 (proj1 (Forall_forall _ _) muscle_catalogues _ Hsp')) as Hd2.
    cbv beta in Hd. cbn [List.length] in Hc. lia. }
  destruct (splits_named goal sp Hin) as [Hname Hfocus].
  unfold exercise_names. rewrite E. unfold render_session.
  cbn [Session.name Session.focus Session.resumo Session.exercises
       Session.conditioning Session.mobility Session.progression].
  rewrite Hname. cbv zeta. rewrite Hfocus, Hne.
  cbn [str_truthy opt_truthy app]. rewrite Hname.
  rewrite prescribe_names, map_map.
  f_equal. f_equal. f_equal.
  apply map_ext_in. intros ex Hex.
  apply render_prescribed. exact (picked_truthy _ _ _ _ Hp Hex).
Qed.

Lemma generated_session_rendering_witness :
  1 <= 3
  /\ exists plan t',
       generate_plan (profile_of "emagrecimento" 3) no_analytics [1; 0; 7]%nat
       = Ok (plan, t')
       /\ forall s, In s (all_sessions plan) ->
            render_session 1 s
            = [fstr ["#### "; Session.name s; " – "; Session.focus s];
               "##### Exercícios"]
              ++ map (fun ex => fstr ["- "; ex; " 3x 12-15 descanso 30s"])
                     (exercise_names s)
              ++ [""].
Proof.
  split; [lia|].
  destruct (generated_session_rendering (profile_of "emagrecimento" 3)
              no_analytics [1; 0; 7]%nat)
    as (plan & t' & Hg & Hs); [cbn; lia|].
  exists plan, t'. split; [exact Hg|].
  intros s Hin. exact (Hs s 1 Hin).
Defined.

(** ** Failure modes of the metrics *)

(** X7. The metrics function can only fail in two ways: with
    [ZeroDivisionError], when a height is supplied, is not zero, and the
    square of the height in metres is a zero float; or with [OverflowError],
    when that square or the frequency leaves the range of a float. It never
    fails on a lookup. *)
Theorem metrics_failure_modes (libm_pow : float -> float -> float * bool)
    (str_strip str_lower : string -> string)
    (age : Z) (w : float) (f : Z) (goal : string) (h : option float)
    (level : string) (e : exn) :
  ferramenta_matematica_treino libm_pow str_strip str_lower
    age w f goal h level = Raise e ->
  (e = ZeroDivisionError
   /\ exists x sq,
        h = Some x /\ float_truthy x = true
        /\ float_sqr libm_pow (x / 100.0)%float = Ok sq
        /\ (sq =? 0)%float = true)
  \/ (e = OverflowError
      /\ ((exists x,
             h = Some x /\ float_truthy x = true
             /\ float_sqr libm_pow (x / 100.0)%float = Raise OverflowError)
          \/ float_of_int f = Raise OverflowError)).
Proof.
  intros H. rewrite metrics_unfold in H.
  destruct (bmi_of libm_pow w h) as [bmi|e1] eqn:Hb; cbn [result_bind] in H.
  - destruct (float_of_int f) as [fr|e2] eqn:Hf; cbn [result_bind] in H;
      [discriminate H|].
    injection H as <-. pose proof (float_of_int_raise _ _ Hf) as ->.
    right. split; [reflexivity|]. right. reflexivity.
  - injection H as <-. unfold bmi_of in Hb.
    destruct h as [x|]; [|discriminate Hb].
    destruct (float_truthy x) eqn:Ht; [|discriminate Hb].
    destruct (float_sqr libm_pow (x / 100.0)%float) as [sq|e3] eqn:Hs;
      cbn [result_bind] in Hb.
    + unfold float_div in Hb.
      destruct (sq =? 0)%float eqn:Hz; cbn [result_bind] in Hb;
        [|discriminate Hb].
      injection Hb as <-. left. split; [reflexivity|]. exists x, sq. auto.
    + injection Hb as <-. pose proof (float_sqr_raise _ _ _ Hs) as ->.
      right. split; [reflexivity|]. left. exists x. auto.
Qed.

Lemma metrics_failure_modes_witness :
  (ZeroDivisionError = ZeroDivisionError
   /\ exists x sq,
        Some 1e-170%float = Some x /\ float_truthy x = true
        /\ float_sqr exact_pow (x / 100.0)%float = Ok sq
        /\ (sq =? 0)%float = true)
  \/ (ZeroDivisionError = OverflowError
      /\ ((exists x,
             Some 1e-170%float = Some x /\ float_truthy x = true
             /\ float_sqr exact_pow (x / 100.0)%float = Raise OverflowError)
          \/ float_of_int 3 = Raise OverflowError)).
Proof.
  apply (metrics_failure_modes exact_pow ascii_strip ascii_lower 30 70 3
           "hipertrofia" (Some 1e-170%float) "iniciante").
  vm_compute. reflexivity.
Defined.

(** X8. The volume of the record is chosen by the normalised experience
    level: the beginner row for "iniciante", the advanced row for "avancado",
    and the intermediate row for every other text, an accented "avançado"
    included. *)
Theorem volume_by_experience (libm_pow : float -> float -> float * bool)
    (str_strip str_lower : string -> string)
    (age : Z) (w : float) (f : Z) (goal : string) (h : option float)
    (level : string) (r : Analytics.t) :
  let key := normalizar_experiencia str_strip str_lower level in
  ferramenta_matematica_treino libm_pow str_strip str_lower
    age w f goal h level = Ok r ->
  Analytics.experience_level r = key
  /\ Analytics.volume_per_session r
     = if String.eqb key "iniciante" then "14-18 séries por grupamento"
       else if String.eqb key "avancado" then "22-26 séries por grupamento"
       else "18-22 séries por grupamento".
Proof.
  intros key H. rewrite metrics_unfold in H.
  destruct (bmi_of libm_pow w h) as [bmi|e1]; cbn [result_bind] in H;
    [|discriminate H].
  destruct (float_of_int f) as [fr|e2]; cbn [result_bind] in H; [|discriminate H].
  injection H as <-.
  cbn [Analytics.experience_level Analytics.volume_per_session].
  fold key. split; [reflexivity|].
  assert (E : forall k default,
             dict_get volume_table k default
             = if String.eqb "iniciante" k then "14-18 séries por grupamento"
               else if String.eqb "intermediario" k
                    then "18-22 séries por grupamento"
                    else if String.eqb "avancado" k
                         then "22-26 séries por grupamento"
                         else default) by reflexivity.
  transitivity (dict_get volume_table key "18-22 séries por grupamento");
    [reflexivity|].
  rewrite E.
  rewrite (String.eqb_sym "iniciante" key), (String.eqb_sym "avancado" key),
    (String.eqb_sym "intermediario" key).
  destruct (String.eqb key "iniciante"); [reflexivity|].
  destruct (String.eqb key "intermediario") eqn:Hi.
  - apply String.eqb_eq in Hi. rewrite Hi. reflexivity.
  - reflexivity.
Qed.

Lemma volume_by_experience_witness :
  exists r,
    ferramenta_matematica_treino exact_pow ascii_strip ascii_lower 30 80 4
      "hipertrofia" None
      (normalizar_experiencia ascii_strip ascii_lower "Avançado") = Ok r
    /\ Analytics.experience_level r = "avançado"
    /\ Analytics.volume_per_session r = "18-22 séries por grupamento".
Proof.
  exists (Analytics.mk "hipertrofia" 576.0 2304.0 None "6-12" "70-80% 1RM"
            "18-22 séries por grupamento" 4 "avançado").
  assert (H : ferramenta_matematica_treino exact_pow ascii_strip ascii_lower
                30 80 4 "hipertrofia" None
                (normalizar_experiencia ascii_strip ascii_lower "Avançado")
              = Ok (Analytics.mk "hipertrofia" 576.0 2304.0 None "6-12"
                      "70-80% 1RM" "18-22 séries por grupamento" 4 "avançado"))
    by (vm_compute; reflexivity).
  split; [exact H|].
  exact (volume_by_experience exact_pow ascii_strip ascii_lower 30 80 4
           "hipertrofia" None
           (normalizar_experiencia ascii_strip ascii_lower "Avançado") _ H).
Defined.

(** ** The metrics summary *)




(** The summary of a metrics record, whatever the record. *)
Lemma insights_of_record (py_repr : pyval -> string) (int_max_str_digits : Z)
    (r : Analytics.t) :
  formatar_analises py_repr int_max_str_digits (analytics_dict r)
  = Ok (join newline
          (insight_lines py_repr r
           ++ match Analytics.bmi r with
              | Some b =>
                  if float_truthy b
                  then [fstr ["- IMC aproximado: "; py_repr (PFloat b)]]
                  else []
              | None => []
              end)).
Proof.
  destruct r as [g sc wc bmi rr ri vol spw lvl].
  unfold formatar_analises, analytics_dict, insight_lines.
  cbn [Analytics.bmi Analytics.estimated_session_calories
       Analytics.estimated_weekly_calories Analytics.recommended_rep_range
       Analytics.recommended_intensity Analytics.volume_per_session
       Analytics.goal Analytics.sessions_per_week Analytics.experience_level].
  destruct bmi as [b|]; [destruct (float_truthy b) eqn:Hb|].
  - change (py_truthy (dict_get _ "bmi" PNone)) with (float_truthy b).
    rewrite Hb. reflexivity.
  - change (py_truthy (dict_get _ "bmi" PNone)) with (float_truthy b).
    rewrite Hb. rewrite app_nil_r. reflexivity.
  - rewrite app_nil_r. reflexivity.
Qed.

(** X10. For the record the metrics function returns, the summary is the
    five metric lines followed by the BMI line when the record holds a
    non-zero BMI, and by nothing otherwise: without a height there is no BMI
    line, and a supplied height whose BMI rounds to 0.0 gives none either. *)
Theorem insights_of_metrics (libm_pow : float -> float -> float * bool)
    (py_repr : pyval -> string) (int_max_str_digits : Z)
    (str_strip str_lower : string -> string)
    (age : Z) (w : float) (f : Z) (goal : string) (h : option float)
    (level : string) (r : Analytics.t) :
  ferramenta_matematica_treino libm_pow str_strip str_lower
    age w f goal h level = Ok r ->
  formatar_analises py_repr int_max_str_digits (analytics_dict r)
  = Ok (join newline
          (insight_lines py_repr r
           ++ match Analytics.bmi r with
              | Some b =>
                  if float_truthy b
                  then [fstr ["- IMC aproximado: "; py_repr (PFloat b)]]
                  else []
              | None => []
              end))
  /\ (h = None ->
      formatar_analises py_repr int_max_str_digits (analytics_dict r)
      = Ok (join newline (insight_lines py_repr r))).
Proof.
  intros H. split; [apply insights_of_record|].
  intros Hh. rewrite insights_of_record.
  destruct (metrics_inv libm_pow str_strip str_lower age w f goal h level r H)
    as (bmi & fr & Hb & _ & Hr & _).
  rewrite Hh in Hb. cbn [bmi_of] in Hb. injection Hb as <-.
  rewrite Hr, app_nil_r. reflexivity.
Qed.

Lemma insights_of_metrics_witness :
  exists r,
    ferramenta_matematica_treino exact_pow ascii_strip ascii_lower 25 35 3
      "Hipertrofia" (Some 10000.0%float) "Iniciante" = Ok r
    /\ Analytics.bmi r = Some 0%float
    /\ formatar_analises (fun _ => "?") 4300 (analytics_dict r)
       = Ok (join newline (insight_lines (fun _ => "?") r)).
Proof.
  exists (Analytics.mk "hipertrofia" 252.0 756.0 (Some 0%float) "6-12"
            "70-80% 1RM" "14-18 séries por grupamento" 3 "iniciante").
  assert (H : ferramenta_matematica_treino exact_pow ascii_strip ascii_lower
                25 35 3 "Hipertrofia" (Some 10000.0%float) "Iniciante"
              = Ok (Analytics.mk "hipertrofia" 252.0 756.0 (Some 0%float)
                      "6-12" "70-80% 1RM" "14-18 séries por grupamento" 3
                      "iniciante"))
    by (vm_compute; reflexivity).
  split; [exact H|]. split; [reflexivity|].
  exact (proj1 (insights_of_metrics exact_pow (fun _ => "?") 4300
                  ascii_strip ascii_lower 25 35 3 "Hipertrofia" (Some 10000.0%float) "Iniciante" _ H)).
Defined.

(** ** The reference summaries *)

Lemma append_empty_r (s : string) : (s ++ "")%string = s.
Proof. induction s as [|c s IH]; cbn; [reflexivity|rewrite IH; reflexivity]. Qed.

Lemma resumir_item_prefix (py_repr : pyval -> string) (item : Research.t) :
  starts_with (Research.query item) (resumir_item py_repr item)
  /\ (Research.results item = [] ->
      resumir_item py_repr item = Research.query item).
Proof.
  unfold resumir_item, starts_with. split.
  - match goal with
    | |- exists rest, (if ?c then _ else _) = _ => destruct c
    end.
    + eexists. reflexivity.
    + exists "". symmetry. apply append_empty_r.
  - intros E. rewrite E. reflexivity.
Qed.

(** X11. [resumir_pesquisa_web] gives one summary per query, in the order of
    the queries; each summary starts with its query, and is the query alone
    when the search returned nothing. *)
Theorem one_summary_per_query (py_repr : pyval -> string)
    (pesquisa : list Research.t) :
  List.length (resumir_pesquisa_web py_repr pesquisa) = List.length pesquisa
  /\ forall i item, nth_error pesquisa i = Some item ->
       exists s,
         nth_error (resumir_pesquisa_web py_repr pesquisa) i = Some s
         /\ starts_with (Research.query item) s
         /\ (Research.results item = [] -> s = Research.query item).
Proof.
  unfold resumir_pesquisa_web. split; [apply length_map|].
  intros i item Hi. exists (resumir_item py_repr item).
  split; [apply map_nth_error; exact Hi|].
  apply resumir_item_prefix.
Qed.

Lemma one_summary_per_query_witness :
  exists s,
    nth_error (resumir_pesquisa_web (fun _ => "?")
                 [Research.mk "treino" [Hit.mk (PStr "Guia") (PStr "") (PStr "u")];
                  Research.mk "dieta" []]) 1 = Some s
    /\ s = "dieta".
Proof.
  destruct (proj2 (one_summary_per_query (fun _ => "?")
                     [Research.mk "treino"
                        [Hit.mk (PStr "Guia") (PStr "") (PStr "u")];
                      Research.mk "dieta" []])
              1%nat (Research.mk "dieta" []) eq_refl)
    as (s & Hs & _ & He).
  exists s. split; [exact Hs|]. apply He. reflexivity.
Defined.

(** X12. Only the first result of a query is summarised, through its title,
    else its url, else its snippet, the first of them that is truthy; when
    none is, the printed form of the whole result is used. *)
Theorem summary_of_first_result (py_repr : pyval -> string) (query : string)
    (first : Hit.t) (rest : list Hit.t) :
  resumir_item py_repr (Research.mk query (first :: rest))
  = match find py_truthy [Hit.title first; Hit.url first; Hit.snippet first] with
    | Some v => fstr [query; ": "; py_str py_repr v]
    | None =>
        if str_truthy (py_repr (hit_dict first))
        then fstr [query; ": "; py_repr (hit_dict first)]
        else query
    end.
Proof.
  unfold resumir_item, py_or.
  cbn [Research.results Research.query find].
  destruct (py_truthy (Hit.title first)) eqn:Ht.
  - rewrite !Ht. reflexivity.
  - destruct (py_truthy (Hit.url first)) eqn:Hu.
    + rewrite !Hu. reflexivity.
    + destruct (py_truthy (Hit.snippet first)) eqn:Hs.
      * rewrite ?Hs. reflexivity.
      * rewrite ?Hs. reflexivity.
Qed.

(** ** The search helper *)

Lemma extract_topics_nil depth : extract_topics (S depth) [] = Done [].
Proof. reflexivity. Qed.

Lemma extract_topics_cons depth item rest :
  extract_topics (S depth) (item :: rest)
  = (let! here :=
       match item with
       | PDict d =>
           let! sub :=
             match dict_find d "Topics" with
             | Some (PList topics) => extract_topics depth topics
             | _ => Done []
             end in
           Done (direct_topic d ++ sub)
       | _ => Done []
       end in
     let! more := extract_topics (S depth) rest in
     Done (here ++ more)).
Proof. reflexivity. Qed.

Lemma direct_topic_snippet d :
  Forall (fun h => Hit.snippet h = PStr "") (direct_topic d).
Proof.
  unfold direct_topic. destruct (dict_mem d "Text"); repeat constructor.
Qed.

Lemma extract_topics_snippets depth : forall items hits,
  extract_topics depth items = Done hits ->
  Forall (fun h => Hit.snippet h = PStr "") hits.
Proof.
  induction depth as [|depth IHd]; intros items; [discriminate|].
  induction items as [|item rest IHr]; intros hits H.
  - rewrite extract_topics_nil in H. injection H as <-. constructor.
  - rewrite extract_topics_cons in H.
    destruct (extract_topics (S depth) rest) as [more|e] eqn:Hm.
    + specialize (IHr more eq_refl).
      destruct item as [| | | | |l|d]; cbn [attempt_bind] in H;
        try (injection H as <-; exact IHr).
      destruct (dict_find d "Topics") as [[| | | | |topics|]|];
        cbn [attempt_bind] in H;
        try (injection H as <-; apply Forall_app; split; [|exact IHr];
             rewrite app_nil_r; apply direct_topic_snippet).
      destruct (extract_topics depth topics) as [sub|e] eqn:Hs;
        cbn [attempt_bind] in H; [|discriminate H].
      injection H as <-. apply Forall_app. split; [|exact IHr].
      apply Forall_app. split; [apply direct_topic_snippet|].
      exact (IHd _ _ Hs).
    + destruct item as [| | | | |l|d]; cbn [attempt_bind] in H;
        try discriminate H.
      destruct (dict_find d "Topics") as [[| | | | |topics|]|];
        cbn [attempt_bind] in H; try discriminate H.
      destruct (extract_topics depth topics); cbn [attempt_bind] in H;
        discriminate H.
Qed.

(** X13. An empty query gives no result without any request. Otherwise the
    helper returns either the single error record, whose snippet is never
    empty, or genuine results, whose snippets are all empty and whose number
    does not exceed a non-negative [max_results]. *)
Theorem search_web_outcomes (web_exn_text : web_exn -> string)
    (http_get : string -> attempt pyval) (recursion_limit : nat)
    (query : string) (max_results : Z) :
  let found := search_web web_exn_text http_get recursion_limit query max_results in
  (query = "" -> found = [])
  /\ ((exists exc, found = [error_hit (web_exn_text exc)])
      \/ (Forall (fun h => Hit.snippet h = PStr "") found
          /\ (0 <= max_results -> len found <= max_results)))
  /\ (forall text, Hit.snippet (error_hit text) <> PStr "").
Proof.
  intros found. split; [|split].
  - intros E. unfold found. rewrite E. reflexivity.
  - unfold found, search_web.
    destruct (negb (str_truthy query)).
    { right. split; [constructor|]. cbn. lia. }
    destruct (http_get query) as [data|e]; cbn [attempt_bind];
      [|left; exists e; reflexivity].
    destruct data as [| | | | |l|d]; cbn [attempt_bind];
      try (left; eexists; reflexivity).
    destruct (iterate (dict_get d "RelatedTopics" (PList []))) as [items|e];
      cbn [attempt_bind]; [|left; exists e; reflexivity].
    destruct (extract_topics recursion_limit items) as [topics|e] eqn:Ht;
      cbn [attempt_bind]; [|left; exists e; reflexivity].
    right. pose proof (extract_topics_snippets _ _ _ Ht) as Hs. split.
    + apply Forall_forall. intros h Hin.
      apply (proj1 (Forall_forall _ _) Hs).
      unfold py_slice_to in Hin.
      destruct (0 <=? max_results); exact (firstn_In _ _ _ Hin).
    + intros Hm. unfold py_slice_to.
      destruct (Z.leb_spec 0 max_results) as [_|Hneg]; [|lia].
      unfold len. rewrite length_firstn. lia.
  - intros text. cbn. discriminate.
Qed.

Lemma search_web_outcomes_witness :
  search_web (fun _ => "sem rede")
    (fun _ => Done (PDict [("RelatedTopics", PInt 7)])) 50 "" 4 = []
  /\ search_web (fun _ => "sem rede")
       (fun _ => Done (PDict [("RelatedTopics", PInt 7)])) 50 "treino" 4
     = [error_hit "sem rede"].
Proof.
  split.
  - apply (proj1 (search_web_outcomes (fun _ => "sem rede")
                    (fun _ => Done (PDict [("RelatedTopics", PInt 7)]))
                    50 "" 4)).
    reflexivity.
  - reflexivity.
Defined.

(** X14. The result of the traversal does not depend on how many nested
    calls the interpreter has left, once there are enough of them: a
    traversal that ends with some depth gives the same records with any
    greater depth. *)
Theorem extract_topics_depth_irrelevant (depth : nat) :
  forall (items : list pyval) (hits : list Hit.t),
    extract_topics depth items = Done hits ->
    forall extra, extract_topics (depth + extra) items = Done hits.
Proof.
  induction depth as [|depth IHd]; intros items; [discriminate|].
  induction items as [|item rest IHr]; intros hits H extra;
    cbn [Nat.add].
  - rewrite extract_topics_nil in *. exact H.
  - rewrite extract_topics_cons in H. rewrite extract_topics_cons.
    destruct (extract_topics (S depth) rest) as [more|e] eqn:Hm.
    + pose proof (IHr more eq_refl extra) as Hr. cbn [Nat.add] in Hr.
      rewrite Hr.
      destruct item as [| | | | |l|d]; try exact H.
      destruct (dict_find d "Topics") as [[| | | | |topics|]|]; try exact H.
      destruct (extract_topics depth topics) as [sub|e] eqn:Hs;
        [|discriminate H].
      rewrite (IHd _ _ Hs extra). exact H.
    + destruct item as [| | | | |l|d]; cbn [attempt_bind] in H;
        try discriminate H.
      destruct (dict_find d "Topics") as [[| | | | |topics|]|];
        cbn [attempt_bind] in H; try discriminate H.
      destruct (extract_topics depth topics); cbn [attempt_bind] in H;
        discriminate H.
Qed.

Lemma extract_topics_depth_irrelevant_witness :
  extract_topics (2 + 40)
    [PDict [("Text", PStr "A"); ("FirstURL", PStr "u1")];
     PDict [("Name", PStr "grupo");
            ("Topics", PList [PDict [("Text", PStr "B")]])]]
  = Done [Hit.mk (PStr "A") (PStr "") (PStr "u1");
          Hit.mk (PStr "B") (PStr "") (PStr "")].
Proof.
  apply (extract_topics_depth_irrelevant 2). reflexivity.
Defined.

(** X15. When the request fails, the single error record of the search ends
    up as the reference shown for the query: the summary is the query
    followed by the title of the error record. *)
Theorem failed_search_becomes_reference (py_repr : pyval -> string)
    (web_exn_text : web_exn -> string) (http_get : string -> attempt pyval)
    (recursion_limit : nat) (query : string) (max_results : Z) (exc : web_exn) :
  query <> "" ->
  http_get query = Thrown exc ->
  search_web web_exn_text http_get recursion_limit query max_results
  = [error_hit (web_exn_text exc)]
  /\ resumir_item py_repr
       (Research.mk query
          (search_web web_exn_text http_get recursion_limit query max_results))
     = fstr [query; ": Erro na pesquisa"].
Proof.
  intros Hq Hget.
  assert (Hs : search_web web_exn_text http_get recursion_limit query max_results
               = [error_hit (web_exn_text exc)]).
  { unfold search_web. destruct query; [contradiction Hq; reflexivity|].
    cbn [str_truthy negb]. rewrite Hget. reflexivity. }
  split; [exact Hs|]. rewrite Hs. reflexivity.
Qed.

Lemma failed_search_becomes_reference_witness :
  resumir_item (fun _ => "?")
    (Research.mk "melhores exercícios para forca academia"
       (search_web (fun _ => "timeout") (fun _ => Thrown (RequestFailed "timeout"))
          100 "melhores exercícios para forca academia" 4))
  = "melhores exercícios para forca academia: Erro na pesquisa".
Proof.
  apply (failed_search_becomes_reference (fun _ => "?") (fun _ => "timeout")
           (fun _ => Thrown (RequestFailed "timeout")) 100
           "melhores exercícios para forca academia" 4 (RequestFailed "timeout")).
  - discriminate.
  - reflexivity.
Defined.

(** ** The page *)

Lemma generate_plan_returns user_profile analytics t :
  UserProfile.training_frequency user_profile <> 0 ->
  exists plan t', generate_plan user_profile analytics t = Ok (plan, t').
Proof.
  intros Hf.
  destruct (Z.lt_trichotomy (UserProfile.training_frequency user_profile) 0)
    as [H|[H|H]].
  - destruct (generate_plan_negative user_profile analytics t H) as (plan & Hg & _).
    eauto.
  - contradiction.
  - destruct (generate_plan_spec user_profile analytics t)
      as (plan & t' & Hg & _); [lia|eauto].
Qed.

Lemma app_five {A} (l : list A) x1 x2 x3 x4 x5 tl :
  l ++ x1 :: x2 :: x3 :: x4 :: x5 :: tl = (l ++ [x1; x2; x3; x4; x5]) ++ tl.
Proof. rewrite <- app_assoc. reflexivity. Qed.

Lemma show_results_shape (py_repr : pyval -> string)
    (int_max_str_digits : Z) (user_profile : UserProfile.t) (r : Analytics.t)
    (research_payload : list Research.t) (plan_markdown : string) :
  research_payload <> [] ->
  exists front,
    show_results py_repr int_max_str_digits user_profile (analytics_dict r)
                 research_payload plan_markdown
    = Ok (Subheader "Perfil validado" :: front
          ++ Subheader "Referências encontradas na web"
             :: map Markdown
                  (map (fun item => fstr ["- "; item])
                       (resumir_pesquisa_web py_repr research_payload))
          ++ [Subheader "Plano final"; Markdown plan_markdown]).
Proof.
  intros Hne. unfold show_results.
  rewrite insights_of_record. cbn [result_bind].
  assert (Ht : list_truthy (resumir_pesquisa_web py_repr research_payload) = true).
  { destruct research_payload; [contradiction Hne; reflexivity|reflexivity]. }
  rewrite Ht. eexists. f_equal. cbn [app]. f_equal.
  rewrite app_five, !app_comm_cons, map_map.
  reflexivity.
Qed.

(** X16. With a weekly frequency other than 0 (the form offers 2 to 6),
    pressing the button never ends in an uncaught exception. The column
    shows either a single error box, for a height that is not a number or a
    calculation that failed, or the whole page: it opens with the profile,
    lists one reference per search query, three in all, whatever the
    searches returned, and closes with the rendering of the plan that
    [generate_plan] builds from the form's profile. *)
Theorem main_outcomes (libm_pow : float -> float -> float * bool)
    (py_repr : pyval -> string) (int_max_str_digits : Z)
    (str_strip str_lower : string -> string)
    (parse_float : string -> option float) (exn_message : exn -> string)
    (web_exn_text : web_exn -> string) (http_get : string -> attempt pyval)
    (recursion_limit : nat)
    (age : Z) (weight : float) (height_input : string) (freq : Z)
    (primary_goal_display experience_display restrictions notes : string)
    (t : tape) :
  freq <> 0 ->
  exists events,
    main libm_pow py_repr int_max_str_digits str_strip str_lower parse_float
         exn_message web_exn_text
         http_get recursion_limit age weight height_input freq
         primary_goal_display experience_display restrictions notes true t
    = Ok events
    /\ ((exists text, events = [ErrorBox text])
        \/ exists height_cm front refs plan t',
             generate_plan
               (form_profile str_strip str_lower age weight height_cm freq
                             primary_goal_display experience_display
                             restrictions notes)
               no_analytics t = Ok (plan, t')
             /\ List.length refs = 3%nat
             /\ events
                = Subheader "Perfil validado" :: front
                  ++ Subheader "Referências encontradas na web"
                     :: map Markdown refs
                  ++ [Subheader "Plano final";
                      Markdown (render_plan_markdown plan)]).
Proof.
  intros Hf.
  assert (Hpage : forall height_cm,
    exists events,
      match ferramenta_matematica_treino libm_pow str_strip str_lower
              age weight freq
              (normalizar_objetivo str_strip str_lower primary_goal_display)
              height_cm
              (normalizar_experiencia str_strip str_lower experience_display)
      with
      | Raise exc =>
          Ok [ErrorBox (fstr ["Erro nos cálculos: "; exn_message exc])]
      | Ok analises =>
          match generate_plan
                  (form_profile str_strip str_lower age weight height_cm freq
                     primary_goal_display experience_display restrictions notes)
                  analises t with
          | Raise exc => Raise exc
          | Ok (plan_payload, _) =>
              show_results py_repr int_max_str_digits
                (form_profile str_strip str_lower age weight height_cm freq
                   primary_goal_display experience_display restrictions notes)
                (analytics_dict analises)
                (map (fun q => Research.mk q
                                 (search_web web_exn_text http_get
                                             recursion_limit q 4))
                     (search_queries
                        (form_profile str_strip str_lower age weight height_cm
                           freq primary_goal_display experience_display
                           restrictions notes)))
                (render_plan_markdown plan_payload)
          end
      end = Ok events
      /\ ((exists text, events = [ErrorBox text])
          \/ exists height_cm front refs plan t',
               generate_plan
                 (form_profile str_strip str_lower age weight height_cm freq
                    primary_goal_display experience_display restrictions notes)
                 no_analytics t = Ok (plan, t')
               /\ List.length refs = 3%nat
               /\ events
                  = Subheader "Perfil validado" :: front
                    ++ Subheader "Referências encontradas na web"
                       :: map Markdown refs
                    ++ [Subheader "Plano final";
                        Markdown (render_plan_markdown plan)])).
  { intros height_cm.
    destruct (ferramenta_matematica_treino _ _ _ _ _ _ _ _ _) as [analises|exc].
    - destruct (generate_plan_returns
                  (form_profile str_strip str_lower age weight height_cm freq
                     primary_goal_display experience_display restrictions notes)
                  analises t Hf) as (plan & t' & Hg).
      rewrite Hg.
      destruct (show_results_shape py_repr int_max_str_digits
                  (form_profile str_strip str_lower age weight height_cm freq
                     primary_goal_display experience_display restrictions notes)
                  analises
                  (map (fun q => Research.mk q
                                   (search_web web_exn_text http_get
                                               recursion_limit q 4))
                       (search_queries
                          (form_profile str_strip str_lower age weight height_cm
                             freq primary_goal_display experience_display
                             restrictions notes)))
                  (render_plan_markdown plan))
        as (front & Hshow); [discriminate|].
      eexists. split; [exact Hshow|]. right.
      exists height_cm, front. eexists. exists plan, t'.
      split; [exact Hg|]. split; [|reflexivity].
      unfold resumir_pesquisa_web. rewrite !length_map. reflexivity.
    - eexists. split; [reflexivity|]. left. eexists. reflexivity. }
  unfold main. cbn [negb].
  destruct (str_truthy (str_strip height_input)).
  - destruct (parse_float (str_strip height_input)) as [hv|].
    + exact (Hpage (Some hv)).
    + eexists. split; [reflexivity|]. left. eexists. reflexivity.
  - exact (Hpage None).
Qed.

Lemma main_outcomes_witness :
  exists events,
    main exact_pow (fun _ => "?") 4300 ascii_strip ascii_lower (fun _ => None)
         (fun _ => "erro")
         (fun _ => "sem rede") (fun _ => Thrown (RequestFailed "sem rede")) 100
         30 80 "" 4 "Hipertrofia" "Iniciante" "" "" true [3; 1; 4; 1; 5]%nat
    = Ok events
    /\ ((exists text, events = [ErrorBox text])
        \/ exists height_cm front refs plan t',
             generate_plan
               (form_profile ascii_strip ascii_lower 30 80 height_cm 4
                             "Hipertrofia" "Iniciante" "" "")
               no_analytics [3; 1; 4; 1; 5]%nat = Ok (plan, t')
             /\ List.length refs = 3%nat
             /\ events
                = Subheader "Perfil validado" :: front
                  ++ Subheader "Referências encontradas na web"
                     :: map Markdown refs
                  ++ [Subheader "Plano final";
                      Markdown (render_plan_markdown plan)]).
Proof.
  apply (main_outcomes exact_pow (fun _ => "?") 4300 ascii_strip ascii_lower
           (fun _ => None)
           (fun _ => "erro") (fun _ => "sem rede")
           (fun _ => Thrown (RequestFailed "sem rede")) 100
           30 80 "" 4 "Hipertrofia" "Iniciante" "" "" [3; 1; 4; 1; 5]%nat).
  lia.
Defined.

(** ** Target groups and the whole document *)

Lemma muscle_lists_long :
  Forall (fun sp =>
            Forall (fun muscle =>
                      (2 <= List.length (dict_get exercise_dict muscle []))%nat)
                   (Split.muscles sp))
         (hypertrophy_splits ++ strength_splits).
Proof.
  unfold hypertrophy_splits, strength_splits. cbn [app Split.muscles].
  repeat (apply Forall_cons; [repeat (apply Forall_cons; [cbn; lia|]);
                              apply Forall_nil|]).
  apply Forall_nil.
Qed.

Lemma selections_of_two muscles selections :
  Forall (fun muscle =>
            (2 <= List.length (dict_get exercise_dict muscle []))%nat) muscles ->
  Forall2 drawn_from muscles selections ->
  Forall2 (fun muscle sel =>
             List.length sel = 2%nat
             /\ forall x, In x sel -> In x (dict_get exercise_dict muscle []))
          muscles selections.
Proof.
  intros Hlong Hsel. induction Hsel as [|muscle sel muscles sels [Hl (r & Hp)] _ IH].
  - constructor.
  - inversion Hlong as [|? ? Hm Hrest]; subst. constructor; [|exact (IH Hrest)].
    split; [lia|].
    intros x Hx. apply (Permutation_in _ Hp). apply in_or_app. left. exact Hx.
Qed.

(** X17. In a strength or hypertrophy plan every session takes exactly two
    exercises from the list of each target muscle group of its split; when
    the split has at most three groups nothing is cut, so the session's
    exercises are those selections in some order and every target group is
    trained. *)
Theorem every_group_gets_two_exercises (user_profile : UserProfile.t)
    (analytics : Analytics.t) (t : tape) :
  let goal := UserProfile.primary_goal user_profile in
  1 <= UserProfile.training_frequency user_profile ->
  goal = "hipertrofia" \/ goal = "forca" ->
  exists plan t',
    generate_plan user_profile analytics t = Ok (plan, t')
    /\ forall k s, nth_error (all_sessions plan) k = Some s ->
         exists split selections shuffled,
           split_at goal (Z.of_nat k) = Some split
           /\ Forall2 (fun muscle sel =>
                         List.length sel = 2%nat
                         /\ forall x, In x sel ->
                              In x (dict_get exercise_dict muscle []))
                      (Split.muscles split) selections
           /\ Permutation shuffled (List.concat selections)
           /\ exercise_names s = firstn 6 shuffled
           /\ ((List.length (Split.muscles split) <= 3)%nat ->
               exercise_names s = shuffled).
Proof.
  intros goal Hf Hgoal.
  destruct (generate_plan_sessions user_profile analytics t)
    as (plan & t' & Hg & Hk); [exact Hf|].
  exists plan, t'. split; [exact Hg|].
  intros k s Hn.
  destruct (Hk k s Hn) as ((split & names & Hsp & _ & _ & He & Hp) & _).
  fold goal in Hsp, He, Hp.
  pose proof (muscle_goal_splits goal split _ Hgoal Hsp) as Hin.
  unfold picked_ok in Hp.
  assert (Hm : str_in goal ["hipertrofia"; "forca"] = true)
    by (destruct Hgoal as [E|E]; rewrite E; reflexivity).
  rewrite Hm in Hp. destruct Hp as (sels & sh & Hsel & Hperm & Hnames).
  exists split, sels, sh. split; [exact Hsp|].
  split.
  { apply selections_of_two; [|exact Hsel].
    exact (proj1 (Forall_forall _ _) muscle_lists_long _ Hin). }
  split; [exact Hperm|].
  unfold exercise_names. rewrite He, prescribe_names.
  split; [exact Hnames|].
  intros Hthree. rewrite Hnames. apply firstn_all2.
  rewrite (Permutation_length Hperm), (selections_length _ _ Hsel).
  rewrite (proj2 (proj1 (Forall_forall _ _) muscle_catalogues _ Hin)). lia.
Qed.

Lemma every_group_gets_two_exercises_witness :
  1 <= 3
  /\ exists plan t',
       generate_plan (profile_of "hipertrofia" 3) no_analytics [8; 0; 3]%nat
       = Ok (plan, t')
       /\ forall s, nth_error (all_sessions plan) 0 = Some s ->
            exists chest triceps,
              Permutation (exercise_names s) (chest ++ triceps)
              /\ List.length chest = 2%nat /\ List.length triceps = 2%nat
              /\ (forall x, In x chest -> In x (dict_get exercise_dict "chest" []))
              /\ (forall x, In x triceps ->
                    In x (dict_get exercise_dict "triceps" [])).
Proof.
  split; [lia|].
  destruct (every_group_gets_two_exercises (profile_of "hipertrofia" 3)
              no_analytics [8; 0; 3]%nat)
    as (plan & t' & Hg & Hs); [cbn; lia|left; reflexivity|].
  exists plan, t'. split; [exact Hg|].
  intros s Hn.
  destruct (Hs 0%nat s Hn) as (split & sels & sh & Hsp & Hsel & Hperm & _ & Hall).
  vm_compute in Hsp. injection Hsp as <-. cbn [Split.muscles] in Hsel, Hall.
  inversion Hsel as [|m1 chest ms1 sels1 [Hl1 Hin1] Hsel1]; subst.
  inversion Hsel1 as [|m2 triceps ms2 sels2 [Hl2 Hin2] Hsel2]; subst.
  inversion Hsel2; subst.
  exists chest, triceps. cbn [List.concat] in Hperm. rewrite app_nil_r in Hperm.
  rewrite (Hall ltac:(cbn; lia)). auto.
Defined.

Lemma flat_map_ext_Forall {A B} (f g : A -> list B) (l : list A) :
  Forall (fun a => f a = g a) l -> flat_map f l = flat_map g l.
Proof.
  induction 1 as [|a l Ha _ IH]; [reflexivity|].
  cbn [flat_map]. rewrite Ha, IH. reflexivity.
Qed.

(** The plan record as [generate_plan] fills it. *)
Lemma generate_plan_frame user_profile analytics t plan t' :
  generate_plan user_profile analytics t = Ok (plan, t') ->
  let goal := UserProfile.primary_goal user_profile in
  let freq := UserProfile.training_frequency user_profile in
  plan
  = Plan.mk
      (Overview.mk goal [goal] ((total_sessions + freq - 1) / freq))
      [ "Realize um aquecimento de 5-10 minutos antes das sessões";
        "Mantenha-se hidratado durante todo o treino";
        "Foque na execução correta dos movimentos" ]
      (Plan.training_weeks plan)
      [ "Durma pelo menos 7-8 horas por noite";
        "Inclua alongamentos após os treinos";
        "Faça dias de descanso ativo conforme necessário" ]
      [ "Ajuste sua alimentação de acordo com o objetivo";
        "Inclua proteínas magras e carboidratos complexos";
        "Beba bastante água" ]
      "Aumente gradualmente a carga ou repetições a cada semana conforme se sentir confortável.".
Proof.
  intros H goal freq. unfold generate_plan in H. fold goal freq in H.
  unfold py_floordiv in H.
  destruct (freq =? 0); [discriminate H|].
  rewrite (bind_ok _ _ _ _ _ (lift_ok _ _ _ eq_refl)) in H.
  unfold bind in H.
  destruct (week_loop goal freq _ [] 0 t) as [[[tw sg] t1]|e]; [|discriminate H].
  unfold ret in H. injection H as <- _. reflexivity.
Qed.

(** X18. The text rendered from a generated plan always has every section,
    in this order: the overview with the focus line and the number of weeks
    (the goal line only when the goal is not the empty text), the three
    guidelines, the weeks, each under the header "Semana n: Semana de goal"
    followed by its sessions, then the three recovery tips, the three
    nutrition tips and the progression strategy. *)
Theorem generated_plan_document (user_profile : UserProfile.t)
    (analytics : Analytics.t) (t : tape) :
  let goal := UserProfile.primary_goal user_profile in
  let freq := UserProfile.training_frequency user_profile in
  1 <= freq ->
  exists plan t',
    generate_plan user_profile analytics t = Ok (plan, t')
    /\ render_plan_markdown plan
       = join newline
           (["## Visão geral"]
            ++ (if str_truthy goal
                then [fstr ["- **Objetivo principal:** "; goal]] else [])
            ++ [ fstr ["- **Pontos de foco:** "; goal];
                 fstr ["- **Duração do macrociclo:** ";
                       str_of_int ((total_sessions + freq - 1) / freq);
                       " semanas"];
                 "";
                 "## Diretrizes";
                 "- Realize um aquecimento de 5-10 minutos antes das sessões";
                 "- Mantenha-se hidratado durante todo o treino";
                 "- Foque na execução correta dos movimentos";
                 "";
                 "## Semanas de treino" ]
            ++ flat_map
                 (fun w =>
                    fstr ["### Semana "; str_of_int (Week.week w);
                          ": Semana de "; goal]
                    :: render_sessions 1 (Week.sessions w))
                 (Plan.training_weeks plan)
            ++ [ "";
                 "## Recuperação";
                 "- Durma pelo menos 7-8 horas por noite";
                 "- Inclua alongamentos após os treinos";
                 "- Faça dias de descanso ativo conforme necessário";
                 "";
                 "## Dicas de nutrição";
                 "- Ajuste sua alimentação de acordo com o objetivo";
                 "- Inclua proteínas magras e carboidratos complexos";
                 "- Beba bastante água";
                 "";
                 "## Estratégia de progressão";
                 "Aumente gradualmente a carga ou repetições a cada semana conforme se sentir confortável.";
                 "" ]).
Proof.
  intros goal freq Hf.
  destruct (generate_plan_spec user_profile analytics t)
    as (plan & t' & Hg & _ & Hlen & _); [exact Hf|].
  fold freq in Hlen.
  exists plan, t'. split; [exact Hg|].
  destruct (generate_plan_built _ _ _ _ _ Hg) as (_ & _ & Hb & _).
  fold goal in Hb.
  pose proof (generate_plan_frame _ _ _ _ _ Hg) as Hframe.
  cbv zeta in Hframe. fold goal freq in Hframe.
  assert (Hweeks : 0 < (total_sessions + freq - 1) / freq).
  { apply Z.div_str_pos. unfold total_sessions. lia. }
  assert (Htw : list_truthy (Plan.training_weeks plan) = true).
  { destruct (Plan.training_weeks plan); [|reflexivity].
    change (len (@nil Week.t)) with 0 in Hlen. lia. }
  set (tw := Plan.training_weeks plan) in *.
  assert (Hrender : flat_map render_week tw
                    = flat_map
                        (fun w =>
                           fstr ["### Semana "; str_of_int (Week.week w);
                                 ": Semana de "; goal]
                           :: render_sessions 1 (Week.sessions w)) tw).
  { apply flat_map_ext_Forall.
    eapply Forall_impl; [|exact Hb].
    intros w [Hfocus _]. unfold render_week. rewrite Hfocus. reflexivity. }
  clearbody tw. rewrite Hframe. unfold render_plan_markdown.
  cbn [Plan.overview Plan.guidelines Plan.training_weeks Plan.recovery
       Plan.nutrition_tips Plan.progression_strategy
       Overview.primary_goal Overview.focus_points
       Overview.macrocycle_length_weeks].
  assert (Hz : ((total_sessions + freq - 1) / freq =? 0) = false)
    by (apply Z.eqb_neq; lia).
  rewrite Hz, Htw, Hrender.
  f_equal. unfold render_bullets. cbn [list_truthy map app str_truthy].
  destruct (str_truthy goal); cbn [app]; rewrite <- ?app_assoc; reflexivity.
Qed.

Lemma generated_plan_document_witness :
  1 <= 6
  /\ exists plan t' body,
       generate_plan (profile_of "forca" 6) no_analytics [0; 2; 4]%nat
       = Ok (plan, t')
       /\ render_plan_markdown plan
          = join newline
              (["## Visão geral"; "- **Objetivo principal:** forca";
                "- **Pontos de foco:** forca";
                "- **Duração do macrociclo:** 2 semanas"] ++ body).
Proof.
  split; [lia|].
  destruct (generated_plan_document (profile_of "forca" 6) no_analytics
              [0; 2; 4]%nat)
    as (plan & t' & Hg & Hr); [cbn; lia|].
  exists plan, t'. eexists. split; [exact Hg|]. exact Hr.
Defined.
